(** * calendar-insights: the calendar-to-PostgreSQL ingestion pipeline

    A shallow embedding of [app-gcp/calendar_service.py] (event
    normalisation), of [get_db_connection] of [app-gcp/database.py] and
    of [app-gcp/dynamic_fetch.py] (batch windowing, the upsert store and
    the command line), followed by the properties of the pipeline.

    Conventions.
    - A [datetime] is a count of microseconds (the resolution of Python's
      [datetime]) from 1970-01-01T00:00:00, plus the flag that tells an
      offset-aware value from a naive one.  For an aware value the count
      is the UTC instant, which is what Python subtracts.  Python's
      [datetime] runs from the year 1 to the year 9999: a subtraction
      of days that leaves this range raises [OverflowError].
    - A [float] is an IEEE 754 binary64 value, held as the integer
      multiple of [2^-1074] that it is; divisions round to nearest, ties
      to even.
    - A key that a Python dict may lack is an [option]; [dict.get(k, d)]
      is [get_default].
    - [datetime.fromisoformat], the Calendar API, the statements the
      SQL engine refuses, the time zone of the database session and the
      outcome of each attempt to connect are parameters of the functions
      that use them.
    - The [meetings] table is the one [cleanup_database.py] creates
      ([event_id TEXT UNIQUE], nullable, and a [calendar_id] column),
      held as the list of its rows in insertion order.  The columns [id]
      and [created_at] are assigned by the engine, [organizer_email] is
      never written, and none of the three is inspected by the code
      ([SELECT id] is only tested for a row being there), so a row
      carries the 23 columns the INSERT statement names.  [start_time]
      and [end_time] are [TIMESTAMP] columns, without time zone.
    - The connection comes from [psycopg2.connect] and is left in its
      default mode: the statements of a call run in one transaction,
      which a statement that raises puts in the failed state. *)

From Stdlib Require Import ZArith List String Ascii Bool Arith Lia.
Import ListNotations.
Open Scope string_scope.
Open Scope list_scope.
Open Scope Z_scope.


(* ================================================================= *)
(** ** Python values *)

Module Py.

(** [d.get(k, default)] for a key that may be absent. *)
Definition get_default {A : Type} (v : option A) (default : A) : A :=
  match v with
  | Some x => x
  | None => default
  end.

(** Truth value of an optional string: [None] and [''] are false. *)
Definition truthy_str (v : option string) : bool :=
  match v with
  | Some s => negb (String.eqb s "")
  | None => false
  end.

(** [s.replace('Z', '+00:00')]. *)
Fixpoint replace_Z (s : string) : string :=
  match s with
  | EmptyString => EmptyString
  | String c rest =>
      if Ascii.eqb c "Z"%char
      then ("+00:00" ++ replace_Z rest)%string
      else String c (replace_Z rest)
  end.

(** [sep.join(parts)]. *)
Definition join (sep : string) (parts : list string) : string :=
  String.concat sep parts.

(** [round(num / den)] for an exact quotient and [den > 0]: the
    nearest integer, a tie going to the even neighbour. *)
Definition round_div (num den : Z) : Z :=
  let q := num / den in
  let r := num mod den in
  if 2 * r <? den then q
  else if den <? 2 * r then q + 1
  else if Z.even q then q else q + 1.

(** The float [1.0], in units of [2^-1074]. *)
Definition float_one : Z := 2 ^ 1074.

(** The float nearest to [num / den], both in units of [2^-1074], for
    [0 <= num] and [0 < den]: the quotient is rounded at its 53rd
    significant bit, or at the unit when it has fewer bits than that.
    The exponent has no upper limit here; the quotients taken below
    are spans of time, far from the largest float. *)
Definition nearest_float (num den : Z) : Z :=
  let ulp := 2 ^ Z.max 0 (Z.log2 (num / den) - 52) in
  ulp * round_div num (den * ulp).

(** [a / b] for two ints, [0 < b]: the float nearest to the quotient. *)
Definition int_truediv (a b : Z) : Z :=
  Z.sgn a * nearest_float (Z.abs a * float_one) b.

(** [x / b] for a float [x] and an int [0 < b] that a float holds
    exactly. *)
Definition float_truediv (x b : Z) : Z :=
  Z.sgn x * nearest_float (Z.abs x) b.

(** [int(x)] for a float [x]: truncation toward zero. *)
Definition int_of_float (x : Z) : Z := Z.quot x float_one.

End Py.

(* ================================================================= *)
(** ** Dates and times *)

Record datetime : Type := mk_datetime {
  micros : Z;        (* microseconds from 1970-01-01T00:00:00 (UTC when aware) *)
  tz_aware : bool    (* does the value carry a UTC offset? *)
}.

Definition us_per_second : Z := 1000000.
Definition us_per_minute : Z := 60 * us_per_second.
Definition us_per_day : Z := 86400 * us_per_second.

(** [timedelta(days=n)] in microseconds. *)
Definition timedelta_days (n : Z) : Z := n * us_per_day.
Arguments timedelta_days : simpl never.

(** [end_dt - start_dt]: the difference in microseconds; Python raises
    [TypeError] when exactly one operand is naive. *)
Definition datetime_sub (end_dt start_dt : datetime) : option Z :=
  if Bool.eqb (tz_aware end_dt) (tz_aware start_dt)
  then Some (micros end_dt - micros start_dt)
  else None.

(** [delta.total_seconds()]: the microseconds divided by [10**6], as a
    float. *)
Definition total_seconds (delta : Z) : Z := Py.int_truediv delta us_per_second.

(** [datetime.min] and [datetime.max]: 0001-01-01T00:00:00 and
    9999-12-31T23:59:59.999999. *)
Definition datetime_min : Z := -62135596800 * us_per_second.
Definition datetime_max : Z := 253402300800 * us_per_second - 1.

(** [d - timedelta(days=n)] for an instant [d]; [None] stands for
    [OverflowError]: a [timedelta] holds at most 999999999 days, and
    the result has to be a [datetime]. *)
Definition minus_days (d n : Z) : option Z :=
  let r := d - timedelta_days n in
  if (Z.abs n <=? 999999999) && (datetime_min <=? r) && (r <=? datetime_max)
  then Some r
  else None.

(* ================================================================= *)
(** ** calendar_service.py *)

Module calendar_service.

(** The [start] and [end] objects of an event. *)
Record TimeInfo : Type := mk_TimeInfo {
  dateTime : option string;
  date : option string
}.

Definition no_time : TimeInfo := mk_TimeInfo None None.

Record Attendee : Type := mk_Attendee {
  email : option string;
  responseStatus : option string
}.

Record EntryPoint : Type := mk_EntryPoint {
  entryPointType : option string;
  uri : option string
}.

(** An event as the Calendar API returns it (the keys the code reads). *)
Record RawEvent : Type := mk_RawEvent {
  raw_id : option string;
  raw_summary : option string;
  raw_start : option TimeInfo;
  raw_end : option TimeInfo;
  raw_organizer_email : option string;   (* organizer.email *)
  raw_attendees : option (list Attendee);
  raw_hangoutLink : option string;
  raw_htmlLink : option string;
  raw_conferenceData : option (list EntryPoint)  (* conferenceData.entryPoints *)
}.

(** The dict [get_events] builds for each event.  Its keys are [id],
    [summary], [start], [end], [organizer], [attendees],
    [hangout_link], [html_link] and [conference_data] (and others that
    [fetch_calendar_data] does not read). *)
Record ProcessedEvent : Type := mk_ProcessedEvent {
  ev_id : option string;
  ev_summary : string;
  ev_start : TimeInfo;
  ev_end : TimeInfo;
  ev_organizer_email : option string;
  ev_attendees : list Attendee;
  ev_hangout_link : option string;
  ev_html_link : option string;
  ev_conference_data : list EntryPoint
}.

Definition process_event (event : RawEvent) : ProcessedEvent :=
  {| ev_id := raw_id event;
     ev_summary := Py.get_default (raw_summary event) "No Title";
     ev_start := Py.get_default (raw_start event) no_time;
     ev_end := Py.get_default (raw_end event) no_time;
     ev_organizer_email := raw_organizer_email event;
     ev_attendees := Py.get_default (raw_attendees event) [];
     ev_hangout_link := raw_hangoutLink event;
     ev_html_link := raw_htmlLink event;
     ev_conference_data := Py.get_default (raw_conferenceData event) [] |}.

(** The record [fetch_calendar_data] emits for one event. *)
Record MeetingRecord : Type := mk_MeetingRecord {
  event_id : option string;
  calendar_id : string;
  organizer_email : string;
  user_email : string;
  summary : string;
  start_time : datetime;
  end_time : datetime;
  duration_minutes : Z;
  attendees_count : nat;
  attendees_accepted : nat;
  attendees_declined : nat;
  attendees_tentative : nat;
  attendees_needs_action : nat;
  attendees_accepted_emails : string;
  meet_link : string;
  html_link : string;
  is_one_on_one : bool;
  has_manager_attendee : bool;
  unique_departments : Z;
  departments_list : string;
  department : string;
  division : string;
  subdepartment : string;
  is_manager : bool
}.

(** The four counters and the e-mail list of the attendee loop. *)
Record Tally : Type := mk_Tally {
  t_accepted : nat;
  t_declined : nat;
  t_tentative : nat;
  t_needs_action : nat;
  t_accepted_emails : list string
}.

Definition tally0 : Tally := mk_Tally 0 0 0 0 [].

(** One turn of [for attendee in attendees]: an if/elif chain over the
    four statuses, with no final [else]. *)
Definition count_attendee (t : Tally) (attendee : Attendee) : Tally :=
  let response_status := Py.get_default (responseStatus attendee) "needsAction" in
  if String.eqb response_status "accepted" then
    mk_Tally (S (t_accepted t)) (t_declined t) (t_tentative t) (t_needs_action t)
             (t_accepted_emails t ++ [Py.get_default (email attendee) ""])
  else if String.eqb response_status "declined" then
    mk_Tally (t_accepted t) (S (t_declined t)) (t_tentative t) (t_needs_action t)
             (t_accepted_emails t)
  else if String.eqb response_status "tentative" then
    mk_Tally (t_accepted t) (t_declined t) (S (t_tentative t)) (t_needs_action t)
             (t_accepted_emails t)
  else if String.eqb response_status "needsAction" then
    mk_Tally (t_accepted t) (t_declined t) (t_tentative t) (S (t_needs_action t))
             (t_accepted_emails t)
  else t.

Definition count_attendees (attendees : list Attendee) : Tally :=
  fold_left count_attendee attendees tally0.

(** [start_info.get('dateTime', start_info.get('date'))]. *)
Definition time_of (info : TimeInfo) : option string :=
  match dateTime info with
  | Some s => Some s
  | None => date info
  end.

Section Normalise.

(** [datetime.fromisoformat]; [None] stands for [ValueError]. *)
Variable fromisoformat : string -> option datetime.

(** The body of the [try] that computes the duration:
    [int((end_dt - start_dt).total_seconds() / 60)], two float
    divisions and a truncation. *)
Definition parse_times (start_time end_time : string)
  : option (datetime * datetime * Z) :=
  match fromisoformat (Py.replace_Z start_time) with
  | None => None
  | Some start_dt =>
      match fromisoformat (Py.replace_Z end_time) with
      | None => None
      | Some end_dt =>
          match datetime_sub end_dt start_dt with
          | None => None
          | Some delta =>
              Some (start_dt, end_dt,
                    Py.int_of_float (Py.float_truediv (total_seconds delta) 60))
          end
      end
  end.

(** One turn of [for event in events]: [None] is [continue]. *)
Definition normalise_event (event : ProcessedEvent) : option MeetingRecord :=
  let attendees := ev_attendees event in
  let start_time := time_of (ev_start event) in
  let end_time := time_of (ev_end event) in
  if negb (Py.truthy_str start_time) || negb (Py.truthy_str end_time) then None
  else
    match parse_times (Py.get_default start_time "") (Py.get_default end_time "") with
    | None => None
    | Some (start_dt, end_dt, duration) =>
        let organizer := Py.get_default (ev_organizer_email event) "unknown@domain.com" in
        let t := count_attendees attendees in
        let count := List.length attendees in
        (* event.get('hangoutLink', ''), event.get('conferenceData') and
           event.get('htmlLink', '') name keys that the dict built by
           get_events does not have: the defaults are what comes back. *)
        let link := "" in
        Some {| event_id := ev_id event;
                calendar_id := "primary";
                organizer_email := organizer;
                user_email := organizer;
                summary := ev_summary event;
                start_time := start_dt;
                end_time := end_dt;
                duration_minutes := duration;
                attendees_count := count;
                attendees_accepted := t_accepted t;
                attendees_declined := t_declined t;
                attendees_tentative := t_tentative t;
                attendees_needs_action := t_needs_action t;
                attendees_accepted_emails := Py.join "," (t_accepted_emails t);
                meet_link := link;
                html_link := "";
                is_one_on_one := Nat.eqb count 2;
                has_manager_attendee := false;
                unique_departments := 1;
                departments_list := "Unknown";
                department := "Unknown";
                division := "Unknown";
                subdepartment := "Unknown";
                is_manager := false |}
    end.

(** The loop of [fetch_calendar_data] over the events of one call. *)
Fixpoint normalise_events (events : list ProcessedEvent) : list MeetingRecord :=
  match events with
  | [] => []
  | event :: rest =>
      match normalise_event event with
      | Some meeting_record => meeting_record :: normalise_events rest
      | None => normalise_events rest
      end
  end.

(** [events().list(...).execute()] for a window; [None] stands for a
    failed authentication or any exception, which [get_events] turns
    into an empty list. *)
Variable api_list : Z -> Z -> Z -> option (list RawEvent).

Definition get_events (start_date end_date max_results : Z) : list ProcessedEvent :=
  match api_list start_date end_date max_results with
  | Some items => map process_event items
  | None => []
  end.

Definition fetch_calendar_data (start_date end_date : Z) : list MeetingRecord :=
  normalise_events (get_events start_date end_date 2500).

End Normalise.

End calendar_service.

Import calendar_service.

(* ================================================================= *)
(** ** The [meetings] table and the statements sent to it *)

Module database.

(** A row of [meetings]: the columns of the INSERT statement, in its
    order. *)
Record Row : Type := mk_Row {
  col_event_id : option string;
  col_calendar_id : string;
  col_user_email : string;
  col_department : string;
  col_division : string;
  col_subdepartment : string;
  col_is_manager : bool;
  col_start_time : datetime;
  col_end_time : datetime;
  col_duration_minutes : Z;
  col_attendees_count : nat;
  col_attendees_accepted : nat;
  col_attendees_declined : nat;
  col_attendees_tentative : nat;
  col_attendees_needs_action : nat;
  col_attendees_accepted_emails : string;
  col_summary : string;
  col_meet_link : string;
  col_html_link : string;
  col_is_one_on_one : bool;
  col_has_manager_attendee : bool;
  col_unique_departments : Z;
  col_departments_list : string
}.

(** The statements of [store_meetings_data], with their parameters. *)
Inductive Sql : Type :=
| DeleteMeetings                                    (* DELETE FROM meetings *)
| SelectIdByEventId (eid : option string)           (* SELECT id ... WHERE event_id = %s *)
| UpdateMeeting (meeting : MeetingRecord)           (* UPDATE meetings SET ... WHERE event_id = %s *)
| InsertMeeting (meeting : MeetingRecord).          (* INSERT ... ON CONFLICT (event_id) DO NOTHING *)

(** What the cursor holds after a statement went through. *)
Record Reply : Type := mk_Reply {
  rowcount : nat;
  fetched : list Row
}.

(** The [TimeZone] setting of the session: the offset from UTC, in
    microseconds, that is in force at a UTC instant. *)
Class TimeZone : Type := utc_offset : Z -> Z.

Section Session.

Context {zone : TimeZone}.

(** What a [TIMESTAMP] column keeps of a [datetime] parameter.
    psycopg2 sends an aware value as a [timestamptz] literal, and the
    engine stores the wall clock that the instant has in the session's
    time zone; a naive value is sent as a [timestamp] literal and
    stored as it is. *)
Definition timestamp (d : datetime) : datetime :=
  if tz_aware d
  then mk_datetime (micros d + utc_offset (micros d)) false
  else d.

(** The row that the INSERT statement makes of its values. *)
Definition row_of_meeting (meeting : MeetingRecord) : Row :=
  {| col_event_id := event_id meeting;
     col_calendar_id := calendar_id meeting;
     col_user_email := user_email meeting;
     col_department := department meeting;
     col_division := division meeting;
     col_subdepartment := subdepartment meeting;
     col_is_manager := is_manager meeting;
     col_start_time := timestamp (start_time meeting);
     col_end_time := timestamp (end_time meeting);
     col_duration_minutes := duration_minutes meeting;
     col_attendees_count := attendees_count meeting;
     col_attendees_accepted := attendees_accepted meeting;
     col_attendees_declined := attendees_declined meeting;
     col_attendees_tentative := attendees_tentative meeting;
     col_attendees_needs_action := attendees_needs_action meeting;
     col_attendees_accepted_emails := attendees_accepted_emails meeting;
     col_summary := summary meeting;
     col_meet_link := meet_link meeting;
     col_html_link := html_link meeting;
     col_is_one_on_one := is_one_on_one meeting;
     col_has_manager_attendee := has_manager_attendee meeting;
     col_unique_departments := unique_departments meeting;
     col_departments_list := departments_list meeting |}.

(** The SET clause of the UPDATE statement: eleven columns. *)
Definition update_row (meeting : MeetingRecord) (r : Row) : Row :=
  {| col_event_id := col_event_id r;
     col_calendar_id := col_calendar_id r;
     col_user_email := col_user_email r;
     col_department := col_department r;
     col_division := col_division r;
     col_subdepartment := col_subdepartment r;
     col_is_manager := col_is_manager r;
     col_start_time := timestamp (start_time meeting);
     col_end_time := timestamp (end_time meeting);
     col_duration_minutes := duration_minutes meeting;
     col_attendees_count := attendees_count meeting;
     col_attendees_accepted := attendees_accepted meeting;
     col_attendees_declined := attendees_declined meeting;
     col_attendees_tentative := attendees_tentative meeting;
     col_attendees_needs_action := attendees_needs_action meeting;
     col_attendees_accepted_emails := col_attendees_accepted_emails r;
     col_summary := summary meeting;
     col_meet_link := meet_link meeting;
     col_html_link := html_link meeting;
     col_is_one_on_one := col_is_one_on_one r;
     col_has_manager_attendee := col_has_manager_attendee r;
     col_unique_departments := col_unique_departments r;
     col_departments_list := col_departments_list r |}.

(** [event_id = %s] in a WHERE clause, and the test of the unique
    constraint on [event_id]: a NULL on either side never matches. *)
Definition event_id_matches (eid : option string) (r : Row) : bool :=
  match eid, col_event_id r with
  | Some a, Some b => String.eqb a b
  | _, _ => false
  end.

(** The effect of a statement the engine accepts. *)
Definition apply_sql (s : Sql) (table : list Row) : list Row * Reply :=
  match s with
  | DeleteMeetings => ([], mk_Reply (List.length table) [])
  | SelectIdByEventId eid =>
      let hits := filter (event_id_matches eid) table in
      (table, mk_Reply (List.length hits) hits)
  | UpdateMeeting meeting =>
      let hit := event_id_matches (event_id meeting) in
      (map (fun r => if hit r then update_row meeting r else r) table,
       mk_Reply (List.length (filter hit table)) [])
  | InsertMeeting meeting =>
      if existsb (event_id_matches (event_id meeting)) table
      then (table, mk_Reply 0 [])
      else (table ++ [row_of_meeting meeting], mk_Reply 1 [])
  end.

End Session.

(** A psycopg2 cursor inside the transaction of its connection. *)
Record Cursor : Type := mk_Cursor {
  table : list Row;        (* the rows this transaction sees *)
  failed : bool;           (* has a statement of the transaction raised? *)
  journal : list Sql       (* every statement sent so far *)
}.

Section Engine.

Context {zone : TimeZone}.

(** The statements the engine refuses (a constraint it checks, a
    value out of the range of its column, ...). *)
Variable refuses : Sql -> bool.

(** [cursor.execute(s)]; [None] stands for the exception.  The
    connection is not in autocommit mode: a statement that raises
    leaves the transaction failed, and PostgreSQL then refuses every
    further statement until the transaction ends.  Every exception is
    taken to come from the engine: one that psycopg2 raises before it
    sends the statement (a parameter it cannot adapt) would leave the
    transaction as it is. *)
Definition execute (s : Sql) (c : Cursor) : Cursor * option Reply :=
  let sent := journal c ++ [s] in
  if failed c then (mk_Cursor (table c) true sent, None)
  else if refuses s then (mk_Cursor (table c) true sent, None)
  else
    let (table', reply) := apply_sql s (table c) in
    (mk_Cursor table' false sent, Some reply).

End Engine.

(** The database between two connections. *)
Record Db : Type := mk_Db {
  meetings : list Row;
  statements : list Sql
}.

(** [conn.cursor()] on a fresh connection. *)
Definition open_cursor (db : Db) : Cursor :=
  mk_Cursor (meetings db) false (statements db).

(** [conn.commit()]: the COMMIT of a failed transaction is answered by
    a rollback, without an exception. *)
Definition commit (db : Db) (c : Cursor) : Db :=
  mk_Db (if failed c then meetings db else table c) (journal c).

(** [conn.close()] with the transaction still open: a rollback. *)
Definition close_uncommitted (db : Db) (c : Cursor) : Db :=
  mk_Db (meetings db) (journal c).

End database.

Import database.

(* ================================================================= *)
(** ** database.py: get_db_connection *)

Module db_connection.

(** One turn of the retry loop: [psycopg2.connect] and the [SELECT 1]
    test both pass, [connect] raises, or the test fails. *)
Inductive Try : Type :=
| Works
| ConnectRaises
| TestFails.

(** How [get_db_connection] ends: a [ValueError] before any attempt, the
    last exception re-raised, or the value it yields (the number of the
    attempt that gave the connection, or [None]); with the number of
    calls of [time.sleep(retry_delay)] made on the way. *)
Inductive Ending : Type :=
| ValueError
| Raised (slept : nat)
| Yielded (conn : option nat) (slept : nat).

(** [os.getenv(key, default)]. *)
Definition getenv_or (env : string -> option string) (key : string)
    (default : option string) : option string :=
  match env key with
  | Some v => Some v
  | None => default
  end.

Definition db_host (env : string -> option string) : option string :=
  getenv_or env "POSTGRES_HOST" (env "DB_HOST").
Definition db_port (env : string -> option string) : option string :=
  getenv_or env "POSTGRES_PORT" (getenv_or env "DB_PORT" (Some "5432")).
Definition db_name (env : string -> option string) : option string :=
  getenv_or env "POSTGRES_DB" (env "DB_NAME").
Definition db_user (env : string -> option string) : option string :=
  getenv_or env "POSTGRES_USER" (env "DB_USER").
Definition db_password (env : string -> option string) : option string :=
  getenv_or env "POSTGRES_PASSWORD" (env "DB_PASSWORD").

(** The four [if not ...: raise ValueError(...)]. *)
Definition parameters_given (env : string -> option string) : bool :=
  Py.truthy_str (db_host env) && Py.truthy_str (db_name env)
  && Py.truthy_str (db_user env) && Py.truthy_str (db_password env).

Section Retry.

(** The outcome of the attempt made when [retries] failures came
    before it. *)
Variable try_connect : nat -> Try.
Variable max_retries : nat.

(** [while retries < max_retries: ...], at most [fuel] turns; [None]
    when the loop is still running after them. *)
Fixpoint connect_loop (fuel : nat) (retries slept : nat) (conn : option nat)
  : option Ending :=
  if (retries <? max_retries)%nat then
    match fuel with
    | O => None
    | S fuel' =>
        match try_connect retries with
        | Works => Some (Yielded (Some retries) slept)        (* break *)
        | failure =>
            let conn' :=
              match failure with
              | TestFails => Some retries     (* conn is bound before the test *)
              | _ => conn
              end in
            let retries' := S retries in
            if (max_retries <=? retries')%nat then Some (Raised slept)
            else connect_loop fuel' retries' (S slept) conn'
        end
    end
  else Some (Yielded conn slept).

End Retry.

(** [get_db_connection(max_retries, retry_delay)] up to its [yield]. *)
Definition get_db_connection (env : string -> option string)
    (try_connect : nat -> Try) (max_retries : nat) : option Ending :=
  if negb (parameters_given env) then Some ValueError
  else connect_loop try_connect max_retries max_retries 0 0 None.

(** The defaults of [get_db_connection]. *)
Definition default_max_retries : nat := 20.
Definition default_retry_delay : nat := 10.

End db_connection.

(* ================================================================= *)
(** ** dynamic_fetch.py *)

Module dynamic_fetch.

(** The object bound to [service]: [authenticate()] and
    [fetch_calendar_data(start, end)].  The first argument of the
    fetch is the number of the call (the same window may be asked for
    more than once); [None] stands for an exception leaving the
    call. *)
Record Service : Type := mk_Service {
  authenticate : bool;
  service_fetch : nat -> Z -> Z -> option (list MeetingRecord)
}.

(** [GoogleCalendarService] as [calendar_service.py] defines it. *)
Definition GoogleCalendarService
    (credentials_ok : bool)
    (fromisoformat : string -> option datetime)
    (api_list : Z -> Z -> Z -> option (list RawEvent)) : Service :=
  {| authenticate := credentials_ok;
     service_fetch := fun _ start_date end_date =>
       Some (fetch_calendar_data fromisoformat api_list start_date end_date) |}.

(* --------------------------------------------------------------- *)
(** *** store_meetings_data *)

Record Counters : Type := mk_Counters {
  inserted : nat;
  updated : nat;
  skipped : nat
}.

Definition count_inserted (k : Counters) : Counters :=
  mk_Counters (S (inserted k)) (updated k) (skipped k).
Definition count_updated (k : Counters) : Counters :=
  mk_Counters (inserted k) (S (updated k)) (skipped k).
Definition count_skipped (k : Counters) : Counters :=
  mk_Counters (inserted k) (updated k) (S (skipped k)).

Record StoreResult : Type := mk_StoreResult {
  returned : bool;
  db_after : Db;
  counters : Counters
}.

Section Store.

Context {zone : TimeZone}.

Variable refuses : Sql -> bool.

(** The INSERT of one record and the test of [cursor.rowcount]. *)
Definition insert_meeting (c : Cursor) (k : Counters) (meeting : MeetingRecord)
  : Cursor * Counters :=
  match execute refuses (InsertMeeting meeting) c with
  | (c1, Some reply) =>
      if (0 <? rowcount reply)%nat
      then (c1, count_inserted k)
      else (c1, count_skipped k)
  | (c1, None) => (c1, count_skipped k)       (* except Exception *)
  end.

(** One turn of [for i, meeting in enumerate(meetings_data)]; the
    progress line printed every hundred records is left out. *)
Definition process_meeting (clear_existing : bool)
    (st : Cursor * Counters) (meeting : MeetingRecord) : Cursor * Counters :=
  let (c, k) := st in
  if negb clear_existing then
    match execute refuses (SelectIdByEventId (event_id meeting)) c with
    | (c1, None) => (c1, count_skipped k)     (* except Exception *)
    | (c1, Some reply) =>
        match fetched reply with              (* existing = cursor.fetchone() *)
        | _ :: _ =>
            match execute refuses (UpdateMeeting meeting) c1 with
            | (c2, Some _) => (c2, count_updated k)
            | (c2, None) => (c2, count_skipped k)   (* except Exception *)
            end
        | [] => insert_meeting c1 k meeting
        end
    end
  else insert_meeting c k meeting.

Definition process_meetings (clear_existing : bool)
    (meetings_data : list MeetingRecord) (st : Cursor * Counters)
  : Cursor * Counters :=
  fold_left (process_meeting clear_existing) meetings_data st.

(** [store_meetings_data(meetings_data, clear_existing)] on the
    connection that [get_db_connection] yielded.  The two read-only
    statistics queries that follow the commit only feed the printed
    summary and are left out. *)
Definition store_meetings_data (meetings_data : list MeetingRecord)
    (clear_existing : bool) (db : Db) : StoreResult :=
  let c0 := open_cursor db in
  let zero := mk_Counters 0 0 0 in
  let cleared :=
    if clear_existing then execute refuses DeleteMeetings c0
    else (c0, Some (mk_Reply 0 [])) in
  match cleared with
  | (c1, None) =>                             (* outer except: return False *)
      mk_StoreResult false (close_uncommitted db c1) zero
  | (c1, Some _) =>
      let (c2, k) := process_meetings clear_existing meetings_data (c1, zero) in
      mk_StoreResult true (commit db c2) k
  end.

End Store.

(** [store_meetings_data] from its first line: the connection is asked
    for with the defaults, and anything but a connection ends in the
    outer handler, which returns [False]. *)
Definition store_meetings_data_with_connection {zone : TimeZone}
    (env : string -> option string) (try_connect : nat -> db_connection.Try)
    (refuses : Sql -> bool) (meetings_data : list MeetingRecord)
    (clear_existing : bool) (db : Db) : option StoreResult :=
  match db_connection.get_db_connection env try_connect
          db_connection.default_max_retries with
  | None => None
  | Some (db_connection.Yielded (Some _) _) =>
      Some (store_meetings_data refuses meetings_data clear_existing db)
  | Some _ => Some (mk_StoreResult false db (mk_Counters 0 0 0))
  end.

(* --------------------------------------------------------------- *)
(** *** fetch_historical_data and fetch_incremental_data *)

(** One call of [service.fetch_calendar_data] made by the batch loop. *)
Record Attempt : Type := mk_Attempt {
  attempt_batch : nat;
  window_start : Z;
  window_end : Z;
  fetched_ok : bool
}.

Record LoopState : Type := mk_LoopState {
  current_start : Z;
  current_batch : nat;
  all_meetings : list MeetingRecord;
  attempts : list Attempt
}.

Definition loop_start (start_date : Z) : LoopState :=
  mk_LoopState start_date 0 [] [].

Section Fetch.

Variable service : Service.

(** [while current_start < end_date: ...], at most [fuel] turns;
    [None] when the loop is still running after them. *)
Fixpoint batch_loop (fuel : nat) (end_date : Z) (st : LoopState) : option LoopState :=
  if current_start st <? end_date then
    match fuel with
    | O => None
    | S fuel' =>
        let batch := S (current_batch st) in
        let current_end := Z.min (current_start st + timedelta_days 31) end_date in
        match service_fetch service batch (current_start st) current_end with
        | Some batch_meetings =>
            batch_loop fuel' end_date
              {| current_start := current_end;
                 current_batch := batch;
                 all_meetings := all_meetings st ++ batch_meetings;
                 attempts := attempts st
                               ++ [mk_Attempt batch (current_start st) current_end true] |}
        | None =>
            (* except Exception: logger.warning(...); continue *)
            batch_loop fuel' end_date
              {| current_start := current_start st;
                 current_batch := batch;
                 all_meetings := all_meetings st;
                 attempts := attempts st
                               ++ [mk_Attempt batch (current_start st) current_end false] |}
        end
    end
  else Some st.

Context {zone : TimeZone}.

(** The environment and the attempts to connect that
    [get_db_connection] meets. *)
Variable env : string -> option string.
Variable try_connect : nat -> db_connection.Try.

Variable refuses : Sql -> bool.

(** [datetime.now(timezone.utc)], the reading of the clock. *)
Variable now : Z.

Definition fetch_historical_data (fuel : nat) (years_back : Z) (db : Db)
  : option (bool * Db) :=
  if negb (authenticate service) then Some (false, db)
  else
    let end_date := now in
    match minus_days end_date (years_back * 365) with
    | None => Some (false, db)                (* OverflowError; outer except *)
    | Some start_date =>
        match batch_loop fuel end_date (loop_start start_date) with
        | None => None
        | Some st =>
            match all_meetings st with
            | [] => Some (false, db)
            | _ :: _ =>
                option_map (fun r => (returned r, db_after r))
                  (store_meetings_data_with_connection env try_connect refuses
                     (all_meetings st) true db)
            end
        end
    end.

(** [fetch_incremental_data(days_back)]; [None] only when the retry
    loop of [get_db_connection] is still running after the turns it is
    given here, which are as many as it can take. *)
Definition fetch_incremental_data (days_back : Z) (db : Db) : option (bool * Db) :=
  if negb (authenticate service) then Some (false, db)
  else
    let end_date := now in
    match minus_days end_date days_back with
    | None => Some (false, db)                (* OverflowError; outer except *)
    | Some start_date =>
        match service_fetch service 1%nat start_date end_date with
        | None => Some (false, db)            (* outer except: return False *)
        | Some [] => Some (true, db)
        | Some meetings_data =>
            option_map (fun r => (returned r, db_after r))
              (store_meetings_data_with_connection env try_connect refuses
                 meetings_data false db)
        end
    end.

End Fetch.

(* --------------------------------------------------------------- *)
(** *** main *)

(** The namespace returned by [parser.parse_args()]. *)
Record Args : Type := mk_Args {
  arg_years : option Z;
  arg_days : option Z;
  arg_daily : bool;
  arg_start_date : option string;
  arg_end_date : option string
}.

Definition truthy_int (v : option Z) : bool :=
  match v with
  | Some n => negb (n =? 0)
  | None => false
  end.

Definition required_env_vars : list string :=
  ["POSTGRES_HOST"; "POSTGRES_DB"; "POSTGRES_USER"; "POSTGRES_PASSWORD"].

(** The names bound at the top level of the module: its imports, its
    logger and its four functions. *)
Definition module_globals : list string :=
  ["os"; "sys"; "logging"; "argparse"; "datetime"; "timedelta"; "timezone";
   "time"; "GoogleCalendarService"; "get_db_connection"; "logger";
   "fetch_historical_data"; "fetch_incremental_data"; "store_meetings_data";
   "main"].

Definition is_global (name : string) : bool :=
  existsb (String.eqb name) module_globals.

(** What the four methods that [main] calls on its fetcher would
    return. *)
Record Fetcher : Type := mk_Fetcher {
  fetch_daily_update : bool;
  fetcher_fetch_historical_data : Z -> bool;
  fetch_recent_data : Z -> bool;
  fetch_date_range : string -> string -> bool
}.

(** [main()] once [parser.parse_args()] has returned, as the exit
    status of the process: 1 for [sys.exit(1)], 0 when [main]
    returns. *)
Definition main (getenv : string -> option string) (args : Args)
    (fetcher : Fetcher) : Z :=
  let missing_vars :=
    filter (fun var => negb (Py.truthy_str (getenv var))) required_env_vars in
  match missing_vars with
  | _ :: _ => 1
  | [] =>
      (* try: fetcher = DynamicCalendarFetcher() *)
      if negb (is_global "DynamicCalendarFetcher") then
        1                                       (* NameError; except Exception: sys.exit(1) *)
      else
        let success :=
          if arg_daily args then Some (fetch_daily_update fetcher)
          else if truthy_int (arg_years args) then
            Some (fetcher_fetch_historical_data fetcher (Py.get_default (arg_years args) 0))
          else if truthy_int (arg_days args) then
            Some (fetch_recent_data fetcher (Py.get_default (arg_days args) 0))
          else if Py.truthy_str (arg_start_date args) && Py.truthy_str (arg_end_date args) then
            Some (fetch_date_range fetcher
                    (Py.get_default (arg_start_date args) "")
                    (Py.get_default (arg_end_date args) ""))
          else None in
        match success with
        | None => 1                             (* usage message; sys.exit(1) *)
        | Some true => 0
        | Some false => 1
        end
  end.

End dynamic_fetch.

Import dynamic_fetch.

(* ================================================================= *)
(** ** Vocabulary of the properties *)

(** The sum of the four response counters of a record. *)
Definition response_total (m : MeetingRecord) : nat :=
  (attendees_accepted m + attendees_declined m
   + attendees_tentative m + attendees_needs_action m)%nat.

(** An attendee whose status is one of the four values of the case
    split, or is absent. *)
Definition status_counted (a : Attendee) : bool :=
  match responseStatus a with
  | None => true
  | Some s =>
      String.eqb s "accepted" || String.eqb s "declined"
      || String.eqb s "tentative" || String.eqb s "needsAction"
  end.

(** An attendee counted as [needsAction]: the status is that value or is
    absent. *)
Definition status_needs_action (a : Attendee) : bool :=
  match responseStatus a with
  | None => true
  | Some s => String.eqb s "needsAction"
  end.

(** [int(delta.total_seconds() / 60)] for a difference of [delta]
    microseconds. *)
Definition minutes_of (delta : Z) : Z :=
  Py.int_of_float (Py.float_truediv (total_seconds delta) 60).

(** A float with at most 53 significant bits, in units of [2^-1074]. *)
Definition representable (f : Z) : Prop :=
  exists m j, 0 <= m < 2 ^ 53 /\ 0 <= j /\ f = m * 2 ^ j.

Definition counters_total (k : Counters) : nat :=
  (inserted k + updated k + skipped k)%nat.

(** The counters as the batch starts. *)
Definition zero_counters : Counters := mk_Counters 0 0 0.

(** The cursor of a fresh connection once its DELETE went through. *)
Definition cleared_cursor (db : Db) : Cursor :=
  mk_Cursor [] false (statements db ++ [DeleteMeetings]).

(** The state after one turn of the batch loop, for a window that is
    fetched and for one whose fetch raises. *)
Definition turn_ok (end_date : Z) (st : LoopState) (batch : list MeetingRecord)
  : LoopState :=
  {| current_start := Z.min (current_start st + timedelta_days 31) end_date;
     current_batch := S (current_batch st);
     all_meetings := all_meetings st ++ batch;
     attempts := attempts st
       ++ [mk_Attempt (S (current_batch st)) (current_start st)
             (Z.min (current_start st + timedelta_days 31) end_date) true] |}.

Definition turn_failed (end_date : Z) (st : LoopState) : LoopState :=
  {| current_start := current_start st;
     current_batch := S (current_batch st);
     all_meetings := all_meetings st;
     attempts := attempts st
       ++ [mk_Attempt (S (current_batch st)) (current_start st)
             (Z.min (current_start st + timedelta_days 31) end_date) false] |}.

(** Is there a row with this (non-null) [event_id]? *)
Definition has_event_id (eid : option string) (rows : list Row) : bool :=
  existsb (event_id_matches eid) rows.

(** What one record does to the table when every statement goes
    through: the rows after the turn of [store_meetings_data]'s loop. *)
Definition store_step {zone : TimeZone}
    (clear_existing : bool) (rows : list Row) (meeting : MeetingRecord)
  : list Row :=
  if negb clear_existing && has_event_id (event_id meeting) rows
  then fst (apply_sql (UpdateMeeting meeting) rows)
  else fst (apply_sql (InsertMeeting meeting) rows).

(** What one record does to the counters when every statement goes
    through. *)
Definition count_step (clear_existing : bool) (rows : list Row) (k : Counters)
    (meeting : MeetingRecord) : Counters :=
  if negb clear_existing && has_event_id (event_id meeting) rows then count_updated k
  else if has_event_id (event_id meeting) rows then count_skipped k
  else count_inserted k.

(** Rows and counters after a batch in which every statement goes
    through. *)
Definition accepted_run {zone : TimeZone} (clear_existing : bool) (ms : list MeetingRecord)
    (st : list Row * Counters) : list Row * Counters :=
  fold_left (fun st m => (store_step clear_existing (fst st) m,
                          count_step clear_existing (fst st) (snd st) m)) ms st.

(** Every record has a row with its [event_id]. *)
Definition covered (ms : list MeetingRecord) (rows : list Row) : Prop :=
  Forall (fun m => has_event_id (event_id m) rows = true) ms.

(** The UPDATE of one record, seen from one row. *)
Definition update_if_matches {zone : TimeZone} (meeting : MeetingRecord) (r : Row) : Row :=
  if event_id_matches (event_id meeting) r then update_row meeting r else r.

(** A row after the UPDATEs of all the records, in order. *)
Definition settle {zone : TimeZone} (ms : list MeetingRecord) (r : Row) : Row :=
  fold_left (fun r m => update_if_matches m r) ms r.

(** Two rows that differ at most in the columns the UPDATE sets. *)
Definition same_frame {zone : TimeZone} (r r' : Row) : Prop :=
  col_event_id r = col_event_id r' /\
  forall m, update_row m r = update_row m r'.

(** What a cursor holds besides the journal. *)
Definition cursor_data (c : Cursor) : list Row * bool := (table c, failed c).

(** Turns that are enough for the batch loop when no fetch raises. *)
Definition turns_needed (start_date end_date : Z) : nat :=
  S (Z.to_nat ((end_date - start_date) / timedelta_days 31)).

(** The window of an attempt, as the pair of its bounds. *)
Definition window_of (a : Attempt) : Z * Z := (window_start a, window_end a).

(** The windows of the attempts whose fetch returned. *)
Definition fetched_windows (l : list Attempt) : list (Z * Z) :=
  map window_of (filter fetched_ok l).

(** [t] lies in the half-open window [w]. *)
Definition in_window (t : Z) (w : Z * Z) : Prop := fst w <= t < snd w.

(** The windows follow one another from [a] to [b]: each one starts
    where the one before it ended, and none is empty. *)
Fixpoint contiguous (a b : Z) (ws : list (Z * Z)) : Prop :=
  match ws with
  | [] => a = b
  | w :: rest => fst w = a /\ fst w < snd w /\ contiguous (snd w) b rest
  end.

(** Every instant of [[a, b)] is in a window and the windows hold
    nothing else. *)
Definition covers (a b : Z) (ws : list (Z * Z)) : Prop :=
  forall t, a <= t < b <-> exists w, In w ws /\ in_window t w.

(** Two windows at different places of the list share no instant: the
    earlier one ends before the later one starts, or just there. *)
Definition non_overlapping (ws : list (Z * Z)) : Prop :=
  forall i j w1 w2, (i < j)%nat ->
    nth_error ws i = Some w1 -> nth_error ws j = Some w2 -> snd w1 <= fst w2.

(** The records before [meeting] in [pre] leave its [event_id] free:
    none of them has the same non-null identifier. *)
Definition first_of_its_id {zone : TimeZone}
    (pre : list MeetingRecord) (meeting : MeetingRecord) : Prop :=
  Forall (fun m' => event_id_matches (event_id meeting) (row_of_meeting m') = false) pre.

(** No two rows carry the same non-null [event_id]: the unique
    constraint of the table. *)
Fixpoint unique_event_ids (rows : list Row) : Prop :=
  match rows with
  | [] => True
  | r :: rest =>
      existsb (event_id_matches (col_event_id r)) rest = false /\ unique_event_ids rest
  end.

(* ================================================================= *)
(** ** Sample inputs *)

Module samples.

(** [datetime.fromisoformat] on the strings of the samples, counted
    from 1970-01-01T00:00:00+00:00. *)
Definition fromisoformat (s : string) : option datetime :=
  if String.eqb s "2024-01-01T09:00:00+00:00" then Some (mk_datetime 1704099600000000 true)
  else if String.eqb s "2024-01-01T09:30:00+00:00" then Some (mk_datetime 1704101400000000 true)
  else if String.eqb s "2024-01-01T09:01:30+00:00" then Some (mk_datetime 1704099690000000 true)
  else if String.eqb s "2024-01-01T08:30:00+00:00" then Some (mk_datetime 1704097800000000 true)
  else if String.eqb s "2000-01-01T00:00:00.000001+00:00"
    then Some (mk_datetime 946684800000001 true)
  else if String.eqb s "2800-01-01T00:00:00+00:00"
    then Some (mk_datetime 26192246400000000 true)
  else None.

Definition at_time (s : string) : TimeInfo := mk_TimeInfo (Some s) None.

Definition event (id : string) (start_s end_s : string) (attendees : list Attendee)
  : ProcessedEvent :=
  {| ev_id := Some id;
     ev_summary := "Sync";
     ev_start := at_time start_s;
     ev_end := at_time end_s;
     ev_organizer_email := Some "a@x.com";
     ev_attendees := attendees;
     ev_hangout_link := None;
     ev_html_link := None;
     ev_conference_data := [] |}.

(** The event of the specification's example. *)
Definition abc123 : ProcessedEvent :=
  event "abc123" "2024-01-01T09:00:00Z" "2024-01-01T09:30:00Z"
    [mk_Attendee (Some "a@x.com") (Some "accepted");
     mk_Attendee (Some "b@x.com") (Some "declined")].

(** Ninety seconds long. *)
Definition ninety_seconds : ProcessedEvent :=
  event "short" "2024-01-01T09:00:00Z" "2024-01-01T09:01:30Z" [].

(** Ends half an hour before it starts. *)
Definition backwards : ProcessedEvent :=
  event "backwards" "2024-01-01T09:00:00Z" "2024-01-01T08:30:00Z" [].

(** Eight centuries long, less a microsecond. *)
Definition eight_centuries : ProcessedEvent :=
  event "long" "2000-01-01T00:00:00.000001Z" "2800-01-01T00:00:00Z" [].

(** One attendee whose status is none of the four values. *)
Definition odd_status : ProcessedEvent :=
  event "odd" "2024-01-01T09:00:00Z" "2024-01-01T09:30:00Z"
    [mk_Attendee (Some "c@x.com") (Some "delegated")].

(** The record [fetch_calendar_data] makes of [abc123]. *)
Definition abc123_record : MeetingRecord :=
  {| event_id := Some "abc123";
     calendar_id := "primary";
     organizer_email := "a@x.com";
     user_email := "a@x.com";
     summary := "Sync";
     start_time := mk_datetime 1704099600000000 true;
     end_time := mk_datetime 1704101400000000 true;
     duration_minutes := 30;
     attendees_count := 2;
     attendees_accepted := 1;
     attendees_declined := 1;
     attendees_tentative := 0;
     attendees_needs_action := 0;
     attendees_accepted_emails := "a@x.com";
     meet_link := "";
     html_link := "";
     is_one_on_one := true;
     has_manager_attendee := false;
     unique_departments := 1;
     departments_list := "Unknown";
     department := "Unknown";
     division := "Unknown";
     subdepartment := "Unknown";
     is_manager := false |}.

Definition meeting (id : option string) (title : string) : MeetingRecord :=
  {| event_id := id;
     calendar_id := "primary";
     organizer_email := "a@x.com";
     user_email := "a@x.com";
     summary := title;
     start_time := mk_datetime 1704099600000000 true;
     end_time := mk_datetime 1704101400000000 true;
     duration_minutes := 30;
     attendees_count := 0;
     attendees_accepted := 0;
     attendees_declined := 0;
     attendees_tentative := 0;
     attendees_needs_action := 0;
     attendees_accepted_emails := "";
     meet_link := "";
     html_link := "";
     is_one_on_one := false;
     has_manager_attendee := false;
     unique_departments := 1;
     departments_list := "Unknown";
     department := "Unknown";
     division := "Unknown";
     subdepartment := "Unknown";
     is_manager := false |}.

Definition sync : MeetingRecord := meeting (Some "abc123") "Sync".
Definition sync_rescheduled : MeetingRecord := meeting (Some "abc123") "Sync (Rescheduled)".
Definition standup : MeetingRecord := meeting (Some "def456") "Standup".
Definition no_id : MeetingRecord := meeting None "Untitled".

(** The Calendar API when it has the one event [backwards]. *)
Definition raw_backwards : RawEvent :=
  {| raw_id := Some "backwards";
     raw_summary := Some "Sync";
     raw_start := Some (at_time "2024-01-01T09:00:00Z");
     raw_end := Some (at_time "2024-01-01T08:30:00Z");
     raw_organizer_email := Some "a@x.com";
     raw_attendees := None;
     raw_hangoutLink := None;
     raw_htmlLink := None;
     raw_conferenceData := None |}.

Definition api_backwards : Z -> Z -> Z -> option (list RawEvent) :=
  fun _ _ _ => Some [raw_backwards].

(** The Calendar API when it has the one event of the specification's
    example. *)
Definition raw_abc123 : RawEvent :=
  {| raw_id := Some "abc123";
     raw_summary := Some "Sync";
     raw_start := Some (at_time "2024-01-01T09:00:00Z");
     raw_end := Some (at_time "2024-01-01T09:30:00Z");
     raw_organizer_email := Some "a@x.com";
     raw_attendees := Some [mk_Attendee (Some "a@x.com") (Some "accepted");
                            mk_Attendee (Some "b@x.com") (Some "declined")];
     raw_hangoutLink := None;
     raw_htmlLink := None;
     raw_conferenceData := None |}.

Definition api_abc123 : Z -> Z -> Z -> option (list RawEvent) :=
  fun _ _ _ => Some [raw_abc123].

(** An engine that accepts every statement. *)
Definition accepts_all : Sql -> bool := fun _ => false.

(** A session whose time zone is UTC. *)
#[global] Instance utc : TimeZone := fun _ => 0.

Definition empty_db : Db := mk_Db [] [].
Definition old_db : Db := mk_Db [row_of_meeting (meeting (Some "old") "Old")] [].

(** A service whose fetches return no event. *)
Definition quiet : Service := mk_Service true (fun _ _ _ => Some []).

(** An engine that refuses the INSERT of [standup] and nothing else. *)
Definition refuses_standup : Sql -> bool :=
  fun s =>
    match s with
    | InsertMeeting m => String.eqb (summary m) "Standup"
    | _ => false
    end.

Definition day (n : Z) : Z := timedelta_days n.

(** A service whose fetch of the window starting at day 62 always
    raises. *)
Definition broken_at_day_62 : Service :=
  mk_Service true (fun _ start_date _ =>
    if start_date =? day 62 then None else Some []).

(** A service whose third call raises, and no other. *)
Definition third_call_fails : Service :=
  mk_Service true (fun n _ _ => if (n =? 3)%nat then None else Some []).

Definition all_set : string -> option string := fun _ => Some "x".

Definition daily_args : Args := mk_Args None None true None None.

(** A fetcher all of whose methods would succeed. *)
Definition succeeding : Fetcher :=
  mk_Fetcher true (fun _ => true) (fun _ => true) (fun _ _ => true).

End samples.

(* ================================================================= *)
(** ** calendar_service.py: authentication and the bounds of a request *)

Module oauth2_service.

(** What [authenticate] reads of a [Credentials] object. *)
Record Credentials : Type := mk_Credentials {
  valid : bool;
  expired : bool;
  refresh_token : option string
}.

(** The attributes of a [GoogleCalendarService]: [credentials], whether
    [service] has been built, and [_authenticated]. *)
Record ServiceState : Type := mk_ServiceState {
  credentials : option Credentials;
  service_built : bool;
  authenticated : bool
}.

(** [__init__]. *)
Definition new_service : ServiceState := mk_ServiceState None false false.

(** [TOKEN_FILE]: absent, present but refused by
    [Credentials.from_authorized_user_file], or holding credentials. *)
Inductive TokenFile : Type :=
| NoTokenFile
| UnreadableToken
| Token (c : Credentials).

(** What [authenticate] meets outside the object: the token file, the
    refresh of the credentials followed by the write of the token file
    ([None] when either raises, else the credentials as refreshed), and
    whether [build] returns. *)
Record Outside : Type := mk_Outside {
  token_file : TokenFile;
  refresh : Credentials -> option Credentials;
  build_returns : bool
}.

(** [self.service = build(...); self._authenticated = True; return True],
    or the outer handler when [build] raises. *)
Definition build_service (w : Outside) (self : ServiceState)
    (creds : option Credentials) : ServiceState * bool :=
  if build_returns w
  then (mk_ServiceState creds true true, true)
  else (mk_ServiceState creds (service_built self) (authenticated self), false).

(** [authenticate(self)]. *)
Definition authenticate (w : Outside) (self : ServiceState) : ServiceState * bool :=
  match token_file w with
  | UnreadableToken => (self, false)              (* outer except *)
  | tf =>
      let loaded :=
        match tf with
        | Token c => Some c
        | _ => credentials self
        end in
      match loaded with
      | None => (mk_ServiceState None (service_built self) (authenticated self), false)
      | Some c =>
          if valid c then build_service w self (Some c)
          else if expired c && Py.truthy_str (refresh_token c) then
            match refresh w c with
            | Some c' => build_service w self (Some c')
            | None =>                             (* self.credentials = None *)
                (mk_ServiceState None (service_built self) (authenticated self), false)
            end
          else build_service w self (Some c)
      end
  end.

(** [s.endswith('Z')]. *)
Fixpoint ends_with_Z (s : string) : bool :=
  match s with
  | EmptyString => false
  | String c EmptyString => Ascii.eqb c "Z"%char
  | String _ rest => ends_with_Z rest
  end.

(** [s.count(c)] for a one-character [c]. *)
Fixpoint count_char (c : ascii) (s : string) : nat :=
  match s with
  | EmptyString => O
  | String x rest => ((if Ascii.eqb x c then 1 else 0) + count_char c rest)%nat
  end.

(** [c in s] for a one-character [c]. *)
Fixpoint contains_char (c : ascii) (s : string) : bool :=
  match s with
  | EmptyString => false
  | String x rest => Ascii.eqb x c || contains_char c rest
  end.

(** What [get_events] does to [time_min] and [time_max] once they are
    strings: a ['Z'] is appended when the string has no ['Z'] at its
    end, no ['+'] and exactly two [':']. *)
Definition add_utc_suffix (t : string) : string :=
  if negb (ends_with_Z t) && negb (contains_char "+"%char t)
     && Nat.eqb (count_char ":"%char t) 2
  then (t ++ "Z")%string
  else t.

End oauth2_service.

(* ================================================================= *)
(** ** Vocabulary of the further properties *)

(** Does [store_meetings_data] get its connection? *)
Definition connected (env : string -> option string)
    (try_connect : nat -> db_connection.Try) : bool :=
  match db_connection.get_db_connection env try_connect
          db_connection.default_max_retries with
  | Some (db_connection.Yielded (Some _) _) => true
  | _ => false
  end.

(** [total_batches = years_back * 12], the total that the progress line
    of [fetch_historical_data] prints. *)
Definition total_batches (years_back : Z) : Z := years_back * 12.

Definition is_some {A : Type} (v : option A) : bool :=
  match v with
  | Some _ => true
  | None => false
  end.

(** The attendees with a given status, a missing one read as
    [needsAction]. *)
Definition has_status (status : string) (a : Attendee) : bool :=
  String.eqb (Py.get_default (responseStatus a) "needsAction") status.

(** What the service returned for an attempt of the batch loop. *)
Definition batch_of (service : Service) (a : Attempt) : list MeetingRecord :=
  Py.get_default
    (service_fetch service (attempt_batch a) (window_start a) (window_end a)) [].


(** No later record of [post] has the [event_id] of [meeting]. *)
Definition last_of_its_id {zone : TimeZone}
    (meeting : MeetingRecord) (post : list MeetingRecord) : Prop :=
  Forall (fun m' => event_id_matches (event_id meeting) (row_of_meeting m') = false) post.

(** The twelve columns of a row that the UPDATE statement leaves alone. *)
Definition kept_columns (r : Row) :=
  (col_event_id r, col_calendar_id r, col_user_email r, col_department r,
   col_division r, col_subdepartment r, col_is_manager r,
   col_attendees_accepted_emails r, col_is_one_on_one r,
   col_has_manager_attendee r, col_unique_departments r, col_departments_list r).

(** The eleven columns that the UPDATE statement sets, and the values it
    sets them to. *)
Definition set_columns (r : Row) :=
  (col_summary r, col_start_time r, col_end_time r, col_duration_minutes r,
   col_attendees_count r, col_attendees_accepted r, col_attendees_declined r,
   col_attendees_tentative r, col_attendees_needs_action r,
   col_meet_link r, col_html_link r).

Definition set_values {zone : TimeZone} (m : MeetingRecord) :=
  (summary m, timestamp (start_time m), timestamp (end_time m), duration_minutes m,
   attendees_count m, attendees_accepted m, attendees_declined m,
   attendees_tentative m, attendees_needs_action m,
   meet_link m, html_link m).

Module more_samples.


(** Credentials that are not valid and cannot be refreshed. *)
Definition stale : oauth2_service.Credentials :=
  oauth2_service.mk_Credentials false false None.

Definition outside_with_stale : oauth2_service.Outside :=
  oauth2_service.mk_Outside (oauth2_service.Token stale) (fun _ => None) true.

(** A session whose time zone is two hours ahead of UTC. *)
Definition two_hours_ahead : TimeZone := fun _ => 7200000000.

(** A database that answers from the third attempt on. *)
Definition third_time_lucky : nat -> db_connection.Try :=
  fun n => if (n <? 2)%nat then db_connection.ConnectRaises else db_connection.Works.

(** A database that never answers. *)
Definition never_up : nat -> db_connection.Try := fun _ => db_connection.ConnectRaises.

(** The environment that [main] asks for. *)
Definition postgres_env : string -> option string :=
  fun k =>
    if String.eqb k "POSTGRES_HOST" then Some "db"
    else if String.eqb k "POSTGRES_DB" then Some "calendar"
    else if String.eqb k "POSTGRES_USER" then Some "app"
    else if String.eqb k "POSTGRES_PASSWORD" then Some "secret"
    else None.

(** A service that returns [sync] for every window. *)
Definition busy_service : Service := mk_Service true (fun _ _ _ => Some [samples.sync]).

(** The Calendar API during an outage. *)
Definition api_down : Z -> Z -> Z -> option (list RawEvent) := fun _ _ _ => None.

End more_samples.

(* ================================================================= *)
(** ** Attendee counting *)

Section AttendeeCounting.

Let counted_sum (t : Tally) : nat :=
  (t_accepted t + t_declined t + t_tentative t + t_needs_action t)%nat.

Lemma count_attendee_sum (t : Tally) (a : Attendee) :
  counted_sum (count_attendee t a)
  = (counted_sum t + (if status_counted a then 1 else 0))%nat.
Proof.
  unfold count_attendee, status_counted, counted_sum, Py.get_default.
  destruct (responseStatus a) as [s|]; simpl.
  - destruct (String.eqb s "accepted"); simpl; [lia|].
    destruct (String.eqb s "declined"); simpl; [lia|].
    destruct (String.eqb s "tentative"); simpl; [lia|].
    destruct (String.eqb s "needsAction"); simpl; lia.
  - lia.
Qed.

Lemma count_attendee_needs_action (t : Tally) (a : Attendee) :
  t_needs_action (count_attendee t a)
  = (t_needs_action t + (if status_needs_action a then 1 else 0))%nat.
Proof.
  unfold count_attendee, status_needs_action, Py.get_default.
  destruct (responseStatus a) as [s|]; simpl; [|lia].
  destruct (String.eqb s "accepted") eqn:E1.
  { apply String.eqb_eq in E1; subst s; simpl; lia. }
  destruct (String.eqb s "declined") eqn:E2.
  { apply String.eqb_eq in E2; subst s; simpl; lia. }
  destruct (String.eqb s "tentative") eqn:E3.
  { apply String.eqb_eq in E3; subst s; simpl; lia. }
  destruct (String.eqb s "needsAction"); simpl; lia.
Qed.

Lemma fold_count_sum (l : list Attendee) : forall t,
  counted_sum (fold_left count_attendee l t)
  = (counted_sum t + List.length (filter status_counted l))%nat.
Proof.
  induction l as [|a l IH]; intro t; simpl.
  - lia.
  - rewrite IH, count_attendee_sum.
    destruct (status_counted a); simpl; lia.
Qed.

Lemma fold_count_needs_action (l : list Attendee) : forall t,
  t_needs_action (fold_left count_attendee l t)
  = (t_needs_action t + List.length (filter status_needs_action l))%nat.
Proof.
  induction l as [|a l IH]; intro t; simpl.
  - lia.
  - rewrite IH, count_attendee_needs_action.
    destruct (status_needs_action a); simpl; lia.
Qed.

Lemma filter_split_length {A : Type} (p : A -> bool) (l : list A) :
  (List.length (filter p l) + List.length (filter (fun x => negb (p x)) l))%nat
  = List.length l.
Proof.
  induction l as [|x l IH]; simpl; [reflexivity|].
  destruct (p x); simpl; lia.
Qed.

Lemma count_attendees_sum (l : list Attendee) :
  counted_sum (count_attendees l) = List.length (filter status_counted l).
Proof. unfold count_attendees. rewrite fold_count_sum. reflexivity. Qed.

Lemma count_attendees_needs_action (l : list Attendee) :
  t_needs_action (count_attendees l) = List.length (filter status_needs_action l).
Proof. unfold count_attendees. rewrite fold_count_needs_action. reflexivity. Qed.

End AttendeeCounting.

(** What a record keeps of the event it was made from. *)
Lemma normalise_event_inv (f : string -> option datetime)
    (ev : ProcessedEvent) (m : MeetingRecord) :
  normalise_event f ev = Some m ->
  exists s e start_dt end_dt delta,
    time_of (ev_start ev) = Some s /\ s <> "" /\
    time_of (ev_end ev) = Some e /\ e <> "" /\
    f (Py.replace_Z s) = Some start_dt /\
    f (Py.replace_Z e) = Some end_dt /\
    datetime_sub end_dt start_dt = Some delta /\
    start_time m = start_dt /\ end_time m = end_dt /\
    duration_minutes m = minutes_of delta /\
    event_id m = ev_id ev /\
    attendees_count m = List.length (ev_attendees ev) /\
    attendees_accepted m = t_accepted (count_attendees (ev_attendees ev)) /\
    attendees_declined m = t_declined (count_attendees (ev_attendees ev)) /\
    attendees_tentative m = t_tentative (count_attendees (ev_attendees ev)) /\
    attendees_needs_action m = t_needs_action (count_attendees (ev_attendees ev)).
Proof.
  unfold normalise_event, parse_times.
  destruct (time_of (ev_start ev)) as [s|]; simpl; [|discriminate].
  destruct (String.eqb s "") eqn:Es; simpl; [discriminate|].
  destruct (time_of (ev_end ev)) as [e|]; simpl; [|discriminate].
  destruct (String.eqb e "") eqn:Ee; simpl; [discriminate|].
  destruct (f (Py.replace_Z s)) as [sd|] eqn:Fs; [|discriminate].
  destruct (f (Py.replace_Z e)) as [ed|] eqn:Fe; [|discriminate].
  destruct (datetime_sub ed sd) as [delta|] eqn:Fd; [|discriminate].
  intro H; injection H as <-. simpl.
  exists s, e, sd, ed, delta.
  apply String.eqb_neq in Es. apply String.eqb_neq in Ee.
  repeat split; auto.
Qed.

Lemma normalise_events_In (f : string -> option datetime)
    (events : list ProcessedEvent) (m : MeetingRecord) :
  In m (normalise_events f events) <->
  exists ev, In ev events /\ normalise_event f ev = Some m.
Proof.
  induction events as [|ev events IH]; simpl.
  - split; [tauto | intros (ev & [] & _)].
  - destruct (normalise_event f ev) as [m'|] eqn:E; simpl; rewrite ?IH; split.
    + intros [<- | (ev' & Hin & H)]; eauto.
    + intros (ev' & [<- | Hin] & H); [left; congruence | right; eauto].
    + intros (ev' & Hin & H); eauto.
    + intros (ev' & [<- | Hin] & H); [congruence | eauto].
Qed.

(** C7 (as the code has it).  For every record that [fetch_calendar_data]
    makes of an event, [attendees_count] is the length of the attendee
    list; an attendee is counted as [needsAction] exactly when its
    [responseStatus] is that value or is absent; an attendee whose
    status is present and is none of the four values is counted nowhere,
    so the four counters add up to [attendees_count] less the number of
    such attendees. *)
Theorem attendee_counts_partition (f : string -> option datetime)
    (ev : ProcessedEvent) (m : MeetingRecord) :
  normalise_event f ev = Some m ->
  attendees_count m = List.length (ev_attendees ev) /\
  attendees_needs_action m = List.length (filter status_needs_action (ev_attendees ev)) /\
  (response_total m
   + List.length (filter (fun a => negb (status_counted a)) (ev_attendees ev)))%nat
  = attendees_count m.
Proof.
  intro H.
  destruct (normalise_event_inv _ _ _ H)
    as (s & e & sd & ed & delta & _ & _ & _ & _ & _ & _ & _ & _ & _ & _ & _
        & Hc & Ha & Hd & Ht & Hn).
  split; [exact Hc|]. split.
  - rewrite Hn. apply count_attendees_needs_action.
  - unfold response_total. rewrite Hc, Ha, Hd, Ht, Hn.
    rewrite <- (filter_split_length status_counted (ev_attendees ev)).
    rewrite <- count_attendees_sum. reflexivity.
Qed.

Lemma attendee_counts_partition_witness :
  normalise_event samples.fromisoformat samples.abc123 = Some samples.abc123_record /\
  (attendees_count samples.abc123_record = 2%nat /\
   attendees_needs_action samples.abc123_record = 0%nat /\
   (response_total samples.abc123_record + 0)%nat
   = attendees_count samples.abc123_record).
Proof.
  split; [reflexivity|].
  apply (attendee_counts_partition samples.fromisoformat samples.abc123).
  reflexivity.
Defined.

(** C7 (as stated) fails: an attendee with a status outside the four
    values is not counted as [needsAction], and the four counters then
    add up to less than [attendees_count]. *)
Lemma unrecognised_status_not_counted :
  exists m, normalise_event samples.fromisoformat samples.odd_status = Some m /\
    attendees_count m = 1%nat /\
    attendees_needs_action m = 0%nat /\
    response_total m <> attendees_count m.
Proof.
  eexists. split; [vm_compute; reflexivity|].
  vm_compute. repeat split; discriminate.
Qed.

(* ================================================================= *)
(** ** Duration *)

Section Floats.

Lemma round_div_lower (n d M : Z) : 0 < d -> M * d <= n -> M <= Py.round_div n d.
Proof.
  intros Hd H. unfold Py.round_div.
  pose proof (Z.div_mod n d ltac:(lia)) as E.
  pose proof (Z.mod_pos_bound n d Hd) as B.
  assert (M <= n / d) by nia.
  destruct (2 * (n mod d) <? d); [lia|].
  destruct (d <? 2 * (n mod d)); [lia|].
  destruct (Z.even (n / d)); lia.
Qed.

Lemma round_div_upper (n d M : Z) : 0 < d -> n <= M * d -> Py.round_div n d <= M.
Proof.
  intros Hd H. unfold Py.round_div.
  pose proof (Z.div_mod n d ltac:(lia)) as E.
  pose proof (Z.mod_pos_bound n d Hd) as B.
  destruct (Z.ltb_spec (2 * (n mod d)) d) as [L|L]; [nia|].
  assert (n / d + 1 <= M) by nia.
  destruct (d <? 2 * (n mod d)); [lia|].
  destruct (Z.even (n / d)); lia.
Qed.

(** The exponent of the last place kept for [n / d]. *)
Lemma ulp_cases (n d : Z) :
  0 <= n -> 0 < d ->
  let k := Z.max 0 (Z.log2 (n / d) - 52) in
  0 <= k /\ (0 < k -> 2 ^ (k + 52) * d <= n).
Proof.
  intros Hn Hd k. split; [lia|]. intro Hk.
  assert (Hq : 0 < n / d).
  { destruct (Z.eq_dec (n / d) 0) as [E|E].
    - subst k. rewrite E in Hk. cbn in Hk. lia.
    - pose proof (Z.div_pos n d Hn Hd). lia. }
  pose proof (Z.log2_spec (n / d) Hq) as (L & _).
  replace (k + 52) with (Z.log2 (n / d)) by lia.
  pose proof (Z.mul_div_le n d Hd). nia.
Qed.

Lemma nearest_float_lower' (n d m j : Z) :

  0 <= n -> 0 < d -> 0 <= m < 2 ^ 53 -> 0 <= j ->
  m * 2 ^ j * d <= n -> m * 2 ^ j <= Py.nearest_float n d.
Proof.
  intros Hn Hd Hm Hj H. unfold Py.nearest_float.
  destruct (ulp_cases n d Hn Hd) as (Hk & Hbig).
  set (k := Z.max 0 (Z.log2 (n / d) - 52)) in *.
  assert (Pk : 0 < 2 ^ k) by (apply Z.pow_pos_nonneg; lia).
  assert (Pj : 0 < 2 ^ j) by (apply Z.pow_pos_nonneg; lia).
  destruct (Z_le_gt_dec k j) as [Hkj | Hkj].
  - replace j with (k + (j - k)) in * by lia.
    rewrite Z.pow_add_r in * by lia.
    assert (P : 0 < 2 ^ (j - k)) by (apply Z.pow_pos_nonneg; lia).
    assert (m * 2 ^ (j - k) <= Py.round_div n (d * 2 ^ k)).
    { apply round_div_lower; nia. }
    nia.
  - specialize (Hbig ltac:(lia)).
    rewrite Z.pow_add_r in Hbig by lia.
    assert (2 ^ 52 <= Py.round_div n (d * 2 ^ k)).
    { apply round_div_lower; nia. }
    assert (2 ^ j * 2 <= 2 ^ k).
    { replace k with (j + 1 + (k - j - 1)) by lia.
      rewrite !Z.pow_add_r by lia.
      assert (0 < 2 ^ (k - j - 1)) by (apply Z.pow_pos_nonneg; lia).
      change (2 ^ 1) with 2. nia. }
    change (2 ^ 53) with (2 ^ 52 * 2) in Hm.
    assert (0 < 2 ^ 52) by reflexivity.
    assert (m * 2 ^ j < 2 ^ 52 * 2 ^ k) by nia.
    nia.
Qed.

Lemma nearest_float_upper' (n d m j : Z) :
  0 <= n -> 0 < d -> 0 <= m < 2 ^ 53 -> 0 <= j ->
  n <= m * 2 ^ j * d -> Py.nearest_float n d <= m * 2 ^ j.
Proof.
  intros Hn Hd Hm Hj H. unfold Py.nearest_float.
  destruct (ulp_cases n d Hn Hd) as (Hk & Hbig).
  set (k := Z.max 0 (Z.log2 (n / d) - 52)) in *.
  assert (Pk : 0 < 2 ^ k) by (apply Z.pow_pos_nonneg; lia).
  assert (Pj : 0 < 2 ^ j) by (apply Z.pow_pos_nonneg; lia).
  destruct (Z_le_gt_dec k j) as [Hkj | Hkj].
  - replace j with (k + (j - k)) in * by lia.
    rewrite Z.pow_add_r in * by lia.
    assert (P : 0 < 2 ^ (j - k)) by (apply Z.pow_pos_nonneg; lia).
    assert (Py.round_div n (d * 2 ^ k) <= m * 2 ^ (j - k)).
    { apply round_div_upper; nia. }
    nia.
  - exfalso. specialize (Hbig ltac:(lia)).
    rewrite Z.pow_add_r in Hbig by lia.
    assert (2 ^ j * 2 <= 2 ^ k).
    { replace k with (j + 1 + (k - j - 1)) by lia.
      rewrite !Z.pow_add_r by lia.
      assert (0 < 2 ^ (k - j - 1)) by (apply Z.pow_pos_nonneg; lia).
      change (2 ^ 1) with 2. nia. }
    change (2 ^ 53) with (2 ^ 52 * 2) in Hm.
    assert (0 < 2 ^ 52) by reflexivity.
    assert (m * 2 ^ j < 2 ^ 52 * 2 ^ k) by nia.
    nia.
Qed.


(** Rounding to nearest never crosses a float. *)
Lemma nearest_float_lower (n d f : Z) :
  0 <= n -> 0 < d -> representable f -> f * d <= n -> f <= Py.nearest_float n d.
Proof.
  intros Hn Hd (m & j & Hm & Hj & ->). apply nearest_float_lower'; assumption.
Qed.

Lemma nearest_float_upper (n d f : Z) :
  0 <= n -> 0 < d -> representable f -> n <= f * d -> Py.nearest_float n d <= f.
Proof.
  intros Hn Hd (m & j & Hm & Hj & ->). apply nearest_float_upper'; assumption.
Qed.

Lemma nearest_float_zero (d : Z) : 0 < d -> Py.nearest_float 0 d = 0.
Proof.
  intro Hd. unfold Py.nearest_float.
  assert (E : Py.round_div 0 (d * 2 ^ Z.max 0 (Z.log2 (0 / d) - 52)) = 0).
  { assert (0 < 2 ^ Z.max 0 (Z.log2 (0 / d) - 52)) by (apply Z.pow_pos_nonneg; lia).
    apply Z.le_antisymm.
    - apply round_div_upper; nia.
    - apply round_div_lower; nia. }
  rewrite E. apply Z.mul_0_r.
Qed.

Lemma signed_nearest (x c d : Z) :
  0 <= x -> 0 < d ->
  Z.sgn x * Py.nearest_float (Z.abs x * c) d = Py.nearest_float (x * c) d.
Proof.
  intros Hx Hd. destruct (Z.eq_dec x 0) as [-> | Hne].
  - cbn [Z.sgn Z.abs Z.mul]. rewrite nearest_float_zero by exact Hd. reflexivity.
  - rewrite Z.sgn_pos, Z.abs_eq by lia. lia.
Qed.

Lemma float_one_pos : 0 < Py.float_one.
Proof. reflexivity. Qed.

Lemma float_one_split (a b : Z) :
  0 <= a -> 0 <= b -> a + b = 1074 -> Py.float_one = 2 ^ a * 2 ^ b.
Proof.
  intros Ha Hb E. unfold Py.float_one. rewrite <- E. apply Z.pow_add_r; assumption.
Qed.

Lemma minutes_of_opp (x : Z) : minutes_of (- x) = - minutes_of x.
Proof.
  unfold minutes_of, total_seconds, Py.int_of_float, Py.float_truediv, Py.int_truediv.
  rewrite Z.sgn_opp, Z.abs_opp, Z.mul_opp_l.
  rewrite Z.sgn_opp, Z.abs_opp, Z.mul_opp_l.
  apply Z.quot_opp_l. pose proof float_one_pos. lia.
Qed.

Lemma minutes_of_exact_nonneg (x : Z) :
  0 <= x -> x / us_per_minute + 1 <= 2 ^ 27 ->
  minutes_of x = x / us_per_minute.
Proof.
  intros Hx Hq.
  set (q := x / us_per_minute) in *.
  assert (Hq0 : 0 <= q) by (apply Z.div_pos; [exact Hx | reflexivity]).
  assert (Hlo : us_per_minute * q <= x)
    by (apply Z.mul_div_le; reflexivity).
  assert (Hhi : x < us_per_minute * (q + 1)).
  { pose proof (Z.mul_succ_div_gt x us_per_minute ltac:(reflexivity)). unfold q. lia. }
  change us_per_minute with 60000000 in Hlo, Hhi.
  change (2 ^ 27) with 134217728 in Hq.
  (* the floats that bound the two quotients *)
  assert (F1 : representable (60 * q * Py.float_one)).
  { exists (60 * q), 1074. change (2 ^ 53) with 9007199254740992.
    repeat split; try lia. }
  assert (F2 : representable ((60 * (q + 1) * 1048576 - 1) * 2 ^ 1054)).
  { exists (60 * (q + 1) * 1048576 - 1), 1054. change (2 ^ 53) with 9007199254740992.
    repeat split; try lia. }
  assert (F3 : representable (q * Py.float_one)).
  { exists q, 1074. change (2 ^ 53) with 9007199254740992.
    repeat split; try lia. }
  assert (F4 : representable (((q + 1) * 67108864 - 1) * 2 ^ 1048)).
  { exists ((q + 1) * 67108864 - 1), 1048. change (2 ^ 53) with 9007199254740992.
    repeat split; try lia. }
  assert (U20 : Py.float_one = 2 ^ 1054 * 1048576)
    by (apply (float_one_split 1054 20); lia).
  assert (P6 : 2 ^ 1054 = 2 ^ 1048 * 64).
  { change 1054 with (1048 + 6). rewrite Z.pow_add_r by lia. reflexivity. }
  assert (P1048 : 0 < 2 ^ 1048) by (apply Z.pow_pos_nonneg; lia).
  revert F1 F2 F3 F4 U20 P6 P1048.
  unfold minutes_of, total_seconds, Py.int_of_float, Py.float_truediv, Py.int_truediv.
  generalize Py.float_one (2 ^ 1054) (2 ^ 1048). intros U V W F1 F2 F3 F4 U20 P6 P1048.
  change us_per_second with 1000000.
  rewrite signed_nearest by lia.
  set (t := Py.nearest_float (x * U) 1000000).
  assert (Ht1 : 60 * q * U <= t)
    by (apply nearest_float_lower; try assumption; nia).
  assert (Ht2 : t <= (60 * (q + 1) * 1048576 - 1) * V)
    by (apply nearest_float_upper; try assumption; nia).
  assert (Ht0 : 0 <= t) by nia.
  replace (Z.sgn t * Py.nearest_float (Z.abs t) 60)
    with (Py.nearest_float (t * 1) 60)
    by (rewrite <- (signed_nearest t 1 60) by lia; rewrite !Z.mul_1_r; reflexivity).
  rewrite Z.mul_1_r.
  set (m := Py.nearest_float t 60).
  assert (Hm1 : q * U <= m)
    by (apply nearest_float_lower; try assumption; nia).
  assert (Hm2 : m <= ((q + 1) * 67108864 - 1) * W)
    by (apply nearest_float_upper; try assumption; nia).
  symmetry. apply Z.quot_unique with (r := m - U * q); nia.
Qed.

Lemma minutes_of_exact (delta : Z) :
  Z.abs delta < 2 ^ 27 * us_per_minute ->
  minutes_of delta = Z.quot delta us_per_minute.
Proof.
  intro Hb.
  assert (Hq : forall x, 0 <= x -> x < 2 ^ 27 * us_per_minute ->
                         x / us_per_minute + 1 <= 2 ^ 27).
  { intros x Hx Hlt.
    assert (x / us_per_minute < 2 ^ 27)
      by (apply Z.div_lt_upper_bound; [reflexivity | lia]).
    lia. }
  destruct (Z_le_gt_dec 0 delta) as [Hpos | Hneg].
  - rewrite minutes_of_exact_nonneg by (try apply Hq; lia).
    symmetry. apply Z.quot_div_nonneg; [exact Hpos | reflexivity].
  - replace delta with (- - delta) by lia.
    rewrite minutes_of_opp, Z.quot_opp_l by discriminate.
    f_equal.
    rewrite minutes_of_exact_nonneg by (try apply Hq; lia).
    symmetry. apply Z.quot_div_nonneg; [lia | reflexivity].
Qed.

Lemma minutes_of_whole_seconds_nonneg (s : Z) :
  0 <= s -> s / 60 + 1 <= 2 ^ 47 ->
  minutes_of (s * us_per_second) = s / 60.
Proof.
  intros Hs Hq.
  set (q := s / 60) in *.
  assert (Hq0 : 0 <= q) by (apply Z.div_pos; lia).
  assert (Hlo : 60 * q <= s) by (apply Z.mul_div_le; lia).
  assert (Hhi : s < 60 * (q + 1)).
  { pose proof (Z.mul_succ_div_gt s 60 ltac:(lia)). unfold q. lia. }
  change (2 ^ 47) with 140737488355328 in Hq.
  assert (F1 : representable (s * Py.float_one)).
  { exists s, 1074. change (2 ^ 53) with 9007199254740992. repeat split; try lia. }
  assert (F3 : representable (q * Py.float_one)).
  { exists q, 1074. change (2 ^ 53) with 9007199254740992. repeat split; try lia. }
  assert (F4 : representable (((q + 1) * 64 - 1) * 2 ^ 1068)).
  { exists ((q + 1) * 64 - 1), 1068. change (2 ^ 53) with 9007199254740992.
    repeat split; try lia. }
  assert (U6 : Py.float_one = 2 ^ 1068 * 64)
    by (apply (float_one_split 1068 6); lia).
  assert (P : 0 < 2 ^ 1068) by (apply Z.pow_pos_nonneg; lia).
  revert F1 F3 F4 U6 P.
  unfold minutes_of, total_seconds, Py.int_of_float, Py.float_truediv, Py.int_truediv.
  generalize Py.float_one (2 ^ 1068). intros U W F1 F3 F4 U6 P.
  change us_per_second with 1000000.
  rewrite signed_nearest by lia.
  set (t := Py.nearest_float (s * 1000000 * U) 1000000).
  assert (Ht : t = s * U).
  { apply Z.le_antisymm.
    - apply nearest_float_upper; try assumption; nia.
    - apply nearest_float_lower; try assumption; nia. }
  clearbody t. subst t.
  replace (Z.sgn (s * U) * Py.nearest_float (Z.abs (s * U)) 60)
    with (Py.nearest_float (s * U * 1) 60)
    by (rewrite <- (signed_nearest (s * U) 1 60) by nia; rewrite !Z.mul_1_r; reflexivity).
  rewrite Z.mul_1_r.
  set (m := Py.nearest_float (s * U) 60).
  assert (Hm1 : q * U <= m)
    by (apply nearest_float_lower; try assumption; nia).
  assert (Hm2 : m <= ((q + 1) * 64 - 1) * W)
    by (apply nearest_float_upper; try assumption; nia).
  symmetry. apply Z.quot_unique with (r := m - U * q); nia.
Qed.

Lemma minutes_of_whole_seconds (delta : Z) :
  delta mod us_per_second = 0 ->
  Z.abs delta < 2 ^ 47 * us_per_minute ->
  minutes_of delta = Z.quot delta us_per_minute.
Proof.
  intros Hw Hb.
  assert (Hpos : forall x, 0 <= x -> x mod us_per_second = 0 ->
            x < 2 ^ 47 * us_per_minute -> minutes_of x = Z.quot x us_per_minute).
  { intros x Hx Hm Hlt.
    pose proof (Z.div_mod x us_per_second ltac:(discriminate)) as E.
    rewrite Hm, Z.add_0_r in E.
    set (s := x / us_per_second) in *.
    assert (Hs : 0 <= s) by (apply Z.div_pos; [exact Hx | reflexivity]).
    rewrite E, (Z.mul_comm us_per_second s).
    rewrite minutes_of_whole_seconds_nonneg.
    - clearbody s. unfold us_per_minute, us_per_second. 
      rewrite Z.quot_div_nonneg by lia.
      rewrite (Z.mul_comm 60), <- Z.div_div by lia.
      rewrite Z.div_mul by discriminate. reflexivity.
    - exact Hs.
    - assert (s / 60 < 2 ^ 47); [|lia].
      apply Z.div_lt_upper_bound; [lia|].
      change (2 ^ 47) with 140737488355328 in *.
      unfold us_per_minute, us_per_second in *. lia. }
  destruct (Z_le_gt_dec 0 delta) as [H0 | H0].
  - apply Hpos; [exact H0 | exact Hw | lia].
  - replace delta with (- - delta) by lia.
    rewrite minutes_of_opp, Z.quot_opp_l by discriminate.
    f_equal. apply Hpos; [lia | | lia].
    apply Z.mod_opp_l_z; [discriminate | exact Hw].
Qed.

End Floats.

Lemma quot_truncates (delta b : Z) : 0 < b ->
  (0 <= delta -> Z.quot delta b * b <= delta < (Z.quot delta b + 1) * b) /\
  (delta <= 0 -> (Z.quot delta b - 1) * b < delta <= Z.quot delta b * b).
Proof.
  intro Hb.
  pose proof (Z.quot_rem' delta b) as Hq.
  split; intro Hd.
  - pose proof (Z.rem_bound_pos_pos delta b Hb Hd). nia.
  - pose proof (Z.rem_bound_pos_neg delta b Hb Hd). nia.
Qed.

(** C5 (as the code has it).  For every record that [fetch_calendar_data]
    makes of an event, [duration_minutes] is computed from the record's
    own [start_time] and [end_time]: it is
    [int((end_time - start_time).total_seconds() / 60)], two float
    divisions and a truncation.  Whenever the difference is a whole
    number of seconds (and below [2^47] minutes, which every pair of
    datetimes is), or is shorter than [2^27] minutes (some 255 years),
    this is the difference in minutes truncated toward zero. *)
Theorem duration_is_truncated_minutes (f : string -> option datetime)
    (ev : ProcessedEvent) (m : MeetingRecord) :
  normalise_event f ev = Some m ->
  exists delta,
    datetime_sub (end_time m) (start_time m) = Some delta /\
    duration_minutes m
    = Py.int_of_float (Py.float_truediv (total_seconds delta) 60) /\
    (Z.abs delta < 2 ^ 27 * us_per_minute
     \/ (delta mod us_per_second = 0 /\ Z.abs delta < 2 ^ 47 * us_per_minute) ->
     duration_minutes m = Z.quot delta us_per_minute /\
     (0 <= delta ->
        duration_minutes m * us_per_minute <= delta
        < (duration_minutes m + 1) * us_per_minute) /\
     (delta <= 0 ->
        (duration_minutes m - 1) * us_per_minute < delta
        <= duration_minutes m * us_per_minute)).
Proof.
  intro H.
  destruct (normalise_event_inv _ _ _ H)
    as (s & e & sd & ed & delta & _ & _ & _ & _ & _ & _ & Hsub & Hs & He & Hd & _).
  exists delta. rewrite Hs, He, Hd.
  split; [exact Hsub|]. split; [reflexivity|].
  intro Hb.
  assert (E : minutes_of delta = Z.quot delta us_per_minute).
  { destruct Hb as [Hb | (Hw & Hb)].
    - apply minutes_of_exact. exact Hb.
    - apply minutes_of_whole_seconds; assumption. }
  rewrite E. split; [reflexivity|].
  apply quot_truncates. reflexivity.
Qed.

Lemma duration_is_truncated_minutes_witness :
  normalise_event samples.fromisoformat samples.abc123 = Some samples.abc123_record /\
  exists delta,
    datetime_sub (end_time samples.abc123_record) (start_time samples.abc123_record)
    = Some delta /\
    duration_minutes samples.abc123_record
    = Py.int_of_float (Py.float_truediv (total_seconds delta) 60) /\
    (Z.abs delta < 2 ^ 27 * us_per_minute
     \/ (delta mod us_per_second = 0 /\ Z.abs delta < 2 ^ 47 * us_per_minute) ->
     duration_minutes samples.abc123_record = Z.quot delta us_per_minute /\
     (0 <= delta ->
        duration_minutes samples.abc123_record * us_per_minute <= delta
        < (duration_minutes samples.abc123_record + 1) * us_per_minute) /\
     (delta <= 0 ->
        (duration_minutes samples.abc123_record - 1) * us_per_minute < delta
        <= duration_minutes samples.abc123_record * us_per_minute)).
Proof.
  assert (H : normalise_event samples.fromisoformat samples.abc123
              = Some samples.abc123_record) by (vm_compute; reflexivity).
  split; [exact H|].
  exact (duration_is_truncated_minutes samples.fromisoformat samples.abc123
           samples.abc123_record H).
Defined.

(** C5 (as stated) fails: an event ninety seconds long gets
    [duration_minutes = 1], while its length rounded to the nearest
    minute is 2. *)
Lemma duration_is_not_rounded :
  exists m delta,
    normalise_event samples.fromisoformat samples.ninety_seconds = Some m /\
    datetime_sub (end_time m) (start_time m) = Some delta /\
    duration_minutes m = 1 /\
    Py.round_div delta us_per_minute = 2 /\
    duration_minutes m <> Py.round_div delta us_per_minute.
Proof.
  eexists. exists 90000000.
  split; [vm_compute; reflexivity|].
  vm_compute. repeat split; discriminate.
Qed.

(** Beyond those bounds the two float divisions can reach the next
    minute: an event that lasts eight centuries less a microsecond gets
    the minutes of eight full centuries. *)
Example duration_of_eight_centuries :
  exists m delta,
    normalise_event samples.fromisoformat samples.eight_centuries = Some m /\
    datetime_sub (end_time m) (start_time m) = Some delta /\
    delta = 25245561599999999 /\
    duration_minutes m = 420759360 /\
    Z.quot delta us_per_minute = 420759359.
Proof.
  eexists. exists 25245561599999999.
  split; [vm_compute; reflexivity|].
  vm_compute. repeat split; reflexivity.
Qed.

(* ================================================================= *)
(** ** The counters of the store *)

Section Counters.

Context {zone : TimeZone}.

Variable refuses : Sql -> bool.

Lemma insert_meeting_total (c : Cursor) (k : Counters) (m : MeetingRecord) :
  counters_total (snd (insert_meeting refuses c k m)) = S (counters_total k).
Proof.
  unfold insert_meeting.
  destruct (execute refuses (InsertMeeting m) c) as [c1 [reply|]]; simpl.
  - destruct (0 <? rowcount reply)%nat; unfold counters_total; simpl; lia.
  - unfold counters_total; simpl; lia.
Qed.

Lemma process_meeting_total (clear_existing : bool) (st : Cursor * Counters)
    (m : MeetingRecord) :
  counters_total (snd (process_meeting refuses clear_existing st m))
  = S (counters_total (snd st)).
Proof.
  destruct st as [c k]. unfold process_meeting.
  destruct clear_existing; simpl; [apply insert_meeting_total|].
  destruct (execute refuses (SelectIdByEventId (event_id m)) c) as [c1 [reply|]].
  - destruct (fetched reply) as [|hit hits]; [apply insert_meeting_total|].
    destruct (execute refuses (UpdateMeeting m) c1) as [c2 [done|]];
      unfold counters_total; simpl; lia.
  - unfold counters_total; simpl; lia.
Qed.

Lemma process_meetings_total (clear_existing : bool) (ms : list MeetingRecord) :
  forall st,
    counters_total (snd (process_meetings refuses clear_existing ms st))
    = (counters_total (snd st) + List.length ms)%nat.
Proof.
  unfold process_meetings.
  induction ms as [|m ms IH]; intro st; simpl.
  - lia.
  - rewrite IH, process_meeting_total. lia.
Qed.

End Counters.

(** The three ways through [store_meetings_data]. *)
Lemma store_incremental_eq {zone : TimeZone}
    (refuses : Sql -> bool) (ms : list MeetingRecord) (db : Db) :
  store_meetings_data refuses ms false db
  = mk_StoreResult true
      (commit db (fst (process_meetings refuses false ms (open_cursor db, zero_counters))))
      (snd (process_meetings refuses false ms (open_cursor db, zero_counters))).
Proof.
  unfold store_meetings_data, zero_counters.
  destruct (process_meetings _ _ _ _); reflexivity.
Qed.

Lemma store_historical_eq {zone : TimeZone}
    (refuses : Sql -> bool) (ms : list MeetingRecord) (db : Db) :
  refuses DeleteMeetings = false ->
  store_meetings_data refuses ms true db
  = mk_StoreResult true
      (commit db (fst (process_meetings refuses true ms (cleared_cursor db, zero_counters))))
      (snd (process_meetings refuses true ms (cleared_cursor db, zero_counters))).
Proof.
  intro H. unfold store_meetings_data, execute, zero_counters, cleared_cursor.
  simpl. rewrite H. simpl.
  destruct (process_meetings _ _ _ _); reflexivity.
Qed.

Lemma store_historical_refused {zone : TimeZone}
    (refuses : Sql -> bool) (ms : list MeetingRecord) (db : Db) :
  refuses DeleteMeetings = true ->
  store_meetings_data refuses ms true db
  = mk_StoreResult false
      (mk_Db (meetings db) (statements db ++ [DeleteMeetings])) zero_counters.
Proof.
  intro H. unfold store_meetings_data, execute. simpl. rewrite H. reflexivity.
Qed.

(** C9.  Whatever the engine refuses and whichever path each record
    takes, a call of [store_meetings_data] that runs its batch ends with
    [inserted + updated + skipped] equal to the number of records.  The
    only call that does not run the batch is the one whose DELETE
    raises: it returns [False] before the counters exist. *)
Theorem counters_conserved {zone : TimeZone}
    (refuses : Sql -> bool) (ms : list MeetingRecord)
    (clear_existing : bool) (db : Db) :
  counters_total (counters (store_meetings_data refuses ms clear_existing db))
  = (if returned (store_meetings_data refuses ms clear_existing db)
     then List.length ms else 0)%nat
  /\ returned (store_meetings_data refuses ms clear_existing db)
     = negb (clear_existing && refuses DeleteMeetings).
Proof.
  destruct clear_existing.
  - destruct (refuses DeleteMeetings) eqn:Hd.
    + rewrite store_historical_refused by exact Hd. split; reflexivity.
    + rewrite store_historical_eq by exact Hd. simpl.
      rewrite process_meetings_total. split; reflexivity.
  - rewrite store_incremental_eq. simpl.
    rewrite process_meetings_total. split; reflexivity.
Qed.

(* ================================================================= *)
(** ** The command line *)

Lemma main_always_exits_1 (getenv : string -> option string) (args : Args)
    (fetcher : Fetcher) :
  main getenv args fetcher = 1.
Proof.
  unfold main.
  destruct (filter _ required_env_vars); reflexivity.
Qed.

(** C8 (what the code does).  With the four variables set and [--daily]
    given, and a fetcher whose every method would succeed, [main] exits
    with status 1: the name [DynamicCalendarFetcher] is bound nowhere in
    the module, so the first statement of the [try] raises and the
    handler calls [sys.exit(1)]. *)
Theorem main_daily_success_exits_1 :
  is_global "DynamicCalendarFetcher" = false /\
  main samples.all_set samples.daily_args samples.succeeding = 1.
Proof. split; reflexivity. Qed.

(* ================================================================= *)
(** ** The batch loop *)

Section Windows.

Lemma contiguous_le (ws : list (Z * Z)) : forall a b,
  contiguous a b ws -> a <= b.
Proof.
  induction ws as [|w ws IH]; simpl; intros a b H.
  - lia.
  - destruct H as (Ha & Hlt & Hrest). apply IH in Hrest. lia.
Qed.

Lemma contiguous_bounds (ws : list (Z * Z)) : forall a b w,
  contiguous a b ws -> In w ws -> a <= fst w /\ fst w < snd w /\ snd w <= b.
Proof.
  induction ws as [|w0 ws IH]; simpl; intros a b w H Hin; [contradiction|].
  destruct H as (Ha & Hlt & Hrest).
  destruct Hin as [<- | Hin].
  - apply contiguous_le in Hrest. lia.
  - destruct (IH _ _ _ Hrest Hin). lia.
Qed.

Lemma contiguous_covers (ws : list (Z * Z)) : forall a b,
  contiguous a b ws -> covers a b ws.
Proof.
  unfold covers, in_window.
  induction ws as [|w ws IH]; simpl; intros a b H t.
  - split; [lia | intros (w & [] & _)].
  - destruct H as (Ha & Hlt & Hrest).
    pose proof (contiguous_le _ _ _ Hrest) as Hle.
    specialize (IH _ _ Hrest t).
    split.
    + intro Ht. destruct (Z_lt_ge_dec t (snd w)) as [Hin | Hout].
      * exists w. split; [left; reflexivity | lia].
      * destruct (proj1 IH) as (w' & Hw' & Ht'); [lia|].
        exists w'. split; [right; exact Hw' | exact Ht'].
    + intros (w' & [<- | Hw'] & Ht).
      * lia.
      * assert (snd w <= t < b) by (apply IH; eauto). lia.
Qed.

Lemma contiguous_non_overlapping (ws : list (Z * Z)) : forall a b,
  contiguous a b ws -> non_overlapping ws.
Proof.
  unfold non_overlapping.
  induction ws as [|w ws IH]; intros a b H i j w1 w2 Hij H1 H2.
  - destruct i; discriminate.
  - destruct H as (Ha & Hlt & Hrest).
    destruct j as [|j]; [lia|].
    destruct i as [|i]; simpl in H1, H2.
    + injection H1 as <-.
      apply nth_error_In in H2.
      destruct (contiguous_bounds _ _ _ _ Hrest H2). lia.
    + apply (IH _ _ Hrest i j); auto. lia.
Qed.

End Windows.

Section BatchLoop.

Variable service : Service.

Lemma window_days_pos : 0 < timedelta_days 31.
Proof. reflexivity. Qed.

Lemma batch_loop_done (fuel : nat) (end_date : Z) (st : LoopState) :
  end_date <= current_start st ->
  batch_loop service fuel end_date st = Some st.
Proof.
  intro H. destruct fuel; simpl;
    (replace (current_start st <? end_date) with false
       by (symmetry; apply Z.ltb_ge; exact H)); reflexivity.
Qed.

Lemma batch_loop_out_of_fuel (end_date : Z) (st : LoopState) :
  current_start st < end_date ->
  batch_loop service 0 end_date st = None.
Proof.
  intro H. simpl.
  replace (current_start st <? end_date) with true
    by (symmetry; apply Z.ltb_lt; exact H).
  reflexivity.
Qed.

Lemma batch_loop_turn (fuel : nat) (end_date : Z) (st : LoopState) :
  current_start st < end_date ->
  batch_loop service (S fuel) end_date st
  = match service_fetch service (S (current_batch st)) (current_start st)
            (Z.min (current_start st + timedelta_days 31) end_date) with
    | Some batch => batch_loop service fuel end_date (turn_ok end_date st batch)
    | None => batch_loop service fuel end_date (turn_failed end_date st)
    end.
Proof.
  intro H. cbn [batch_loop].
  replace (current_start st <? end_date) with true
    by (symmetry; apply Z.ltb_lt; exact H).
  reflexivity.
Qed.

(** When no fetch raises, [fuel] turns are enough as soon as [fuel]
    windows of 31 days reach the end date, and the loop then walks
    through contiguous windows up to the end date. *)
Lemma batch_loop_terminates (end_date : Z) :
  (forall n a b, service_fetch service n a b <> None) ->
  forall fuel st,
    current_start st <= end_date ->
    end_date - current_start st <= Z.of_nat fuel * timedelta_days 31 ->
    exists st' new,
      batch_loop service fuel end_date st = Some st' /\
      attempts st' = attempts st ++ new /\
      contiguous (current_start st) end_date (map window_of new) /\
      Forall (fun a => window_end a = Z.min (window_start a + timedelta_days 31) end_date /\
                       fetched_ok a = true) new.
Proof.
  intros Htotal. pose proof window_days_pos as HW.
  induction fuel as [|fuel IH]; intros st Hle Hfuel.
  - exists st, []. rewrite batch_loop_done by lia.
    rewrite app_nil_r. repeat split; auto. simpl. lia.
  - destruct (Z_lt_ge_dec (current_start st) end_date) as [Hlt | Hge].
    + rewrite batch_loop_turn by exact Hlt.
      destruct (service_fetch service (S (current_batch st)) (current_start st)
                  (Z.min (current_start st + timedelta_days 31) end_date))
        as [batch|] eqn:Hf; [|exfalso; eapply Htotal; eauto].
      destruct (IH (turn_ok end_date st batch))
        as (st' & new & Hrun & Hatt & Hcont & Hall).
      * simpl. lia.
      * simpl. lia.
      * exists st', (mk_Attempt (S (current_batch st)) (current_start st)
                      (Z.min (current_start st + timedelta_days 31) end_date) true :: new).
        split; [exact Hrun|].
        split; [rewrite Hatt; simpl; rewrite <- app_assoc; reflexivity|].
        split.
        -- simpl. split; [reflexivity|]. split; [lia|]. exact Hcont.
        -- constructor; [split; reflexivity | exact Hall].
    + exists st, []. rewrite batch_loop_done by lia.
      rewrite app_nil_r. repeat split; auto. simpl. lia.
Qed.

(** Whatever the fetches do, when the loop ends the windows that were
    fetched follow one another up to the end date. *)
Lemma batch_loop_fetched_contiguous (end_date : Z) :
  forall fuel st st',
    batch_loop service fuel end_date st = Some st' ->
    current_start st <= end_date ->
    exists new,
      attempts st' = attempts st ++ new /\
      contiguous (current_start st) end_date (fetched_windows new).
Proof.
  pose proof window_days_pos as HW.
  induction fuel as [|fuel IH]; intros st st' Hrun Hle;
    destruct (Z_lt_ge_dec (current_start st) end_date) as [Hlt | Hge].
  - rewrite batch_loop_out_of_fuel in Hrun by exact Hlt. discriminate.
  - rewrite batch_loop_done in Hrun by lia. injection Hrun as <-.
    exists []. rewrite app_nil_r. split; [reflexivity | simpl; lia].
  - rewrite batch_loop_turn in Hrun by exact Hlt.
    destruct (service_fetch service _ _ _) as [batch|].
    + destruct (IH _ _ Hrun) as (new & Hatt & Hcont); [simpl; lia|].
      exists (mk_Attempt (S (current_batch st)) (current_start st)
                (Z.min (current_start st + timedelta_days 31) end_date) true :: new).
      split; [rewrite Hatt; simpl; rewrite <- app_assoc; reflexivity|].
      unfold fetched_windows. simpl.
      split; [reflexivity|]. split; [lia | exact Hcont].
    + destruct (IH _ _ Hrun) as (new & Hatt & Hcont); [simpl; lia|].
      exists (mk_Attempt (S (current_batch st)) (current_start st)
                (Z.min (current_start st + timedelta_days 31) end_date) false :: new).
      split; [rewrite Hatt; simpl; rewrite <- app_assoc; reflexivity|].
      unfold fetched_windows. simpl. exact Hcont.
  - rewrite batch_loop_done in Hrun by lia. injection Hrun as <-.
    exists []. rewrite app_nil_r. split; [reflexivity | simpl; lia].
Qed.

(** A loop that ends leaves [all_meetings] empty when it started so
    and every fetch that returned, returned nothing. *)
Lemma batch_loop_collects_nothing (end_date : Z) :
  (forall n a b recs, service_fetch service n a b = Some recs -> recs = []) ->
  forall fuel st st',
    batch_loop service fuel end_date st = Some st' ->
    all_meetings st = [] -> all_meetings st' = [].
Proof.
  intro Hempty.
  induction fuel as [|fuel IH]; intros st st' Hrun Hnil;
    destruct (Z_lt_ge_dec (current_start st) end_date) as [Hlt | Hge].
  - rewrite batch_loop_out_of_fuel in Hrun by exact Hlt. discriminate.
  - rewrite batch_loop_done in Hrun by lia. injection Hrun as <-. exact Hnil.
  - rewrite batch_loop_turn in Hrun by exact Hlt.
    destruct (service_fetch service _ _ _) as [batch|] eqn:Hf.
    + apply (IH _ _ Hrun). simpl.
      rewrite Hnil, (Hempty _ _ _ _ Hf). reflexivity.
    + apply (IH _ _ Hrun). exact Hnil.
  - rewrite batch_loop_done in Hrun by lia. injection Hrun as <-. exact Hnil.
Qed.

(** A window whose fetch raises at every call holds the loop for
    good: the start of the window is never moved. *)
Lemma batch_loop_stuck (end_date : Z) :
  forall fuel st,
    current_start st < end_date ->
    (forall n, service_fetch service n (current_start st)
                 (Z.min (current_start st + timedelta_days 31) end_date) = None) ->
    batch_loop service fuel end_date st = None.
Proof.
  induction fuel as [|fuel IH]; intros st Hlt Hfail.
  - apply batch_loop_out_of_fuel. exact Hlt.
  - rewrite batch_loop_turn by exact Hlt. rewrite Hfail.
    apply IH; simpl; assumption.
Qed.

End BatchLoop.

Lemma turns_needed_enough (start_date end_date : Z) :
  end_date - start_date <= Z.of_nat (turns_needed start_date end_date) * timedelta_days 31.
Proof.
  unfold turns_needed.
  assert (HW : 0 < timedelta_days 31) by reflexivity.
  set (d := end_date - start_date).
  destruct (Z_lt_ge_dec d 0) as [Hneg | Hpos].
  - rewrite Nat2Z.inj_succ. nia.
  - rewrite Nat2Z.inj_succ, Z2Nat.id by (apply Z.div_pos; lia).
    pose proof (Z.mul_succ_div_gt d _ HW). nia.
Qed.

(** C4.  For every start date [S] strictly before the end date [E]:
    with a service whose fetches return, the batch loop ends within
    [turns_needed S E] turns, and the windows it asked for are each
    [[current_start, min(current_start + 31 days, E))], none is empty,
    each starts where the one before it ended, the first starts at [S]
    and the last ends at [E]; so every instant of [[S, E)] lies in a
    window, the windows hold nothing outside [[S, E)], and two windows
    meet at most at a shared bound.  And with any service, the windows
    that were fetched when the loop ends make up [[S, E)] in the same
    way. *)
Theorem windows_partition_range (S E : Z) :
  S < E ->
  (forall credentials_ok events_of,
   exists st,
     batch_loop (mk_Service credentials_ok (fun n a b => Some (events_of n a b)))
                (turns_needed S E) E (loop_start S) = Some st /\
     Forall (fun a => window_end a = Z.min (window_start a + timedelta_days 31) E /\
                      fetched_ok a = true) (attempts st) /\
     contiguous S E (map window_of (attempts st)) /\
     covers S E (map window_of (attempts st)) /\
     non_overlapping (map window_of (attempts st))) /\
  (forall service fuel st,
     batch_loop service fuel E (loop_start S) = Some st ->
     contiguous S E (fetched_windows (attempts st)) /\
     covers S E (fetched_windows (attempts st)) /\
     non_overlapping (fetched_windows (attempts st))).
Proof.
  intro Hlt. split.
  - intros credentials_ok events_of.
    destruct (batch_loop_terminates
                (mk_Service credentials_ok (fun n a b => Some (events_of n a b))) E)
      with (fuel := turns_needed S E) (st := loop_start S)
      as (st & new & Hrun & Hatt & Hcont & Hall).
    + intros n a b. simpl. discriminate.
    + simpl. lia.
    + simpl. apply turns_needed_enough.
    + simpl in Hatt, Hcont. subst new.
      exists st. split; [exact Hrun|]. split; [exact Hall|].
      split; [exact Hcont|]. split.
      * apply contiguous_covers. exact Hcont.
      * eapply contiguous_non_overlapping. exact Hcont.
  - intros service fuel st Hrun.
    destruct (batch_loop_fetched_contiguous service E _ _ _ Hrun)
      as (new & Hatt & Hcont); [simpl; lia|].
    simpl in Hatt, Hcont. subst new.
    split; [exact Hcont|]. split.
    + apply contiguous_covers. exact Hcont.
    + eapply contiguous_non_overlapping. exact Hcont.
Qed.

Lemma windows_partition_range_witness :
  0 < samples.day 100 /\
  (forall credentials_ok events_of,
   exists st,
     batch_loop (mk_Service credentials_ok (fun n a b => Some (events_of n a b)))
                (turns_needed 0 (samples.day 100)) (samples.day 100) (loop_start 0)
     = Some st /\
     Forall (fun a => window_end a
                      = Z.min (window_start a + timedelta_days 31) (samples.day 100) /\
                      fetched_ok a = true) (attempts st) /\
     contiguous 0 (samples.day 100) (map window_of (attempts st)) /\
     covers 0 (samples.day 100) (map window_of (attempts st)) /\
     non_overlapping (map window_of (attempts st))) /\
  (forall service fuel st,
     batch_loop service fuel (samples.day 100) (loop_start 0) = Some st ->
     contiguous 0 (samples.day 100) (fetched_windows (attempts st)) /\
     covers 0 (samples.day 100) (fetched_windows (attempts st)) /\
     non_overlapping (fetched_windows (attempts st))).
Proof.
  split; [reflexivity|].
  apply (windows_partition_range 0 (samples.day 100)).
  reflexivity.
Defined.

(** C3 (what the code does).  The handler of a failed fetch ends in
    [continue], which skips [current_start = current_end]: the next turn
    asks for the same window again.  With a window whose fetch always
    raises (the third of four, from day 62) the loop never ends,
    whatever the number of turns it is given, and the fourth window is
    never asked for; with a fetch that raises once (the third call) the
    fourth call asks for the third window again. *)
Theorem failed_window_is_retried :
  (forall fuel,
     batch_loop samples.broken_at_day_62 fuel (samples.day 100) (loop_start 0) = None) /\
  option_map attempts
    (batch_loop samples.third_call_fails 5 (samples.day 100) (loop_start 0))
  = Some [mk_Attempt 1 0 (samples.day 31) true;
          mk_Attempt 2 (samples.day 31) (samples.day 62) true;
          mk_Attempt 3 (samples.day 62) (samples.day 93) false;
          mk_Attempt 4 (samples.day 62) (samples.day 93) true;
          mk_Attempt 5 (samples.day 93) (samples.day 100) true].
Proof.
  split; [|vm_compute; reflexivity].
  intro fuel.
  destruct fuel as [|[|fuel]]; [reflexivity | reflexivity |].
  rewrite batch_loop_turn by reflexivity.
  change (service_fetch samples.broken_at_day_62 (S (current_batch (loop_start 0)))
            (current_start (loop_start 0))
            (Z.min (current_start (loop_start 0) + timedelta_days 31) (samples.day 100)))
    with (Some (@nil MeetingRecord)).
  cbv iota.
  rewrite batch_loop_turn by reflexivity.
  change (service_fetch samples.broken_at_day_62 _ _ _) with (Some (@nil MeetingRecord)).
  cbv iota.
  apply batch_loop_stuck; [reflexivity|].
  intro n. reflexivity.
Qed.

(* ================================================================= *)
(** ** A historical fetch that finds nothing *)

Lemma minus_days_eq (d n r : Z) :
  minus_days d n = Some r -> r = d - timedelta_days n.
Proof.
  unfold minus_days.
  destruct (_ && _); [|discriminate]. intro H. injection H as <-. reflexivity.
Qed.

(** C10.  When every fetch of a historical run that returns, returns no
    record, a run that ends returns [False] and leaves the database as
    it was: no row is changed and no statement is sent, the DELETE among
    them, because [store_meetings_data] is not called.  And when no
    fetch raises, the run does end, within [turns_needed] turns. *)
Theorem empty_historical_fetch_keeps_store {zone : TimeZone}
    (service : Service) (env : string -> option string)
    (try_connect : nat -> db_connection.Try)
    (refuses : Sql -> bool) (now years_back : Z) (db : Db) :
  (forall n a b recs, service_fetch service n a b = Some recs -> recs = []) ->
  (forall fuel out,
     fetch_historical_data service env try_connect refuses now fuel years_back db
     = Some out ->
     out = (false, db)) /\
  ((forall n a b, service_fetch service n a b <> None) ->
   fetch_historical_data service env try_connect refuses now
     (turns_needed (now - timedelta_days (years_back * 365)) now) years_back db
   = Some (false, db)).
Proof.
  intro Hempty.
  assert (Hany : forall fuel out,
            fetch_historical_data service env try_connect refuses now fuel years_back db
            = Some out ->
            out = (false, db)).
  { intros fuel out. unfold fetch_historical_data.
    destruct (authenticate service); cbn [negb]; [|congruence].
    destruct (minus_days now (years_back * 365)) as [start_date|]; [|congruence].
    destruct (batch_loop service fuel now _) as [st|] eqn:Hrun; [|discriminate].
    rewrite (batch_loop_collects_nothing service now Hempty _ _ _ Hrun eq_refl).
    congruence. }
  split; [exact Hany|].
  intro Htotal.
  destruct (fetch_historical_data service env try_connect refuses now
              (turns_needed (now - timedelta_days (years_back * 365)) now) years_back db)
    as [out|] eqn:Hout.
  - rewrite (Hany _ _ Hout). reflexivity.
  - exfalso. unfold fetch_historical_data in Hout.
    destruct (authenticate service); cbn [negb] in Hout; [|discriminate].
    destruct (minus_days now (years_back * 365)) as [start_date|] eqn:Hs;
      [|discriminate].
    apply minus_days_eq in Hs. rewrite <- Hs in Hout.
    destruct (Z_lt_ge_dec now start_date) as [Hpast | Hfut].
    + rewrite batch_loop_done in Hout by (simpl; lia).
      unfold loop_start in Hout. simpl in Hout. discriminate.
    + destruct (batch_loop_terminates service now Htotal
                  (turns_needed start_date now) (loop_start start_date))
        as (st & new & Hrun & _).
      * simpl. lia.
      * simpl. apply turns_needed_enough.
      * rewrite Hrun in Hout.
        rewrite (batch_loop_collects_nothing service now Hempty _ _ _ Hrun eq_refl)
          in Hout.
        discriminate.
Qed.

Lemma empty_historical_fetch_keeps_store_witness :
  (forall fuel out,
     fetch_historical_data samples.quiet more_samples.postgres_env
       more_samples.third_time_lucky samples.accepts_all (samples.day 20000)
       fuel 1 samples.old_db = Some out ->
     out = (false, samples.old_db)) /\
  ((forall n a b, service_fetch samples.quiet n a b <> None) ->
   fetch_historical_data samples.quiet more_samples.postgres_env
     more_samples.third_time_lucky samples.accepts_all (samples.day 20000)
     (turns_needed (samples.day 20000 - timedelta_days (1 * 365)) (samples.day 20000))
     1 samples.old_db
   = Some (false, samples.old_db)).
Proof.
  apply (empty_historical_fetch_keeps_store samples.quiet more_samples.postgres_env
           more_samples.third_time_lucky samples.accepts_all
           (samples.day 20000) 1 samples.old_db).
  intros n a b recs H. simpl in H. injection H as <-. reflexivity.
Defined.

(* ================================================================= *)
(** ** The store: cursor and loop *)

Section StoreLoop.

Context {zone : TimeZone}.

Variable refuses : Sql -> bool.

Lemma execute_spec (s : Sql) (c : Cursor) :
  match execute refuses s c with
  | (c', Some reply) =>
      failed c = false /\ refuses s = false /\ failed c' = false /\
      (table c', reply) = apply_sql s (table c)
  | (c', None) =>
      failed c' = true /\ table c' = table c /\
      (failed c = true \/ refuses s = true)
  end.
Proof.
  unfold execute.
  destruct (failed c) eqn:Hf; simpl; [tauto|].
  destruct (refuses s) eqn:Hr; simpl; [tauto|].
  destruct (apply_sql s (table c)) as [t' reply]. simpl. tauto.
Qed.

Lemma execute_data (s : Sql) (c d : Cursor) :
  cursor_data c = cursor_data d ->
  cursor_data (fst (execute refuses s c)) = cursor_data (fst (execute refuses s d)) /\
  snd (execute refuses s c) = snd (execute refuses s d).
Proof.
  unfold cursor_data, execute. intro H. injection H as Ht Hf.
  rewrite Ht, Hf.
  destruct (failed d); simpl; [auto|].
  destruct (refuses s); simpl; [auto|].
  destruct (apply_sql s (table d)); simpl. auto.
Qed.

Lemma filter_nil_existsb {A : Type} (p : A -> bool) (l : list A) :
  filter p l = [] <-> existsb p l = false.
Proof.
  induction l as [|x l IH]; simpl; [tauto|].
  destruct (p x); simpl; [split; discriminate | exact IH].
Qed.

Lemma select_fetched (eid : option string) (t : list Row) :
  fetched (snd (apply_sql (SelectIdByEventId eid) t)) = []
  <-> has_event_id eid t = false.
Proof. simpl. apply filter_nil_existsb. Qed.

(** What a turn of the loop does to the table, when the transaction
    is still sound after it. *)
Lemma insert_meeting_sound (c : Cursor) (k : Counters) (m : MeetingRecord) :
  failed (fst (insert_meeting refuses c k m)) = false ->
  failed c = false /\
  table (fst (insert_meeting refuses c k m)) = fst (apply_sql (InsertMeeting m) (table c)).
Proof.
  unfold insert_meeting.
  pose proof (execute_spec (InsertMeeting m) c) as H.
  destruct (execute refuses (InsertMeeting m) c) as [c1 [reply|]].
  - destruct H as (H0 & _ & _ & H1).
    assert (Ht : table c1 = fst (apply_sql (InsertMeeting m) (table c)))
      by (rewrite <- H1; reflexivity).
    destruct (0 <? rowcount reply)%nat; simpl fst; intros _;
      (split; [exact H0 | exact Ht]).
  - simpl fst. destruct H as (H & _). congruence.
Qed.

Lemma process_meeting_sound (clear_existing : bool) (c : Cursor) (k : Counters)
    (m : MeetingRecord) :
  failed (fst (process_meeting refuses clear_existing (c, k) m)) = false ->
  failed c = false /\
  table (fst (process_meeting refuses clear_existing (c, k) m))
  = store_step clear_existing (table c) m.
Proof.
  unfold process_meeting, store_step.
  destruct clear_existing; simpl negb; cbv iota.
  - simpl andb. cbv iota. apply insert_meeting_sound.
  - pose proof (execute_spec (SelectIdByEventId (event_id m)) c) as Hsel.
    destruct (execute refuses (SelectIdByEventId (event_id m)) c) as [c1 [reply|]].
    + destruct Hsel as (H0 & _ & H1 & Happ).
      assert (Ht : table c1 = table c) by (simpl in Happ; congruence).
      assert (Hfetch : fetched reply = []
                       <-> has_event_id (event_id m) (table c) = false).
      { rewrite <- select_fetched. rewrite <- Happ. reflexivity. }
      destruct (fetched reply) as [|hit hits].
      * rewrite (proj1 Hfetch eq_refl). simpl andb. cbv iota.
        intro H. destruct (insert_meeting_sound _ _ _ H) as (_ & Hins).
        split; [exact H0 | rewrite Hins, Ht; reflexivity].
      * destruct (has_event_id (event_id m) (table c)) eqn:Hhas;
          [|pose proof (proj2 Hfetch eq_refl); discriminate].
        simpl andb. cbv iota.
        pose proof (execute_spec (UpdateMeeting m) c1) as Hupd.
        destruct (execute refuses (UpdateMeeting m) c1) as [c2 [done|]].
        -- destruct Hupd as (_ & _ & _ & Happ2). simpl fst. intros _.
           split; [exact H0 | rewrite <- Ht; exact (f_equal fst Happ2)].
        -- simpl fst. destruct Hupd as (H & _). congruence.
    + simpl fst. destruct Hsel as (H & _). congruence.
Qed.

Lemma process_meetings_sound (clear_existing : bool) (ms : list MeetingRecord) :
  forall c k,
    failed (fst (process_meetings refuses clear_existing ms (c, k))) = false ->
    failed c = false /\
    table (fst (process_meetings refuses clear_existing ms (c, k)))
    = fold_left (store_step clear_existing) ms (table c).
Proof.
  unfold process_meetings.
  induction ms as [|m ms IH]; intros c k H; cbn [fold_left] in *.
  - auto.
  - destruct (process_meeting refuses clear_existing (c, k) m) as [c1 k1] eqn:E.
    destruct (IH _ _ H) as (H1 & Ht).
    pose proof (process_meeting_sound clear_existing c k m) as Hs.
    rewrite E in Hs. simpl in Hs. destruct (Hs H1) as (H0 & Hstep).
    split; [exact H0 | rewrite Ht, Hstep; reflexivity].
Qed.

(** The journal has no part in what a turn does to rows and counters. *)
Lemma insert_meeting_data (c d : Cursor) (k : Counters) (m : MeetingRecord) :
  cursor_data c = cursor_data d ->
  cursor_data (fst (insert_meeting refuses c k m))
  = cursor_data (fst (insert_meeting refuses d k m)) /\
  snd (insert_meeting refuses c k m) = snd (insert_meeting refuses d k m).
Proof.
  intro H. unfold insert_meeting.
  destruct (execute_data (InsertMeeting m) c d H) as (Hd & Hr).
  destruct (execute refuses (InsertMeeting m) c) as [c1 r1].
  destruct (execute refuses (InsertMeeting m) d) as [d1 r2].
  simpl in Hd, Hr. subst r2.
  destruct r1 as [reply|]; [destruct (0 <? rowcount reply)%nat|]; simpl; auto.
Qed.

Lemma process_meeting_data (clear_existing : bool) (c d : Cursor) (k : Counters)
    (m : MeetingRecord) :
  cursor_data c = cursor_data d ->
  cursor_data (fst (process_meeting refuses clear_existing (c, k) m))
  = cursor_data (fst (process_meeting refuses clear_existing (d, k) m)) /\
  snd (process_meeting refuses clear_existing (c, k) m)
  = snd (process_meeting refuses clear_existing (d, k) m).
Proof.
  intro H. unfold process_meeting.
  destruct clear_existing; simpl negb; cbv iota;
    [apply insert_meeting_data; exact H|].
  destruct (execute_data (SelectIdByEventId (event_id m)) c d H) as (Hd & Hr).
  destruct (execute refuses (SelectIdByEventId (event_id m)) c) as [c1 r1].
  destruct (execute refuses (SelectIdByEventId (event_id m)) d) as [d1 r2].
  simpl in Hd, Hr. subst r2.
  destruct r1 as [reply|]; [|simpl; auto].
  destruct (fetched reply) as [|hit hits]; [apply insert_meeting_data; exact Hd|].
  destruct (execute_data (UpdateMeeting m) c1 d1 Hd) as (Hd2 & Hr2).
  destruct (execute refuses (UpdateMeeting m) c1) as [c2 r1].
  destruct (execute refuses (UpdateMeeting m) d1) as [d2 r2].
  simpl in Hd2, Hr2. subst r2.
  destruct r1; simpl; auto.
Qed.

Lemma process_meetings_data (clear_existing : bool) (ms : list MeetingRecord) :
  forall c d k,
    cursor_data c = cursor_data d ->
    cursor_data (fst (process_meetings refuses clear_existing ms (c, k)))
    = cursor_data (fst (process_meetings refuses clear_existing ms (d, k))) /\
    snd (process_meetings refuses clear_existing ms (c, k))
    = snd (process_meetings refuses clear_existing ms (d, k)).
Proof.
  unfold process_meetings.
  induction ms as [|m ms IH]; intros c d k H; cbn [fold_left].
  - auto.
  - destruct (process_meeting_data clear_existing c d k m H) as (Hd & Hk).
    destruct (process_meeting refuses clear_existing (c, k) m) as [c1 k1].
    destruct (process_meeting refuses clear_existing (d, k) m) as [d1 k2].
    simpl in Hd, Hk. subst k2. apply IH. exact Hd.
Qed.

(** A property of the table that every INSERT and UPDATE of the batch
    keeps, holds of the table of the cursor all along. *)
Lemma process_meetings_invariant (P : list Row -> Prop) (clear_existing : bool)
    (ms : list MeetingRecord) :
  (forall m t, In m ms -> P t -> P (fst (apply_sql (InsertMeeting m) t))) ->
  (forall m t, In m ms -> P t -> P (fst (apply_sql (UpdateMeeting m) t))) ->
  forall c k,
    P (table c) ->
    P (table (fst (process_meetings refuses clear_existing ms (c, k)))).
Proof.
  unfold process_meetings.
  induction ms as [|m ms IH]; intros Hins Hupd c k HP; cbn [fold_left];
    [exact HP|].
  assert (Hstep : P (table (fst (process_meeting refuses clear_existing (c, k) m)))).
  { assert (Hi : forall c k, P (table c) ->
                  P (table (fst (insert_meeting refuses c k m)))).
    { intros c0 k0 H0. unfold insert_meeting.
      pose proof (execute_spec (InsertMeeting m) c0) as H.
      destruct (execute refuses (InsertMeeting m) c0) as [c1 [reply|]].
      - destruct H as (_ & _ & _ & H).
        assert (Ht : table c1 = fst (apply_sql (InsertMeeting m) (table c0)))
          by (rewrite <- H; reflexivity).
        destruct (0 <? rowcount reply)%nat; simpl; rewrite Ht;
          apply Hins; simpl; auto.
      - simpl. destruct H as (_ & -> & _). exact H0. }
    unfold process_meeting.
    destruct clear_existing; simpl negb; cbv iota; [apply Hi; exact HP|].
    pose proof (execute_spec (SelectIdByEventId (event_id m)) c) as Hsel.
    destruct (execute refuses (SelectIdByEventId (event_id m)) c) as [c1 [reply|]].
    - destruct Hsel as (_ & _ & _ & Happ).
      assert (Ht : table c1 = table c) by (simpl in Happ; congruence).
      destruct (fetched reply) as [|hit hits]; [apply Hi; rewrite Ht; exact HP|].
      pose proof (execute_spec (UpdateMeeting m) c1) as Hu.
      destruct (execute refuses (UpdateMeeting m) c1) as [c2 [done|]]; simpl fst.
      + destruct Hu as (_ & _ & _ & Happ2).
        replace (table c2) with (fst (apply_sql (UpdateMeeting m) (table c1)))
          by (rewrite <- Happ2; reflexivity).
        apply Hupd; [simpl; auto | rewrite Ht; exact HP].
      + destruct Hu as (_ & -> & _). rewrite Ht. exact HP.
    - simpl fst. destruct Hsel as (_ & -> & _). exact HP. }
  destruct (process_meeting refuses clear_existing (c, k) m) as [c1 k1].
  apply IH; auto.
  - intros m0 t Hin. apply Hins. simpl; auto.
  - intros m0 t Hin. apply Hupd. simpl; auto.
Qed.

End StoreLoop.

(* ================================================================= *)
(** ** The store: rows *)

Section Rows.

Context {zone : TimeZone}.

Lemma update_row_absorbs (m m' : MeetingRecord) (r : Row) :
  update_row m (update_row m' r) = update_row m r.
Proof. reflexivity. Qed.

Lemma update_row_of_meeting (m : MeetingRecord) :
  update_row m (row_of_meeting m) = row_of_meeting m.
Proof. reflexivity. Qed.

Lemma same_frame_refl (r : Row) : same_frame r r.
Proof. split; reflexivity. Qed.

Lemma same_frame_trans (a b c : Row) :
  same_frame a b -> same_frame b c -> same_frame a c.
Proof.
  intros (H1 & H2) (H3 & H4). split; [congruence|].
  intro m. rewrite H2. apply H4.
Qed.

Lemma same_frame_matches (eid : option string) (r r' : Row) :
  same_frame r r' -> event_id_matches eid r = event_id_matches eid r'.
Proof. intros (H & _). unfold event_id_matches. rewrite H. reflexivity. Qed.

Lemma same_frame_update_if (m : MeetingRecord) (r : Row) :
  same_frame r (update_if_matches m r).
Proof.
  unfold update_if_matches.
  destruct (event_id_matches (event_id m) r); split; reflexivity.
Qed.

Lemma same_frame_settle (ms : list MeetingRecord) : forall r,
  same_frame r (settle ms r).
Proof.
  unfold settle.
  induction ms as [|m ms IH]; intro r; cbn [fold_left].
  - apply same_frame_refl.
  - eapply same_frame_trans; [apply same_frame_update_if | apply IH].
Qed.

Lemma settle_snoc (ms : list MeetingRecord) (m : MeetingRecord) (r : Row) :
  settle (ms ++ [m]) r = update_if_matches m (settle ms r).
Proof. unfold settle. rewrite fold_left_app. reflexivity. Qed.

Lemma event_id_matches_sym (a b : Row) :
  event_id_matches (col_event_id a) b = event_id_matches (col_event_id b) a.
Proof.
  unfold event_id_matches.
  destruct (col_event_id a), (col_event_id b); auto using String.eqb_sym.
Qed.

Lemma event_id_matches_self (m : MeetingRecord) :
  event_id m <> None ->
  event_id_matches (event_id m) (row_of_meeting m) = true.
Proof.
  unfold event_id_matches. simpl.
  destruct (event_id m); [intros _; apply String.eqb_refl | congruence].
Qed.

Lemma has_event_id_app (eid : option string) (t1 t2 : list Row) :
  has_event_id eid (t1 ++ t2) = has_event_id eid t1 || has_event_id eid t2.
Proof. apply existsb_app. Qed.

Lemma has_event_id_map (eid : option string) (f : Row -> Row) (t : list Row) :
  (forall r, same_frame r (f r)) ->
  has_event_id eid (map f t) = has_event_id eid t.
Proof.
  intro Hf. unfold has_event_id.
  induction t as [|r t IH]; simpl; [reflexivity|].
  rewrite IH, <- (same_frame_matches eid _ _ (Hf r)). reflexivity.
Qed.

Lemma has_event_id_In (eid : option string) (t : list Row) :
  has_event_id eid t = true <-> exists r, In r t /\ event_id_matches eid r = true.
Proof. apply existsb_exists. Qed.

Lemma store_step_incremental (t : list Row) (m : MeetingRecord) :
  store_step false t m
  = if has_event_id (event_id m) t
    then map (update_if_matches m) t
    else t ++ [row_of_meeting m].
Proof.
  unfold store_step. simpl negb. cbv iota. simpl andb.
  destruct (has_event_id (event_id m) t) eqn:H; [reflexivity|].
  unfold apply_sql. unfold has_event_id in H. rewrite H. reflexivity.
Qed.

Lemma store_step_historical (t : list Row) (m : MeetingRecord) :
  store_step true t m
  = if has_event_id (event_id m) t then t else t ++ [row_of_meeting m].
Proof.
  unfold store_step, apply_sql, has_event_id. simpl.
  destruct (existsb _ t); reflexivity.
Qed.

(** The rows with a given [event_id] stay, and a record leaves a row
    with its own. *)
Lemma store_step_keeps_id (eid : option string) (t : list Row) (m : MeetingRecord) :
  has_event_id eid t = true -> has_event_id eid (store_step false t m) = true.
Proof.
  intro H. rewrite store_step_incremental.
  destruct (has_event_id (event_id m) t).
  - rewrite has_event_id_map by apply same_frame_update_if. exact H.
  - rewrite has_event_id_app, H. reflexivity.
Qed.

Lemma store_step_adds_id (t : list Row) (m : MeetingRecord) :
  event_id m <> None -> has_event_id (event_id m) (store_step false t m) = true.
Proof.
  intro H. rewrite store_step_incremental.
  destruct (has_event_id (event_id m) t) eqn:E.
  - rewrite has_event_id_map by apply same_frame_update_if. exact E.
  - rewrite has_event_id_app. simpl. rewrite (event_id_matches_self m H).
    apply orb_true_r.
Qed.

Lemma fold_store_step_keeps_id (eid : option string) (ms : list MeetingRecord) :
  forall t, has_event_id eid t = true ->
            has_event_id eid (fold_left (store_step false) ms t) = true.
Proof.
  induction ms as [|m ms IH]; intros t H; cbn [fold_left]; [exact H|].
  apply IH, store_step_keeps_id, H.
Qed.

Lemma fold_store_step_covers (ms : list MeetingRecord) :
  Forall (fun m => event_id m <> None) ms ->
  forall t, covered ms (fold_left (store_step false) ms t).
Proof.
  unfold covered.
  induction ms as [|m ms IH]; intros Hid t; cbn [fold_left]; constructor.
  - apply fold_store_step_keeps_id, store_step_adds_id.
    inversion Hid; assumption.
  - apply IH. inversion Hid; assumption.
Qed.

Lemma covered_map (ms : list MeetingRecord) (f : Row -> Row) (t : list Row) :
  (forall r, same_frame r (f r)) -> covered ms t -> covered ms (map f t).
Proof.
  intros Hf H. unfold covered in *.
  eapply Forall_impl; [|exact H].
  intros m Hm. simpl in *. rewrite has_event_id_map by exact Hf. exact Hm.
Qed.

(** On a table that has a row for every record, the batch is the
    UPDATEs of the records, row by row. *)
Lemma fold_store_step_covered (ms : list MeetingRecord) :
  forall t, covered ms t ->
            fold_left (store_step false) ms t = map (settle ms) t.
Proof.
  induction ms as [|m ms IH]; intros t H; cbn [fold_left].
  - unfold settle. simpl. symmetry. apply map_id.
  - inversion H as [|m0 ms0 Hm Hms]; subst.
    rewrite store_step_incremental, Hm.
    rewrite IH by (apply covered_map; [apply same_frame_update_if | exact Hms]).
    rewrite map_map. reflexivity.
Qed.

(** After the batch every row is at rest: the UPDATEs of the same
    records, in the same order, would leave it as it is. *)
Lemma fold_store_step_settled (ms : list MeetingRecord) :
  Forall (fun m => event_id m <> None) ms ->
  forall t r, In r (fold_left (store_step false) ms t) -> settle ms r = r.
Proof.
  induction ms as [|m ms IH] using rev_ind; intros Hid t r Hin.
  - reflexivity.
  - apply Forall_app in Hid. destruct Hid as (Hms & Hm).
    inversion Hm as [|m0 l0 Hm0 _]; subst. clear Hm.
    rewrite fold_left_app in Hin. cbn [fold_left] in Hin.
    rewrite settle_snoc.
    set (t' := fold_left (store_step false) ms t) in *.
    assert (Hrest : forall y,
              event_id_matches (event_id m) y = true ->
              update_row m y = y ->
              update_if_matches m (settle ms y) = y).
    { intros y Hy Hfix.
      pose proof (same_frame_settle ms y) as Hf.
      unfold update_if_matches.
      rewrite <- (same_frame_matches _ _ _ Hf), Hy.
      destruct Hf as (_ & Hf). rewrite <- Hf. exact Hfix. }
    rewrite store_step_incremental in Hin.
    destruct (has_event_id (event_id m) t') eqn:Hhas.
    + apply in_map_iff in Hin. destruct Hin as (x & <- & Hx).
      unfold update_if_matches at 2 3.
      destruct (event_id_matches (event_id m) x) eqn:Hmx.
      * apply Hrest; [exact Hmx | apply update_row_absorbs].
      * rewrite (IH Hms t x Hx). unfold update_if_matches. rewrite Hmx. reflexivity.
    + apply in_app_or in Hin. destruct Hin as [Hx | [<- | []]].
      * rewrite (IH Hms t r Hx). unfold update_if_matches.
        replace (event_id_matches (event_id m) r) with false; [reflexivity|].
        symmetry. apply not_true_is_false. intro Hmr.
        assert (has_event_id (event_id m) t' = true)
          by (apply has_event_id_In; eauto).
        congruence.
      * apply Hrest; [apply event_id_matches_self; exact Hm0
                     | apply update_row_of_meeting].
Qed.

(** The rows of a second batch over the same records. *)
Lemma fold_store_step_twice (ms : list MeetingRecord) (t : list Row) :
  Forall (fun m => event_id m <> None) ms ->
  fold_left (store_step false) ms (fold_left (store_step false) ms t)
  = fold_left (store_step false) ms t.
Proof.
  intro Hid.
  rewrite fold_store_step_covered by (apply fold_store_step_covers; exact Hid).
  rewrite <- (map_id (fold_left (store_step false) ms t)) at 2.
  apply map_ext_in. intros r Hr.
  apply (fold_store_step_settled ms Hid t r Hr).
Qed.

End Rows.

(* ================================================================= *)
(** ** The store: a batch with no statement refused *)

Section Accepted.

Context {zone : TimeZone}.

Variable refuses : Sql -> bool.
Hypothesis accepts : forall s, refuses s = false.

Lemma execute_accepted (s : Sql) (c : Cursor) :
  failed c = false ->
  execute refuses s c
  = (mk_Cursor (fst (apply_sql s (table c))) false (journal c ++ [s]),
     Some (snd (apply_sql s (table c)))).
Proof.
  intro H. unfold execute. rewrite H, accepts.
  destruct (apply_sql s (table c)); reflexivity.
Qed.

Lemma insert_meeting_accepted (c : Cursor) (k : Counters) (m : MeetingRecord) :
  failed c = false ->
  failed (fst (insert_meeting refuses c k m)) = false /\
  table (fst (insert_meeting refuses c k m)) = store_step true (table c) m /\
  snd (insert_meeting refuses c k m) = count_step true (table c) k m.
Proof.
  intro H. unfold insert_meeting. rewrite (execute_accepted _ _ H).
  unfold store_step, count_step, has_event_id. simpl negb. simpl andb. cbv iota.
  unfold apply_sql.
  destruct (existsb (event_id_matches (event_id m)) (table c)); simpl; auto.
Qed.

Lemma process_meeting_accepted (clear_existing : bool) (c : Cursor) (k : Counters)
    (m : MeetingRecord) :
  failed c = false ->
  failed (fst (process_meeting refuses clear_existing (c, k) m)) = false /\
  table (fst (process_meeting refuses clear_existing (c, k) m))
  = store_step clear_existing (table c) m /\
  snd (process_meeting refuses clear_existing (c, k) m)
  = count_step clear_existing (table c) k m.
Proof.
  intro H. unfold process_meeting.
  destruct clear_existing; simpl negb; cbv iota;
    [apply insert_meeting_accepted; exact H|].
  rewrite (execute_accepted _ _ H).
  set (c1 := mk_Cursor _ false _).
  assert (H1 : failed c1 = false) by reflexivity.
  assert (Ht : table c1 = table c) by reflexivity.
  pose proof (select_fetched (event_id m) (table c)) as Hfetch.
  destruct (fetched (snd (apply_sql (SelectIdByEventId (event_id m)) (table c))))
    as [|hit hits].
  - destruct (insert_meeting_accepted c1 k m H1) as (Hf & Htab & Hk).
    rewrite Ht in Htab, Hk.
    unfold store_step, count_step in *.
    rewrite (proj1 Hfetch eq_refl) in *. simpl negb in *. simpl andb in *.
    cbv iota in *. auto.
  - rewrite (execute_accepted _ _ H1). simpl fst. simpl snd.
    unfold store_step, count_step.
    destruct (has_event_id (event_id m) (table c));
      [|pose proof (proj2 Hfetch eq_refl); discriminate].
    simpl. auto.
Qed.

Lemma process_meetings_accepted (clear_existing : bool) (ms : list MeetingRecord) :
  forall c k,
    failed c = false ->
    failed (fst (process_meetings refuses clear_existing ms (c, k))) = false /\
    (table (fst (process_meetings refuses clear_existing ms (c, k))),
     snd (process_meetings refuses clear_existing ms (c, k)))
    = accepted_run clear_existing ms (table c, k).
Proof.
  unfold process_meetings, accepted_run.
  induction ms as [|m ms IH]; intros c k H; cbn [fold_left].
  - auto.
  - destruct (process_meeting_accepted clear_existing c k m H) as (Hf & Ht & Hk).
    destruct (process_meeting refuses clear_existing (c, k) m) as [c1 k1].
    cbn [fst snd] in *. rewrite <- Ht, <- Hk. apply IH. exact Hf.
Qed.

End Accepted.

Lemma accepted_run_rows {zone : TimeZone}
    (clear_existing : bool) (ms : list MeetingRecord) :
  forall t k,
    fst (accepted_run clear_existing ms (t, k))
    = fold_left (store_step clear_existing) ms t.
Proof.
  unfold accepted_run.
  induction ms as [|m ms IH]; intros t k; cbn [fold_left]; [reflexivity|].
  simpl fst. simpl snd. apply IH.
Qed.

(** On a table that has a row for every record, a batch with no
    statement refused counts every record as updated. *)
Lemma accepted_run_all_updated {zone : TimeZone} (ms : list MeetingRecord) :
  forall t k,
    covered ms t ->
    snd (accepted_run false ms (t, k))
    = mk_Counters (inserted k) (updated k + List.length ms) (skipped k).
Proof.
  unfold accepted_run.
  induction ms as [|m ms IH]; intros t k H; cbn [fold_left].
  - simpl. rewrite Nat.add_0_r. destruct k; reflexivity.
  - inversion H as [|m0 ms0 Hm Hms]; subst.
    simpl fst. simpl snd.
    rewrite IH.
    + unfold count_step. rewrite Hm. simpl.
      f_equal. lia.
    + rewrite store_step_incremental, Hm.
      apply covered_map; [apply same_frame_update_if | exact Hms].
Qed.

(** In historical mode a batch with no statement refused counts as
    inserted exactly the rows it adds. *)
Lemma accepted_run_inserted {zone : TimeZone} (ms : list MeetingRecord) :
  forall t k,
    (List.length (fst (accepted_run true ms (t, k))) + inserted k)%nat
    = (inserted (snd (accepted_run true ms (t, k))) + List.length t)%nat.
Proof.
  unfold accepted_run.
  induction ms as [|m ms IH]; intros t k; cbn [fold_left]; [simpl; lia|].
  cbn [fst snd].
  pose proof (IH (store_step true t m) (count_step true t k m)) as H.
  rewrite store_step_historical in *. unfold count_step in *.
  cbn [negb andb] in *.
  destruct (has_event_id (event_id m) t).
  - cbn [inserted count_skipped] in H. lia.
  - rewrite length_app in H. cbn [inserted count_inserted List.length] in H. lia.
Qed.

(* ================================================================= *)
(** ** The unique constraint *)

Section Unique.

Context {zone : TimeZone}.

Lemma unique_map (f : Row -> Row) (t : list Row) :
  (forall r, same_frame r (f r)) ->
  unique_event_ids t -> unique_event_ids (map f t).
Proof.
  intro Hf. induction t as [|r t IH]; simpl; [auto|].
  intros (Hr & Ht). split; [|apply IH; exact Ht].
  destruct (Hf r) as (<- & _).
  change (has_event_id (col_event_id r) (map f t) = false).
  rewrite has_event_id_map by exact Hf. exact Hr.
Qed.

Lemma unique_snoc (t : list Row) (r : Row) :
  unique_event_ids t -> has_event_id (col_event_id r) t = false ->
  unique_event_ids (t ++ [r]).
Proof.
  induction t as [|a t IH]; simpl; [auto|].
  intros (Ha & Ht) Hr. apply orb_false_elim in Hr. destruct Hr as (Hra & Hrt).
  split; [|apply IH; assumption].
  rewrite existsb_app, Ha. simpl.
  rewrite event_id_matches_sym, Hra. reflexivity.
Qed.

Lemma unique_app_mid (t rest : list Row) (r : Row) :
  unique_event_ids (t ++ r :: rest) -> has_event_id (col_event_id r) t = false.
Proof.
  induction t as [|a t IH]; simpl; [reflexivity|].
  intros (Ha & Ht). rewrite (IH Ht), orb_false_r.
  rewrite existsb_app in Ha. apply orb_false_elim in Ha. destruct Ha as (_ & Ha).
  simpl in Ha. apply orb_false_elim in Ha. destruct Ha as (Ha & _).
  rewrite event_id_matches_sym. exact Ha.
Qed.

Lemma unique_insert (m : MeetingRecord) (t : list Row) :
  unique_event_ids t -> unique_event_ids (fst (apply_sql (InsertMeeting m) t)).
Proof.
  intro H. unfold apply_sql.
  destruct (existsb (event_id_matches (event_id m)) t) eqn:E; simpl; [exact H|].
  apply unique_snoc; [exact H | exact E].
Qed.

Lemma unique_update (m : MeetingRecord) (t : list Row) :
  unique_event_ids t -> unique_event_ids (fst (apply_sql (UpdateMeeting m) t)).
Proof.
  intro H. simpl.
  apply (unique_map (update_if_matches m)); [apply same_frame_update_if | exact H].
Qed.

(** The unique constraint holds after a call when it held before. *)
Lemma store_keeps_unique (refuses : Sql -> bool) (ms : list MeetingRecord)
    (clear_existing : bool) (db : Db) :
  unique_event_ids (meetings db) ->
  unique_event_ids
    (meetings (db_after (store_meetings_data refuses ms clear_existing db))).
Proof.
  intro H.
  assert (Hloop : forall c k, unique_event_ids (table c) ->
            unique_event_ids
              (table (fst (process_meetings refuses clear_existing ms (c, k))))).
  { intros c k. apply process_meetings_invariant.
    - intros m t _. apply unique_insert.
    - intros m t _. apply unique_update. }
  destruct clear_existing.
  - destruct (refuses DeleteMeetings) eqn:Hd.
    + rewrite store_historical_refused by exact Hd. exact H.
    + rewrite store_historical_eq by exact Hd. simpl.
      destruct (failed _); [exact H | apply Hloop; exact I].
  - rewrite store_incremental_eq. simpl.
    destruct (failed _); [exact H | apply Hloop; exact H].
Qed.

End Unique.

(* ================================================================= *)
(** ** Incremental mode, twice *)

(** C1 (as the code has it).  For every sequence of meeting records that
    all carry an [event_id], every database and every engine, a second
    incremental call of [store_meetings_data] over the same records
    leaves the table as the first call left it: the same rows, hence the
    same number of rows, and no two rows with one [event_id] when there
    were none before the first call.  When the engine refuses no
    statement, the second call updates every record in place and counts
    it as updated: nothing is inserted and nothing is skipped. *)
Theorem incremental_store_idempotent {zone : TimeZone}
    (refuses : Sql -> bool) (ms : list MeetingRecord) (db : Db) :
  Forall (fun m => event_id m <> None) ms ->
  let first := store_meetings_data refuses ms false db in
  let second := store_meetings_data refuses ms false (db_after first) in
  meetings (db_after second) = meetings (db_after first) /\
  List.length (meetings (db_after second)) = List.length (meetings (db_after first)) /\
  (unique_event_ids (meetings db) -> unique_event_ids (meetings (db_after second))) /\
  ((forall s, refuses s = false) ->
   counters second = mk_Counters 0 (List.length ms) 0).
Proof.
  intros Hid first second.
  assert (Hsame : meetings (db_after second) = meetings (db_after first)).
  { subst second first. rewrite !store_incremental_eq. cbn [db_after].
    set (c1 := fst (process_meetings refuses false ms (open_cursor db, zero_counters))).
    set (db1 := commit db c1).
    set (c2 := fst (process_meetings refuses false ms (open_cursor db1, zero_counters))).
    unfold commit at 1. cbn [meetings].
    destruct (failed c2) eqn:F2; [reflexivity|].
    destruct (process_meetings_sound refuses false ms (open_cursor db1) zero_counters F2)
      as (_ & Ht2).
    fold c2 in Ht2. rewrite Ht2. cbn [open_cursor table].
    destruct (failed c1) eqn:F1.
    - exfalso.
      assert (Hd : cursor_data (open_cursor db1) = cursor_data (open_cursor db)).
      { unfold cursor_data, open_cursor, db1, commit. cbn [table failed meetings].
        rewrite F1. reflexivity. }
      destruct (process_meetings_data refuses false ms _ _ zero_counters Hd) as (Hc & _).
      fold c1 c2 in Hc. unfold cursor_data in Hc. congruence.
    - destruct (process_meetings_sound refuses false ms (open_cursor db) zero_counters F1)
        as (_ & Ht1).
      fold c1 in Ht1. cbn [open_cursor table] in Ht1.
      unfold db1, commit. cbn [meetings]. rewrite F1, Ht1.
      apply fold_store_step_twice. exact Hid. }
  split; [exact Hsame|]. split; [rewrite Hsame; reflexivity|]. split.
  - intro Hu. rewrite Hsame. apply store_keeps_unique. exact Hu.
  - intro Hacc. subst second first. rewrite !store_incremental_eq. cbn [db_after counters].
    destruct (process_meetings_accepted refuses Hacc false ms (open_cursor db)
                zero_counters eq_refl) as (F1 & Hrun1).
    set (c1 := fst (process_meetings refuses false ms (open_cursor db, zero_counters)))
      in *.
    set (db1 := commit db c1).
    destruct (process_meetings_accepted refuses Hacc false ms (open_cursor db1)
                zero_counters eq_refl) as (_ & Hrun2).
    apply (f_equal snd) in Hrun2. cbn [snd] in Hrun2. rewrite Hrun2.
    apply (f_equal fst) in Hrun1. cbn [fst] in Hrun1.
    rewrite accepted_run_rows in Hrun1. cbn [open_cursor table] in Hrun1.
    rewrite accepted_run_all_updated; [reflexivity|].
    unfold db1, commit. cbn [open_cursor table meetings]. rewrite F1, Hrun1.
    apply fold_store_step_covers. exact Hid.
Qed.

Lemma incremental_store_idempotent_witness :
  Forall (fun m => event_id m <> None)
    [samples.sync; samples.standup; samples.sync_rescheduled] /\
  let first := store_meetings_data samples.accepts_all
                 [samples.sync; samples.standup; samples.sync_rescheduled]
                 false samples.old_db in
  let second := store_meetings_data samples.accepts_all
                  [samples.sync; samples.standup; samples.sync_rescheduled]
                  false (db_after first) in
  meetings (db_after second) = meetings (db_after first) /\
  List.length (meetings (db_after second)) = List.length (meetings (db_after first)) /\
  (unique_event_ids (meetings samples.old_db) ->
   unique_event_ids (meetings (db_after second))) /\
  ((forall s, samples.accepts_all s = false) ->
   counters second = mk_Counters 0 3 0).
Proof.
  assert (H : Forall (fun m => event_id m <> None)
                [samples.sync; samples.standup; samples.sync_rescheduled])
    by (repeat constructor; discriminate).
  split; [exact H|].
  exact (incremental_store_idempotent samples.accepts_all
           [samples.sync; samples.standup; samples.sync_rescheduled]
           samples.old_db H).
Defined.

(** C1 (as stated) fails for a record without [event_id]: the SELECT
    finds no row for a NULL and the unique constraint lets a second NULL
    in, so the second call inserts the record once more. *)
Lemma null_event_id_is_inserted_again :
  let first := store_meetings_data samples.accepts_all [samples.no_id]
                 false samples.empty_db in
  let second := store_meetings_data samples.accepts_all [samples.no_id]
                  false (db_after first) in
  List.length (meetings (db_after first)) = 1%nat /\
  List.length (meetings (db_after second)) = 2%nat /\
  counters second = mk_Counters 1 0 0 /\
  meetings (db_after second) <> meetings (db_after first).
Proof.
  vm_compute. repeat split; discriminate.
Qed.

(* ================================================================= *)
(** ** Historical mode *)

Section Historical.

Context {zone : TimeZone}.

Lemma has_event_id_of_match (m m0 : MeetingRecord) (t : list Row) :
  event_id_matches (event_id m) (row_of_meeting m0) = true ->
  has_event_id (event_id m) t = has_event_id (event_id m0) t.
Proof.
  intro H. unfold has_event_id.
  induction t as [|r t IH]; simpl; [reflexivity|].
  rewrite IH. f_equal.
  unfold event_id_matches in *. simpl in H.
  destruct (event_id m) as [a|], (event_id m0) as [b|]; try discriminate.
  apply String.eqb_eq in H. subst. reflexivity.
Qed.

(** The rows after the INSERTs of a batch: the rows there were, and
    one row for each record that finds its [event_id] free. *)
Lemma historical_rows (ms : list MeetingRecord) : forall t row,
  In row (fold_left (store_step true) ms t) <->
  In row t \/
  exists pre m post,
    ms = pre ++ m :: post /\ has_event_id (event_id m) t = false /\
    first_of_its_id pre m /\ row = row_of_meeting m.
Proof.
  unfold first_of_its_id.
  induction ms as [|m0 ms IH]; intros t row; cbn [fold_left].
  - split; [auto|]. intros [H | (pre & m & post & H & _)]; [exact H|].
    destruct pre; discriminate.
  - rewrite IH, store_step_historical.
    destruct (has_event_id (event_id m0) t) eqn:Hhas.
    + split.
      * intros [H | (pre & m & post & -> & Hfree & Hpre & ->)]; [auto|].
        right. exists (m0 :: pre), m, post.
        repeat split; auto.
        constructor; [|exact Hpre].
        apply not_true_is_false. intro Hm.
        rewrite (has_event_id_of_match _ _ _ Hm) in Hfree. congruence.
      * intros [H | (pre & m & post & Heq & Hfree & Hpre & ->)]; [auto|].
        destruct pre as [|p pre]; simpl in Heq; injection Heq as -> ->.
        -- congruence.
        -- right. exists pre, m, post. inversion Hpre; subst. auto.
    + split.
      * intros [H | (pre & m & post & -> & Hfree & Hpre & ->)].
        -- apply in_app_or in H. destruct H as [H | [<- | []]]; [auto|].
           right. exists [], m0, ms. repeat split; auto.
        -- rewrite has_event_id_app in Hfree.
           apply orb_false_elim in Hfree. destruct Hfree as (Hfree & Hm0).
           simpl in Hm0. rewrite orb_false_r in Hm0.
           right. exists (m0 :: pre), m, post. repeat split; auto.
      * intros [H | (pre & m & post & Heq & Hfree & Hpre & ->)].
        -- left. apply in_or_app. auto.
        -- destruct pre as [|p pre]; simpl in Heq; injection Heq as -> ->.
           ++ left. apply in_or_app. right. left. reflexivity.
           ++ right. exists pre, m, post. inversion Hpre; subst.
              repeat split; auto.
              rewrite has_event_id_app, Hfree. simpl.
              rewrite orb_false_r. assumption.
Qed.

(** Records with pairwise distinct identifiers are all inserted. *)
Lemma historical_distinct (ms : list MeetingRecord) : forall t,
  unique_event_ids (t ++ map row_of_meeting ms) ->
  fold_left (store_step true) ms t = t ++ map row_of_meeting ms.
Proof.
  induction ms as [|m ms IH]; intros t H; cbn [fold_left map].
  - symmetry. apply app_nil_r.
  - cbn [map] in H. rewrite store_step_historical.
    pose proof (unique_app_mid _ _ _ H) as Hfree. simpl in Hfree. rewrite Hfree.
    rewrite IH; rewrite <- app_assoc; [reflexivity | exact H].
Qed.

End Historical.

(** C2 (as the code has it).  In historical mode [store_meetings_data]
    first deletes every row of [meetings] and then inserts the records
    in order, each with ON CONFLICT (event_id) DO NOTHING.  When the
    engine refuses no statement, the call returns [True] and the table
    then holds one row for each record that is the first of the sequence
    with its [event_id] (a record without [event_id] is always one) and
    nothing else: no row from before survives, whatever the table held,
    no two rows share an [event_id], and the rows are as many as the
    records counted as inserted.  When the identifiers of the records
    are pairwise distinct, the table is the sequence of the records. *)
Theorem historical_store_replaces {zone : TimeZone}
    (refuses : Sql -> bool) (ms : list MeetingRecord) (db : Db) :
  (forall s, refuses s = false) ->
  let r := store_meetings_data refuses ms true db in
  returned r = true /\
  (forall row, In row (meetings (db_after r)) <->
     exists pre m post,
       ms = pre ++ m :: post /\ first_of_its_id pre m /\ row = row_of_meeting m) /\
  (forall db', meetings (db_after (store_meetings_data refuses ms true db'))
               = meetings (db_after r)) /\
  unique_event_ids (meetings (db_after r)) /\
  List.length (meetings (db_after r)) = inserted (counters r) /\
  (unique_event_ids (map row_of_meeting ms) ->
   meetings (db_after r) = map row_of_meeting ms).
Proof.
  intros Hacc r.
  assert (Hrows : forall db0,
            meetings (db_after (store_meetings_data refuses ms true db0))
            = fold_left (store_step true) ms []).
  { intro db0. rewrite store_historical_eq by apply Hacc. cbn [db_after].
    destruct (process_meetings_accepted refuses Hacc true ms (cleared_cursor db0)
                zero_counters eq_refl) as (F & Hrun).
    unfold commit. cbn [meetings]. rewrite F.
    apply (f_equal fst) in Hrun. cbn [fst] in Hrun.
    rewrite Hrun, accepted_run_rows. reflexivity. }
  subst r. split; [|split; [|split; [|split; [|split]]]].
  - rewrite store_historical_eq by apply Hacc. reflexivity.
  - intro row. rewrite Hrows, historical_rows. split.
    + intros [[] | (pre & m & post & H1 & _ & H2 & H3)].
      exists pre, m, post. auto.
    + intros (pre & m & post & H1 & H2 & H3). right.
      exists pre, m, post. auto.
  - intro db'. rewrite !Hrows. reflexivity.
  - rewrite Hrows, <- (Hrows (mk_Db [] [])).
    apply store_keeps_unique. exact I.
  - rewrite Hrows. rewrite store_historical_eq by apply Hacc. cbn [counters].
    destruct (process_meetings_accepted refuses Hacc true ms (cleared_cursor db)
                zero_counters eq_refl) as (_ & Hrun).
    apply (f_equal snd) in Hrun. cbn [snd] in Hrun. rewrite Hrun.
    cbn [cleared_cursor table].
    pose proof (accepted_run_inserted ms [] zero_counters) as Hlen.
    rewrite accepted_run_rows in Hlen. simpl in Hlen. lia.
  - intro Hu. rewrite Hrows. apply (historical_distinct ms []). exact Hu.
Qed.

Lemma historical_store_replaces_witness :
  (forall s, samples.accepts_all s = false) /\
  let r := store_meetings_data samples.accepts_all
             [samples.sync; samples.standup; samples.sync_rescheduled]
             true samples.old_db in
  returned r = true /\
  (forall row, In row (meetings (db_after r)) <->
     exists pre m post,
       [samples.sync; samples.standup; samples.sync_rescheduled] = pre ++ m :: post /\
       first_of_its_id pre m /\ row = row_of_meeting m) /\
  (forall db', meetings (db_after (store_meetings_data samples.accepts_all
                 [samples.sync; samples.standup; samples.sync_rescheduled] true db'))
               = meetings (db_after r)) /\
  unique_event_ids (meetings (db_after r)) /\
  List.length (meetings (db_after r)) = inserted (counters r) /\
  (unique_event_ids
     (map row_of_meeting [samples.sync; samples.standup; samples.sync_rescheduled]) ->
   meetings (db_after r)
   = map row_of_meeting [samples.sync; samples.standup; samples.sync_rescheduled]).
Proof.
  assert (H : forall s, samples.accepts_all s = false) by reflexivity.
  split; [exact H|].
  exact (historical_store_replaces samples.accepts_all
           [samples.sync; samples.standup; samples.sync_rescheduled]
           samples.old_db H).
Defined.

(** C2 (as stated) fails when two of the fetched records carry the same
    [event_id]: the second INSERT meets the unique constraint and does
    nothing, so a record the source returned is not in the table. *)
Lemma historical_store_drops_second_of_an_id :
  let r := store_meetings_data samples.accepts_all
             [samples.sync; samples.sync_rescheduled] true samples.old_db in
  returned r = true /\
  In samples.sync_rescheduled [samples.sync; samples.sync_rescheduled] /\
  ~ In (row_of_meeting samples.sync_rescheduled) (meetings (db_after r)) /\
  meetings (db_after r) = [row_of_meeting samples.sync] /\
  counters r = mk_Counters 1 0 1.
Proof.
  cbv zeta. split; [reflexivity|]. split; [right; left; reflexivity|].
  split; [|split; reflexivity].
  change (meetings (db_after (store_meetings_data samples.accepts_all
            [samples.sync; samples.sync_rescheduled] true samples.old_db)))
    with [row_of_meeting samples.sync].
  intros [H | []]. discriminate H.
Qed.

(* ================================================================= *)
(** ** From the events to the rows *)

Lemma timestamp_naive {zone : TimeZone} (d : datetime) :
  tz_aware (timestamp d) = false.
Proof. unfold timestamp. destruct (tz_aware d) eqn:E; [reflexivity | exact E]. Qed.

(** Where the times of a row come from. *)
Lemma store_rows_origin {zone : TimeZone} (refuses : Sql -> bool) (ms : list MeetingRecord)
    (clear_existing : bool) (db : Db) (row : Row) :
  In row (meetings (db_after (store_meetings_data refuses ms clear_existing db))) ->
  In row (meetings db) \/
  exists m, In m ms /\
    col_start_time row = timestamp (start_time m) /\
    col_end_time row = timestamp (end_time m) /\
    col_duration_minutes row = duration_minutes m.
Proof.
  set (P := fun t : list Row => forall row, In row t ->
              In row (meetings db) \/
              exists m, In m ms /\
                col_start_time row = timestamp (start_time m) /\
                col_end_time row = timestamp (end_time m) /\
                col_duration_minutes row = duration_minutes m).
  assert (Hloop : forall c k, P (table c) ->
            P (table (fst (process_meetings refuses clear_existing ms (c, k))))).
  { intros c k. apply process_meetings_invariant.
    - intros m t Hm Ht x Hx. unfold apply_sql in Hx.
      destruct (existsb _ t); cbn [fst] in Hx; [apply Ht; exact Hx|].
      apply in_app_or in Hx. destruct Hx as [Hx | [<- | []]]; [apply Ht; exact Hx|].
      right. exists m. cbn [row_of_meeting col_start_time col_end_time
                            col_duration_minutes]. auto.
    - intros m t Hm Ht x Hx. cbn [apply_sql fst] in Hx.
      apply in_map_iff in Hx. destruct Hx as (y & <- & Hy).
      destruct (event_id_matches (event_id m) y); [|apply Ht; exact Hy].
      right. exists m. cbn [update_row col_start_time col_end_time
                            col_duration_minutes]. auto. }
  assert (Hold : P (meetings db)) by (intros x Hx; left; exact Hx).
  assert (Hnil : P []) by (intros x []).
  revert row. change (P (meetings (db_after
    (store_meetings_data refuses ms clear_existing db)))).
  destruct clear_existing.
  - destruct (refuses DeleteMeetings) eqn:Hd.
    + rewrite store_historical_refused by exact Hd. exact Hold.
    + rewrite store_historical_eq by exact Hd. cbn [db_after commit meetings].
      destruct (failed _); [exact Hold | apply Hloop; exact Hnil].
  - rewrite store_incremental_eq. cbn [db_after commit meetings].
    destruct (failed _); [exact Hold | apply Hloop; exact Hold].
Qed.

(** C6 (as the code has it).  An event gives a record only when its
    start and its end both carry a timestamp that is not empty and that
    [datetime.fromisoformat] reads, and the two values can be
    subtracted.  So a row that is in [meetings] after the events fetched
    for a window went through [store_meetings_data] is a row that was
    there before, or is made of an event of the window: its
    [start_time] and [end_time] are the timestamps, without time zone,
    that the session's time zone makes of the start and end read from
    the event, and its [duration_minutes] is
    [int((end - start).total_seconds() / 60)] for the values read.  The
    end is not compared with the start. *)
Theorem stored_rows_have_parsed_times {zone : TimeZone}
    (fromisoformat : string -> option datetime)
    (api_list : Z -> Z -> Z -> option (list RawEvent))
    (refuses : Sql -> bool) (clear_existing : bool) (db : Db)
    (start_date end_date : Z) (row : Row) :
  In row (meetings (db_after
    (store_meetings_data refuses
       (fetch_calendar_data fromisoformat api_list start_date end_date)
       clear_existing db))) ->
  In row (meetings db) \/
  exists items raw s e start_dt end_dt delta,
    api_list start_date end_date 2500 = Some items /\ In raw items /\
    time_of (Py.get_default (raw_start raw) no_time) = Some s /\ s <> "" /\
    time_of (Py.get_default (raw_end raw) no_time) = Some e /\ e <> "" /\
    fromisoformat (Py.replace_Z s) = Some start_dt /\
    fromisoformat (Py.replace_Z e) = Some end_dt /\
    datetime_sub end_dt start_dt = Some delta /\
    col_start_time row = timestamp start_dt /\
    col_end_time row = timestamp end_dt /\
    tz_aware (col_start_time row) = false /\
    tz_aware (col_end_time row) = false /\
    col_duration_minutes row
    = Py.int_of_float (Py.float_truediv (total_seconds delta) 60).
Proof.
  intro Hrow.
  destruct (store_rows_origin _ _ _ _ _ Hrow) as [Hold | (m & Hm & Hs & He & Hd)];
    [left; exact Hold | right].
  unfold fetch_calendar_data, get_events in Hm.
  apply normalise_events_In in Hm. destruct Hm as (ev & Hev & Hnorm).
  destruct (api_list start_date end_date 2500) as [items|]; [|destruct Hev].
  apply in_map_iff in Hev. destruct Hev as (raw & <- & Hraw).
  destruct (normalise_event_inv _ _ _ Hnorm)
    as (s & e & sd & ed & delta & H1 & H2 & H3 & H4 & H5 & H6 & H7 & H8 & H9 & H10 & _).
  exists items, raw, s, e, sd, ed, delta.
  rewrite Hs, He, Hd, H8, H9, H10, !timestamp_naive.
  repeat split; auto.
Qed.

Lemma stored_rows_have_parsed_times_witness :
  In (row_of_meeting samples.abc123_record)
    (meetings (db_after
      (store_meetings_data samples.accepts_all
         (fetch_calendar_data samples.fromisoformat samples.api_abc123
            0 (samples.day 31))
         true samples.old_db))) /\
  (In (row_of_meeting samples.abc123_record) (meetings samples.old_db) \/
   exists items raw s e start_dt end_dt delta,
     samples.api_abc123 0 (samples.day 31) 2500 = Some items /\ In raw items /\
     time_of (Py.get_default (raw_start raw) no_time) = Some s /\ s <> "" /\
     time_of (Py.get_default (raw_end raw) no_time) = Some e /\ e <> "" /\
     samples.fromisoformat (Py.replace_Z s) = Some start_dt /\
     samples.fromisoformat (Py.replace_Z e) = Some end_dt /\
     datetime_sub end_dt start_dt = Some delta /\
     col_start_time (row_of_meeting samples.abc123_record) = timestamp start_dt /\
     col_end_time (row_of_meeting samples.abc123_record) = timestamp end_dt /\
     tz_aware (col_start_time (row_of_meeting samples.abc123_record)) = false /\
     tz_aware (col_end_time (row_of_meeting samples.abc123_record)) = false /\
     col_duration_minutes (row_of_meeting samples.abc123_record)
     = Py.int_of_float (Py.float_truediv (total_seconds delta) 60)).
Proof.
  assert (H : In (row_of_meeting samples.abc123_record)
                (meetings (db_after
                  (store_meetings_data samples.accepts_all
                     (fetch_calendar_data samples.fromisoformat samples.api_abc123
                        0 (samples.day 31))
                     true samples.old_db))))
    by (left; vm_compute; reflexivity).
  split; [exact H|].
  exact (stored_rows_have_parsed_times samples.fromisoformat samples.api_abc123
           samples.accepts_all true samples.old_db 0 (samples.day 31)
           (row_of_meeting samples.abc123_record) H).
Defined.

(** C6 (as stated) fails: an event that ends half an hour before it
    starts goes through [fetch_calendar_data] and is stored, in either
    mode, with [duration_minutes = -30]. *)
Lemma backwards_event_is_stored :
  exists row,
    meetings (db_after
      (store_meetings_data samples.accepts_all
         (fetch_calendar_data samples.fromisoformat samples.api_backwards
            0 (samples.day 31))
         true samples.empty_db)) = [row] /\
    meetings (db_after
      (store_meetings_data samples.accepts_all
         (fetch_calendar_data samples.fromisoformat samples.api_backwards
            0 (samples.day 31))
         false samples.empty_db)) = [row] /\
    micros (col_end_time row) < micros (col_start_time row) /\
    col_duration_minutes row = -30.
Proof.
  eexists. split; [vm_compute; reflexivity|].
  split; [vm_compute; reflexivity|].
  split; vm_compute; reflexivity.
Qed.

(* ================================================================= *)
(** ** The scenarios of the specification, and two more *)

(** The event [abc123] gives [duration_minutes = 30], two attendees, one
    accepted, one declined, and a one-on-one meeting. *)
Example scenario_abc123 :
  normalise_event samples.fromisoformat samples.abc123 = Some samples.abc123_record /\
  duration_minutes samples.abc123_record = 30 /\
  attendees_count samples.abc123_record = 2%nat /\
  attendees_accepted samples.abc123_record = 1%nat /\
  attendees_declined samples.abc123_record = 1%nat /\
  is_one_on_one samples.abc123_record = true.
Proof. repeat split; reflexivity. Qed.

(** An incremental fetch that returns a stored event with a new summary
    updates the row: nothing inserted, one updated, as many rows. *)
Example scenario_rescheduled :
  let before := db_after (store_meetings_data samples.accepts_all [samples.sync]
                            false samples.empty_db) in
  let r := store_meetings_data samples.accepts_all [samples.sync_rescheduled]
             false before in
  counters r = mk_Counters 0 1 0 /\
  List.length (meetings (db_after r)) = List.length (meetings before) /\
  map col_summary (meetings (db_after r)) = ["Sync (Rescheduled)"].
Proof. repeat split; reflexivity. Qed.

(** The whole path of an incremental fetch, from the API to the table. *)
Example scenario_incremental_fetch :
  fetch_incremental_data
    (GoogleCalendarService true samples.fromisoformat samples.api_abc123)
    more_samples.postgres_env more_samples.third_time_lucky
    samples.accepts_all (samples.day 20000) 1 samples.empty_db
  = Some (true,
          mk_Db [row_of_meeting samples.abc123_record]
                [SelectIdByEventId (Some "abc123");
                 InsertMeeting samples.abc123_record]).
Proof. vm_compute. reflexivity. Qed.

(** The table keeps the wall clock of the session's time zone: in a
    session two hours ahead of UTC the event of 09:00 UTC is stored as
    11:00, without a zone. *)
Example scenario_session_time_zone :
  start_time samples.abc123_record = mk_datetime 1704099600000000 true /\
  col_start_time (@row_of_meeting more_samples.two_hours_ahead samples.abc123_record)
  = mk_datetime 1704106800000000 false /\
  col_start_time (@row_of_meeting samples.utc samples.abc123_record)
  = mk_datetime 1704099600000000 false.
Proof. repeat split; reflexivity. Qed.

(** A statement that raises fails the transaction: the commit that ends
    the call then keeps nothing of it, the DELETE of historical mode
    included, while the counters still tell one record inserted. *)
Example scenario_refused_insert :
  let r := store_meetings_data samples.refuses_standup
             [samples.sync; samples.standup] true samples.old_db in
  returned r = true /\
  meetings (db_after r) = meetings samples.old_db /\
  counters r = mk_Counters 1 0 1.
Proof. repeat split; reflexivity. Qed.

(* ================================================================= *)
(** ** Further properties: the records of fetch_calendar_data *)

(** A record is the event it was made from, field by field. *)
Lemma normalise_event_fields (f : string -> option datetime)
    (ev : ProcessedEvent) (m : MeetingRecord) :
  normalise_event f ev = Some m ->
  exists start_dt end_dt duration,
    m = {| event_id := ev_id ev;
           calendar_id := "primary";
           organizer_email := Py.get_default (ev_organizer_email ev) "unknown@domain.com";
           user_email := Py.get_default (ev_organizer_email ev) "unknown@domain.com";
           summary := ev_summary ev;
           start_time := start_dt;
           end_time := end_dt;
           duration_minutes := duration;
           attendees_count := List.length (ev_attendees ev);
           attendees_accepted := t_accepted (count_attendees (ev_attendees ev));
           attendees_declined := t_declined (count_attendees (ev_attendees ev));
           attendees_tentative := t_tentative (count_attendees (ev_attendees ev));
           attendees_needs_action := t_needs_action (count_attendees (ev_attendees ev));
           attendees_accepted_emails :=
             Py.join "," (t_accepted_emails (count_attendees (ev_attendees ev)));
           meet_link := "";
           html_link := "";
           is_one_on_one := Nat.eqb (List.length (ev_attendees ev)) 2;
           has_manager_attendee := false;
           unique_departments := 1;
           departments_list := "Unknown";
           department := "Unknown";
           division := "Unknown";
           subdepartment := "Unknown";
           is_manager := false |}.
Proof.
  unfold normalise_event.
  destruct (negb _ || negb _); [discriminate|].
  destruct (parse_times f _ _) as [[[sd ed] duration]|]; [|discriminate].
  intro H. injection H as <-. exists sd, ed, duration. reflexivity.
Qed.

Section StatusCounting.

Let email_of (a : Attendee) : string := Py.get_default (email a) "".

Lemma count_attendee_by_status (t : Tally) (a : Attendee) :
  t_accepted (count_attendee t a)
  = (t_accepted t + (if has_status "accepted" a then 1 else 0))%nat /\
  t_declined (count_attendee t a)
  = (t_declined t + (if has_status "declined" a then 1 else 0))%nat /\
  t_tentative (count_attendee t a)
  = (t_tentative t + (if has_status "tentative" a then 1 else 0))%nat /\
  t_accepted_emails (count_attendee t a)
  = t_accepted_emails t ++ (if has_status "accepted" a then [email_of a] else []).
Proof.
  unfold count_attendee, has_status, email_of.
  generalize (Py.get_default (responseStatus a) "needsAction"). intro rs.
  destruct (String.eqb rs "accepted") eqn:E1.
  { apply String.eqb_eq in E1. subst rs. simpl. repeat split; lia. }
  destruct (String.eqb rs "declined") eqn:E2.
  { apply String.eqb_eq in E2. subst rs. simpl.
    rewrite app_nil_r. repeat split; lia. }
  destruct (String.eqb rs "tentative") eqn:E3.
  { apply String.eqb_eq in E3. subst rs. simpl.
    rewrite app_nil_r. repeat split; lia. }
  destruct (String.eqb rs "needsAction"); simpl;
    rewrite app_nil_r; repeat split; lia.
Qed.

Lemma fold_count_by_status (l : list Attendee) : forall t,
  t_accepted (fold_left count_attendee l t)
  = (t_accepted t + List.length (filter (has_status "accepted") l))%nat /\
  t_declined (fold_left count_attendee l t)
  = (t_declined t + List.length (filter (has_status "declined") l))%nat /\
  t_tentative (fold_left count_attendee l t)
  = (t_tentative t + List.length (filter (has_status "tentative") l))%nat /\
  t_accepted_emails (fold_left count_attendee l t)
  = t_accepted_emails t ++ map email_of (filter (has_status "accepted") l).
Proof.
  induction l as [|a l IH]; intro t; cbn [fold_left filter].
  - cbn [List.length map]. rewrite app_nil_r. repeat split; lia.
  - destruct (IH (count_attendee t a)) as (Ha & Hd & Ht & He).
    destruct (count_attendee_by_status t a) as (Ha1 & Hd1 & Ht1 & He1).
    rewrite Ha, Hd, Ht, He, Ha1, Hd1, Ht1, He1.
    destruct (has_status "accepted" a), (has_status "declined" a),
      (has_status "tentative" a); cbn [List.length map];
      rewrite <- ?app_assoc; repeat split; try lia; reflexivity.
Qed.

(** X1.  Each of the counters [attendees_accepted], [attendees_declined]
    and [attendees_tentative] of a record is the number of attendees of
    the event with that [responseStatus]; [attendees_accepted_emails] is
    the comma-joined list of the e-mails of the accepted attendees in
    their order, an attendee without e-mail giving an empty entry, so it
    has as many entries as [attendees_accepted] counts; and
    [is_one_on_one] says that the event has exactly two attendees. *)
Theorem record_counts_by_status (f : string -> option datetime)
    (ev : ProcessedEvent) (m : MeetingRecord) :
  normalise_event f ev = Some m ->
  attendees_accepted m = List.length (filter (has_status "accepted") (ev_attendees ev)) /\
  attendees_declined m = List.length (filter (has_status "declined") (ev_attendees ev)) /\
  attendees_tentative m = List.length (filter (has_status "tentative") (ev_attendees ev)) /\
  (exists emails,
     attendees_accepted_emails m = Py.join "," emails /\
     emails = map (fun a => Py.get_default (email a) "")
                  (filter (has_status "accepted") (ev_attendees ev)) /\
     List.length emails = attendees_accepted m) /\
  (is_one_on_one m = true <-> attendees_count m = 2%nat).
Proof.
  intro H. destruct (normalise_event_fields _ _ _ H) as (sd & ed & d & ->).
  cbn [attendees_accepted attendees_declined attendees_tentative
       attendees_accepted_emails is_one_on_one attendees_count].
  unfold count_attendees.
  destruct (fold_count_by_status (ev_attendees ev) tally0) as (Ha & Hd & Ht & He).
  rewrite Ha, Hd, Ht, He. cbn [tally0 t_accepted t_declined t_tentative
                              t_accepted_emails app Nat.add].
  repeat split.
  - eexists. split; [reflexivity|]. split; [reflexivity|]. apply length_map.
  - apply Nat.eqb_eq.
  - apply Nat.eqb_eq.
Qed.

End StatusCounting.

Lemma record_counts_by_status_witness :
  normalise_event samples.fromisoformat samples.abc123 = Some samples.abc123_record /\
  (attendees_accepted samples.abc123_record
   = List.length (filter (has_status "accepted") (ev_attendees samples.abc123)) /\
   attendees_declined samples.abc123_record
   = List.length (filter (has_status "declined") (ev_attendees samples.abc123)) /\
   attendees_tentative samples.abc123_record
   = List.length (filter (has_status "tentative") (ev_attendees samples.abc123)) /\
   (exists emails,
      attendees_accepted_emails samples.abc123_record = Py.join "," emails /\
      emails = map (fun a => Py.get_default (email a) "")
                   (filter (has_status "accepted") (ev_attendees samples.abc123)) /\
      List.length emails = attendees_accepted samples.abc123_record) /\
   (is_one_on_one samples.abc123_record = true
    <-> attendees_count samples.abc123_record = 2%nat)).
Proof.
  split; [reflexivity|].
  apply (record_counts_by_status samples.fromisoformat samples.abc123).
  reflexivity.
Defined.

(** X2.  [fetch_calendar_data] neither reorders nor repeats nor invents
    events: the identifiers of its records are, in order, the
    identifiers of the events of the API answer whose times it can
    read, and it returns nothing when the API call fails. *)
Theorem fetch_calendar_data_keeps_order
    (f : string -> option datetime)
    (api_list : Z -> Z -> Z -> option (list RawEvent)) (start_date end_date : Z) :
  map event_id (fetch_calendar_data f api_list start_date end_date)
  = map raw_id
      (filter (fun raw => is_some (normalise_event f (process_event raw)))
              (Py.get_default (api_list start_date end_date 2500) [])) /\
  (List.length (fetch_calendar_data f api_list start_date end_date)
   <= List.length (Py.get_default (api_list start_date end_date 2500%Z) []))%nat.
Proof.
  unfold fetch_calendar_data, get_events.
  destruct (api_list start_date end_date 2500) as [items|]; cbn [Py.get_default];
    [|split; [reflexivity | apply Nat.le_refl]].
  induction items as [|raw items (IH1 & IH2)]; cbn [map normalise_events filter].
  - split; [reflexivity | apply Nat.le_refl].
  - destruct (normalise_event f (process_event raw)) as [m|] eqn:E;
      cbn [is_some map List.length].
    + destruct (normalise_event_fields _ _ _ E) as (sd & ed & d & ->).
      cbn [event_id]. rewrite IH1. split; [reflexivity | lia].
    + split; [exact IH1 | lia].
Qed.

(* ================================================================= *)
(** ** Further properties: the statements of store_meetings_data *)

Section Journal.

Context {zone : TimeZone}.

Variable refuses : Sql -> bool.






End Journal.



(* ================================================================= *)
(** ** Further properties: the rows of store_meetings_data *)

Lemma kept_columns_update_if {zone : TimeZone} (m : MeetingRecord) (r : Row) :
  kept_columns (update_if_matches m r) = kept_columns r.
Proof.
  unfold update_if_matches.
  destruct (event_id_matches (event_id m) r); reflexivity.
Qed.

Lemma set_columns_fixed {zone : TimeZone} (m : MeetingRecord) (r : Row) :
  update_row m r = r -> set_columns r = set_values m.
Proof. intro H. rewrite <- H. reflexivity. Qed.

(** X6.  Incremental mode never removes a row and never touches the
    twelve columns outside the SET clause of its UPDATE ([event_id],
    [user_email], [attendees_accepted_emails], [is_one_on_one], ...):
    whatever the engine refuses, the rows of the table before the call
    are still there after it, in their order and with those columns as
    they were, followed by rows inserted for records of the batch. *)
Theorem incremental_keeps_rows {zone : TimeZone}
    (refuses : Sql -> bool) (ms : list MeetingRecord)
    (db : Db) :
  exists added,
    map kept_columns (meetings (db_after (store_meetings_data refuses ms false db)))
    = map kept_columns (meetings db)
      ++ map kept_columns (map row_of_meeting added) /\
    incl added ms.
Proof.
  set (P := fun t : list Row => exists added,
              map kept_columns t
              = map kept_columns (meetings db)
                ++ map kept_columns (map row_of_meeting added) /\
              incl added ms).
  assert (Hold : P (meetings db)).
  { exists []. split; [symmetry; apply app_nil_r | intros x []]. }
  change (P (meetings (db_after (store_meetings_data refuses ms false db)))).
  rewrite store_incremental_eq. cbn [db_after commit meetings].
  destruct (failed _); [exact Hold|].
  apply process_meetings_invariant; [| |exact Hold].
  - intros m t Hm (added & Heq & Hincl). unfold apply_sql.
    destruct (existsb _ t); cbn [fst]; [exists added; auto|].
    exists (added ++ [m]). split.
    + rewrite !map_app, Heq, <- app_assoc. reflexivity.
    + apply incl_app; [exact Hincl|]. intros x [<- | []]. exact Hm.
  - intros m t Hm (added & Heq & Hincl). exists added. split; [|exact Hincl].
    rewrite <- Heq. cbn [apply_sql fst]. rewrite map_map.
    apply map_ext. intro r. apply (kept_columns_update_if m r).
Qed.

Section LastWins.

Context {zone : TimeZone}.

Lemma matches_shared_id (m m' : MeetingRecord) (r : Row) :
  event_id_matches (event_id m) r = true ->
  event_id_matches (event_id m') r = true ->
  event_id_matches (event_id m) (row_of_meeting m') = true.
Proof.
  unfold event_id_matches. cbn [row_of_meeting col_event_id].
  destruct (event_id m) as [a|], (event_id m') as [b|], (col_event_id r) as [x|];
    try discriminate.
  intros Ha Hb. apply String.eqb_eq in Ha, Hb. subst. apply String.eqb_refl.
Qed.

(** After the turn of a record, the rows with its identifier carry its
    values. *)
Lemma store_step_writes (t : list Row) (m : MeetingRecord) (row : Row) :
  In row (store_step false t m) ->
  event_id_matches (event_id m) row = true ->
  update_row m row = row.
Proof.
  rewrite store_step_incremental.
  destruct (has_event_id (event_id m) t) eqn:Hhas; intros Hin Hm.
  - apply in_map_iff in Hin. destruct Hin as (x & <- & Hx).
    rewrite <- (same_frame_matches _ _ _ (same_frame_update_if m x)) in Hm.
    unfold update_if_matches. rewrite Hm. reflexivity.
  - apply in_app_or in Hin. destruct Hin as [Hx | [<- | []]]; [|reflexivity].
    assert (has_event_id (event_id m) t = true) by (apply has_event_id_In; eauto).
    congruence.
Qed.

(** The turn of a record with another identifier leaves them so. *)
Lemma store_step_spares (t : list Row) (m m' : MeetingRecord) :
  event_id_matches (event_id m) (row_of_meeting m') = false ->
  (forall row, In row t -> event_id_matches (event_id m) row = true ->
               update_row m row = row) ->
  forall row, In row (store_step false t m') ->
              event_id_matches (event_id m) row = true ->
              update_row m row = row.
Proof.
  intros Hother Ht row. rewrite store_step_incremental.
  destruct (has_event_id (event_id m') t); intros Hin Hm.
  - apply in_map_iff in Hin. destruct Hin as (x & <- & Hx).
    rewrite <- (same_frame_matches _ _ _ (same_frame_update_if m' x)) in Hm.
    unfold update_if_matches.
    destruct (event_id_matches (event_id m') x) eqn:Hm'; [|apply Ht; assumption].
    rewrite (matches_shared_id m m' x Hm Hm') in Hother. discriminate.
  - apply in_app_or in Hin. destruct Hin as [Hx | [<- | []]]; [apply Ht; assumption|].
    congruence.
Qed.

Lemma fold_store_step_spares (m : MeetingRecord) (post : list MeetingRecord) :
  last_of_its_id m post ->
  forall t,
    (forall row, In row t -> event_id_matches (event_id m) row = true ->
                 update_row m row = row) ->
    forall row, In row (fold_left (store_step false) post t) ->
                event_id_matches (event_id m) row = true ->
                update_row m row = row.
Proof.
  unfold last_of_its_id.
  induction post as [|m' post IH]; intros Hlast t Ht; cbn [fold_left]; [exact Ht|].
  inversion Hlast as [|x l Hm' Hpost]; subst.
  apply (IH Hpost). apply store_step_spares; assumption.
Qed.

End LastWins.

(** X7.  In incremental mode the last record wins.  When no statement is
    refused, a row that carries the [event_id] of a record of the batch
    has, after the call, the eleven columns of the SET clause equal to
    the values of the last record of the batch with that [event_id]
    (historical mode keeps the first one instead). *)
Theorem incremental_last_record_wins {zone : TimeZone} (refuses : Sql -> bool)
    (pre post : list MeetingRecord) (m : MeetingRecord) (db : Db) (row : Row) :
  (forall s, refuses s = false) ->
  last_of_its_id m post ->
  In row (meetings (db_after
           (store_meetings_data refuses (pre ++ m :: post) false db))) ->
  event_id_matches (event_id m) row = true ->
  set_columns row = set_values m.
Proof.
  intros Hacc Hlast Hin Hm. apply set_columns_fixed.
  rewrite store_incremental_eq in Hin. cbn [db_after commit meetings] in Hin.
  destruct (process_meetings_accepted refuses Hacc false (pre ++ m :: post)
              (open_cursor db) zero_counters eq_refl) as (F & Hrun).
  rewrite F in Hin. apply (f_equal fst) in Hrun. cbn [fst] in Hrun.
  rewrite Hrun, accepted_run_rows, fold_left_app in Hin. cbn [fold_left] in Hin.
  revert row Hin Hm. apply (fold_store_step_spares m post Hlast).
  apply store_step_writes.
Qed.

Lemma incremental_last_record_wins_witness :
  (forall s, samples.accepts_all s = false) /\
  last_of_its_id samples.sync_rescheduled [samples.standup] /\
  In (update_row samples.sync_rescheduled (row_of_meeting samples.sync))
     (meetings (db_after
        (store_meetings_data samples.accepts_all
           ([samples.sync] ++ samples.sync_rescheduled :: [samples.standup])
           false samples.old_db))) /\
  event_id_matches (event_id samples.sync_rescheduled)
    (update_row samples.sync_rescheduled (row_of_meeting samples.sync)) = true /\
  set_columns (update_row samples.sync_rescheduled (row_of_meeting samples.sync))
  = set_values samples.sync_rescheduled.
Proof.
  assert (H1 : forall s, samples.accepts_all s = false) by reflexivity.
  assert (H2 : last_of_its_id samples.sync_rescheduled [samples.standup])
    by (repeat constructor).
  assert (H3 : In (update_row samples.sync_rescheduled (row_of_meeting samples.sync))
                 (meetings (db_after
                    (store_meetings_data samples.accepts_all
                       ([samples.sync] ++ samples.sync_rescheduled :: [samples.standup])
                       false samples.old_db))))
    by (right; left; reflexivity).
  assert (H4 : event_id_matches (event_id samples.sync_rescheduled)
                 (update_row samples.sync_rescheduled (row_of_meeting samples.sync))
               = true) by reflexivity.
  split; [exact H1|]. split; [exact H2|]. split; [exact H3|]. split; [exact H4|].
  exact (incremental_last_record_wins samples.accepts_all [samples.sync]
           [samples.standup] samples.sync_rescheduled samples.old_db _ H1 H2 H3 H4).
Defined.

Lemma count_step_incremental {zone : TimeZone}
    (t : list Row) (k : Counters) (m : MeetingRecord) :
  skipped (count_step false t k m) = skipped k /\
  (List.length (store_step false t m) + inserted k)%nat
  = (List.length t + inserted (count_step false t k m))%nat /\
  (inserted (count_step false t k m) + updated (count_step false t k m))%nat
  = S (inserted k + updated k).
Proof.
  rewrite store_step_incremental. unfold count_step. cbn [negb andb].
  destruct (has_event_id (event_id m) t).
  - rewrite length_map. cbn [skipped inserted updated count_updated].
    repeat split; lia.
  - rewrite length_app. cbn [skipped inserted updated count_inserted List.length].
    repeat split; lia.
Qed.

Lemma accepted_run_incremental_counts {zone : TimeZone}
    (ms : list MeetingRecord) : forall t k,
  skipped (snd (accepted_run false ms (t, k))) = skipped k /\
  (List.length (fst (accepted_run false ms (t, k))) + inserted k)%nat
  = (List.length t + inserted (snd (accepted_run false ms (t, k))))%nat /\
  (inserted (snd (accepted_run false ms (t, k)))
   + updated (snd (accepted_run false ms (t, k))))%nat
  = (inserted k + updated k + List.length ms)%nat.
Proof.
  unfold accepted_run.
  induction ms as [|m ms IH]; intros t k; cbn [fold_left fst snd].
  - cbn [List.length]. repeat split; lia.
  - destruct (IH (store_step false t m) (count_step false t k m)) as (Hs & Hl & Hn).
    destruct (count_step_incremental t k m) as (Hs1 & Hl1 & Hn1).
    cbn [List.length]. repeat split; lia.
Qed.

(** X8.  In incremental mode with no statement refused nothing is
    skipped: a record is either updated or inserted, the table grows by
    exactly the number of records counted as inserted, and the ON
    CONFLICT clause of the INSERT never comes into play. *)
Theorem incremental_counts_match_rows {zone : TimeZone} (refuses : Sql -> bool)
    (ms : list MeetingRecord) (db : Db) :
  (forall s, refuses s = false) ->
  skipped (counters (store_meetings_data refuses ms false db)) = 0%nat /\
  (inserted (counters (store_meetings_data refuses ms false db))
   + updated (counters (store_meetings_data refuses ms false db)))%nat
  = List.length ms /\
  List.length (meetings (db_after (store_meetings_data refuses ms false db)))
  = (List.length (meetings db)
     + inserted (counters (store_meetings_data refuses ms false db)))%nat.
Proof.
  intro Hacc. rewrite store_incremental_eq. cbn [counters db_after commit meetings].
  destruct (process_meetings_accepted refuses Hacc false ms (open_cursor db)
              zero_counters eq_refl) as (F & Hrun).
  rewrite F.
  destruct (accepted_run_incremental_counts ms (meetings db) zero_counters)
    as (Hs & Hl & Hn).
  change (table (open_cursor db)) with (meetings db) in Hrun.
  rewrite <- Hrun in Hs, Hl, Hn. cbn [fst snd] in Hs, Hl, Hn.
  cbn [zero_counters skipped inserted updated] in Hs, Hl, Hn.
  repeat split; lia.
Qed.

Lemma incremental_counts_match_rows_witness :
  (forall s, samples.accepts_all s = false) /\
  skipped (counters (store_meetings_data samples.accepts_all
             [samples.sync; samples.standup; samples.sync_rescheduled]
             false samples.old_db)) = 0%nat /\
  (inserted (counters (store_meetings_data samples.accepts_all
               [samples.sync; samples.standup; samples.sync_rescheduled]
               false samples.old_db))
   + updated (counters (store_meetings_data samples.accepts_all
                [samples.sync; samples.standup; samples.sync_rescheduled]
                false samples.old_db)))%nat
  = List.length [samples.sync; samples.standup; samples.sync_rescheduled] /\
  List.length (meetings (db_after (store_meetings_data samples.accepts_all
                 [samples.sync; samples.standup; samples.sync_rescheduled]
                 false samples.old_db)))
  = (List.length (meetings samples.old_db)
     + inserted (counters (store_meetings_data samples.accepts_all
                   [samples.sync; samples.standup; samples.sync_rescheduled]
                   false samples.old_db)))%nat.
Proof.
  assert (H : forall s, samples.accepts_all s = false) by reflexivity.
  split; [exact H|].
  exact (incremental_counts_match_rows samples.accepts_all
           [samples.sync; samples.standup; samples.sync_rescheduled]
           samples.old_db H).
Defined.

(** X9.  The unique constraint is kept: when no two rows of the table
    carry the same non-null [event_id] before a call, none do after it,
    in either mode and whatever the engine refuses. *)
Theorem store_keeps_event_ids_unique {zone : TimeZone} (refuses : Sql -> bool)
    (ms : list MeetingRecord) (clear_existing : bool) (db : Db) :
  unique_event_ids (meetings db) ->
  unique_event_ids
    (meetings (db_after (store_meetings_data refuses ms clear_existing db))).
Proof. apply store_keeps_unique. Qed.

Lemma store_keeps_event_ids_unique_witness :
  unique_event_ids (meetings samples.old_db) /\
  unique_event_ids
    (meetings (db_after
       (store_meetings_data samples.refuses_standup
          [samples.sync; samples.sync_rescheduled; samples.no_id; samples.no_id]
          false samples.old_db))).
Proof.
  assert (H : unique_event_ids (meetings samples.old_db))
    by (split; [reflexivity | exact I]).
  split; [exact H|].
  exact (store_keeps_event_ids_unique samples.refuses_standup
           [samples.sync; samples.sync_rescheduled; samples.no_id; samples.no_id]
           false samples.old_db H).
Defined.

(** The rows of the table after a call are rows of the table before it
    or rows that a record of the batch wrote. *)
Lemma store_rows_written {zone : TimeZone} (refuses : Sql -> bool) (ms : list MeetingRecord)
    (clear_existing : bool) (db : Db) (row : Row) :
  In row (meetings (db_after (store_meetings_data refuses ms clear_existing db))) ->
  In row (meetings db) \/ exists m, In m ms /\ update_row m row = row.
Proof.
  set (P := fun t : list Row => forall row, In row t ->
              In row (meetings db) \/ exists m, In m ms /\ update_row m row = row).
  assert (Hloop : forall c k, P (table c) ->
            P (table (fst (process_meetings refuses clear_existing ms (c, k))))).
  { intros c k. apply process_meetings_invariant.
    - intros m t Hm Ht x Hx. unfold apply_sql in Hx.
      destruct (existsb _ t); cbn [fst] in Hx; [apply Ht; exact Hx|].
      apply in_app_or in Hx. destruct Hx as [Hx | [<- | []]]; [apply Ht; exact Hx|].
      right. exists m. split; [exact Hm | reflexivity].
    - intros m t Hm Ht x Hx. cbn [apply_sql fst] in Hx.
      apply in_map_iff in Hx. destruct Hx as (y & <- & Hy).
      destruct (event_id_matches (event_id m) y); [|apply Ht; exact Hy].
      right. exists m. split; [exact Hm | reflexivity]. }
  assert (Hold : P (meetings db)) by (intros x Hx; left; exact Hx).
  assert (Hnil : P []) by (intros x []).
  revert row. change (P (meetings (db_after
    (store_meetings_data refuses ms clear_existing db)))).
  destruct clear_existing.
  - destruct (refuses DeleteMeetings) eqn:Hd.
    + rewrite store_historical_refused by exact Hd. exact Hold.
    + rewrite store_historical_eq by exact Hd. cbn [db_after commit meetings].
      destruct (failed _); [exact Hold | apply Hloop; exact Hnil].
  - rewrite store_incremental_eq. cbn [db_after commit meetings].
    destruct (failed _); [exact Hold | apply Hloop; exact Hold].
Qed.

(** X10.  The links of an event never reach the table.
    [fetch_calendar_data] reads [hangoutLink], [conferenceData] and
    [htmlLink] from the dict that [get_events] built, whose keys are
    [hangout_link], [conference_data] and [html_link]; so every record
    has empty [meet_link] and [html_link], whatever the API returned,
    and a row that is in the table after the records of a window were
    stored is a row that was there before, untouched, or has both
    columns empty: the UPDATE of incremental mode blanks the links of
    the rows it finds. *)
Theorem stored_links_are_empty {zone : TimeZone}
    (fromisoformat : string -> option datetime)
    (api_list : Z -> Z -> Z -> option (list RawEvent))
    (refuses : Sql -> bool) (clear_existing : bool) (db : Db)
    (start_date end_date : Z) :
  Forall (fun m => meet_link m = "" /\ html_link m = "")
    (fetch_calendar_data fromisoformat api_list start_date end_date) /\
  forall row,
    In row (meetings (db_after
      (store_meetings_data refuses
         (fetch_calendar_data fromisoformat api_list start_date end_date)
         clear_existing db))) ->
    In row (meetings db) \/ (col_meet_link row = "" /\ col_html_link row = "").
Proof.
  assert (Hrec : forall m,
            In m (fetch_calendar_data fromisoformat api_list start_date end_date) ->
            meet_link m = "" /\ html_link m = "").
  { intros m Hm. unfold fetch_calendar_data in Hm.
    apply normalise_events_In in Hm. destruct Hm as (ev & _ & Hnorm).
    destruct (normalise_event_fields _ _ _ Hnorm) as (sd & ed & d & ->).
    split; reflexivity. }
  split; [apply Forall_forall; exact Hrec|].
  intros row Hrow.
  destruct (store_rows_written _ _ _ _ _ Hrow) as [Hold | (m & Hm & Hfix)];
    [left; exact Hold | right].
  destruct (Hrec m Hm) as (Hl & Hh).
  rewrite <- Hfix. cbn [update_row col_meet_link col_html_link]. auto.
Qed.

(* ================================================================= *)
(** ** Further properties: get_db_connection *)

Section Connection.

Import db_connection.

Variable try_connect : nat -> Try.
Variable max_retries : nat.

Lemma connect_loop_turn (fuel retries slept : nat) (conn : option nat) :
  (retries < max_retries)%nat ->
  connect_loop try_connect max_retries (S fuel) retries slept conn
  = match try_connect retries with
    | Works => Some (Yielded (Some retries) slept)
    | failure =>
        if (max_retries <=? S retries)%nat then Some (Raised slept)
        else connect_loop try_connect max_retries fuel (S retries) (S slept)
               match failure with
               | TestFails => Some retries
               | _ => conn
               end
    end.
Proof.
  intro H. cbn [connect_loop].
  replace (retries <? max_retries)%nat with true
    by (symmetry; apply Nat.ltb_lt; exact H).
  destruct (try_connect retries); reflexivity.
Qed.

(** The loop stops at the first attempt that works, having slept once
    for each attempt before it, and raises after the last attempt
    otherwise, without a sleep after it. *)
Lemma connect_loop_spec : forall fuel retries slept conn,
  (retries < max_retries)%nat -> (max_retries <= retries + fuel)%nat ->
  (forall k, (retries <= k < max_retries)%nat -> try_connect k = Works ->
             (forall j, (retries <= j < k)%nat -> try_connect j <> Works) ->
             connect_loop try_connect max_retries fuel retries slept conn
             = Some (Yielded (Some k) (slept + (k - retries)))) /\
  ((forall j, (retries <= j < max_retries)%nat -> try_connect j <> Works) ->
   connect_loop try_connect max_retries fuel retries slept conn
   = Some (Raised (slept + (max_retries - 1 - retries)))).
Proof.
  induction fuel as [|fuel IH]; intros retries slept conn Hlt Hfuel; [lia|].
  rewrite connect_loop_turn by exact Hlt.
  destruct (Nat.leb_spec max_retries (S retries)) as [Hlast | Hmore].
  - assert (Hmax : max_retries = S retries) by lia.
    split.
    + intros k Hk Hworks _. assert (k = retries) by lia. subst k.
      rewrite Hworks. f_equal. f_equal. lia.
    + intro Hnone. specialize (Hnone retries ltac:(lia)).
      destruct (try_connect retries); [contradiction | |]; f_equal; f_equal; lia.
  - split.
    + intros k Hk Hworks Hfirst.
      destruct (Nat.eq_dec k retries) as [-> | Hne].
      * rewrite Hworks. f_equal. f_equal. lia.
      * assert (Hfail : try_connect retries <> Works) by (apply Hfirst; lia).
        assert (Hnext : forall c,
                  connect_loop try_connect max_retries fuel (S retries) (S slept) c
                  = Some (Yielded (Some k) (slept + (k - retries)))).
        { intro c.
          destruct (IH (S retries) (S slept) c ltac:(lia) ltac:(lia)) as (Hk' & _).
          rewrite (Hk' k); [f_equal; f_equal; lia | lia | exact Hworks |].
          intros j Hj. apply Hfirst. lia. }
        destruct (try_connect retries); [contradiction | apply Hnext | apply Hnext].
    + intro Hnone.
      assert (Hfail : try_connect retries <> Works) by (apply Hnone; lia).
      assert (Hnext : forall c,
                connect_loop try_connect max_retries fuel (S retries) (S slept) c
                = Some (Raised (slept + (max_retries - 1 - retries)))).
      { intro c.
        destruct (IH (S retries) (S slept) c ltac:(lia) ltac:(lia)) as (_ & Hr).
        rewrite Hr; [f_equal; f_equal; lia|].
        intros j Hj. apply Hnone. lia. }
      destruct (try_connect retries); [contradiction | apply Hnext | apply Hnext].
Qed.

(** The loop is over once every attempt it may make has been made. *)
Lemma connect_loop_total : forall fuel retries slept conn,
  (max_retries <= retries + fuel)%nat ->
  connect_loop try_connect max_retries fuel retries slept conn <> None.
Proof.
  induction fuel as [|fuel IH]; intros retries slept conn Hfuel.
  - cbn [connect_loop].
    replace (retries <? max_retries)%nat with false
      by (symmetry; apply Nat.ltb_ge; lia).
    discriminate.
  - destruct (Nat.lt_ge_cases retries max_retries) as [Hlt | Hge].
    + rewrite connect_loop_turn by exact Hlt.
      destruct (max_retries <=? S retries)%nat;
        destruct (try_connect retries); try discriminate; apply IH; lia.
    + cbn [connect_loop].
      replace (retries <? max_retries)%nat with false
        by (symmetry; apply Nat.ltb_ge; lia).
      discriminate.
Qed.

End Connection.

Lemma get_db_connection_total (env : string -> option string)
    (try_connect : nat -> db_connection.Try) (max_retries : nat) :
  db_connection.get_db_connection env try_connect max_retries <> None.
Proof.
  unfold db_connection.get_db_connection.
  destruct (db_connection.parameters_given env); cbn [negb]; [|discriminate].
  apply connect_loop_total. lia.
Qed.

Lemma store_with_connection_eq {zone : TimeZone} (env : string -> option string)
    (try_connect : nat -> db_connection.Try)
    (refuses : Sql -> bool) (ms : list MeetingRecord) (clear_existing : bool)
    (db : Db) :
  store_meetings_data_with_connection env try_connect refuses ms clear_existing db
  = Some (if connected env try_connect
          then store_meetings_data refuses ms clear_existing db
          else mk_StoreResult false db (mk_Counters 0 0 0)).
Proof.
  unfold store_meetings_data_with_connection, connected.
  destruct (db_connection.get_db_connection env try_connect
              db_connection.default_max_retries) as [[|slept|[n|] slept]|] eqn:E;
    try reflexivity.
  exfalso. exact (get_db_connection_total _ _ _ E).
Qed.

(** X18.  [get_db_connection] retries a bounded number of times.  With
    the parameters given and [max_retries >= 1], it yields the
    connection of the first attempt that works among the first
    [max_retries], after one sleep for each attempt that failed before
    it; when none of them works it re-raises the last error after
    exactly [max_retries] attempts and [max_retries - 1] sleeps.  With
    [max_retries = 0] it makes no attempt and yields [None]. *)
Theorem get_db_connection_retries (env : string -> option string)
    (try_connect : nat -> db_connection.Try) (max_retries : nat) :
  db_connection.parameters_given env = true ->
  (forall k, (k < max_retries)%nat ->
     try_connect k = db_connection.Works ->
     (forall j, (j < k)%nat -> try_connect j <> db_connection.Works) ->
     db_connection.get_db_connection env try_connect max_retries
     = Some (db_connection.Yielded (Some k) k)) /\
  ((1 <= max_retries)%nat ->
   (forall j, (j < max_retries)%nat -> try_connect j <> db_connection.Works) ->
   db_connection.get_db_connection env try_connect max_retries
   = Some (db_connection.Raised (max_retries - 1))) /\
  (max_retries = 0%nat ->
   db_connection.get_db_connection env try_connect max_retries
   = Some (db_connection.Yielded None 0)).
Proof.
  intro Henv. unfold db_connection.get_db_connection. rewrite Henv. cbn [negb].
  split; [|split].
  - intros k Hk Hworks Hfirst.
    destruct (connect_loop_spec try_connect max_retries max_retries 0 0 None
                ltac:(lia) ltac:(lia)) as (H & _).
    rewrite (H k); [f_equal; f_equal; lia | lia | exact Hworks |].
    intros j Hj. apply Hfirst. lia.
  - intros Hpos Hnone.
    destruct (connect_loop_spec try_connect max_retries max_retries 0 0 None
                ltac:(lia) ltac:(lia)) as (_ & H).
    rewrite H; [f_equal; f_equal; lia|].
    intros j Hj. apply Hnone. lia.
  - intros ->. reflexivity.
Qed.

Lemma get_db_connection_retries_witness :
  db_connection.parameters_given more_samples.postgres_env = true /\
  db_connection.get_db_connection more_samples.postgres_env
    more_samples.third_time_lucky 20
  = Some (db_connection.Yielded (Some 2%nat) 2) /\
  db_connection.get_db_connection more_samples.postgres_env more_samples.never_up 20
  = Some (db_connection.Raised 19).
Proof.
  assert (H : db_connection.parameters_given more_samples.postgres_env = true)
    by reflexivity.
  split; [exact H|]. split.
  - apply (proj1 (get_db_connection_retries more_samples.postgres_env
                    more_samples.third_time_lucky 20 H) 2%nat).
    + lia.
    + reflexivity.
    + intros j Hj. destruct j as [|[|j]]; [discriminate | discriminate | lia].
  - apply (proj1 (proj2 (get_db_connection_retries more_samples.postgres_env
                           more_samples.never_up 20 H))).
    + lia.
    + intros j _. discriminate.
Defined.

(** X19.  The environment that [main] accepts is one that
    [get_db_connection] accepts: with the four [POSTGRES_] variables set
    and not empty no [ValueError] is raised.  The converse fails:
    [get_db_connection] falls back on [DB_HOST], [DB_NAME], [DB_USER]
    and [DB_PASSWORD], which [main] does not read; and a [POSTGRES_]
    variable that is set but empty is not replaced by its fallback. *)
Theorem environment_checks_agree (env : string -> option string) :
  (filter (fun var => negb (Py.truthy_str (env var))) required_env_vars = [] ->
   db_connection.parameters_given env = true) /\
  (env "POSTGRES_HOST" = None -> env "POSTGRES_DB" = None ->
   env "POSTGRES_USER" = None -> env "POSTGRES_PASSWORD" = None ->
   Py.truthy_str (env "DB_HOST") = true -> Py.truthy_str (env "DB_NAME") = true ->
   Py.truthy_str (env "DB_USER") = true -> Py.truthy_str (env "DB_PASSWORD") = true ->
   db_connection.parameters_given env = true /\
   filter (fun var => negb (Py.truthy_str (env var))) required_env_vars
   = required_env_vars) /\
  (env "POSTGRES_HOST" = Some "" ->
   db_connection.get_db_connection env (fun _ => db_connection.Works) 20
   = Some db_connection.ValueError).
Proof.
  unfold db_connection.parameters_given, db_connection.db_host, db_connection.db_name,
    db_connection.db_user, db_connection.db_password, db_connection.getenv_or,
    required_env_vars.
  split; [|split].
  - cbn [filter].
    destruct (env "POSTGRES_HOST") as [h|]; cbn [Py.truthy_str negb];
      [destruct (String.eqb h ""); cbn [negb]|]; try discriminate.
    destruct (env "POSTGRES_DB") as [d|]; cbn [Py.truthy_str negb];
      [destruct (String.eqb d ""); cbn [negb]|]; try discriminate.
    destruct (env "POSTGRES_USER") as [u|]; cbn [Py.truthy_str negb];
      [destruct (String.eqb u ""); cbn [negb]|]; try discriminate.
    destruct (env "POSTGRES_PASSWORD") as [p|]; cbn [Py.truthy_str negb];
      [destruct (String.eqb p ""); cbn [negb]|]; try discriminate.
    reflexivity.
  - intros H1 H2 H3 H4 H5 H6 H7 H8. cbn [filter].
    rewrite H1, H2, H3, H4, H5, H6, H7, H8. split; reflexivity.
  - intro H. unfold db_connection.get_db_connection, db_connection.parameters_given,
      db_connection.db_host, db_connection.getenv_or.
    rewrite H. reflexivity.
Qed.

(** X20.  [store_meetings_data] gives up on a database that does not
    answer: with one of the twenty attempts working it is the call on
    the connection, after at most nineteen sleeps of ten seconds; with
    none working, or with a parameter missing, it returns [False]
    without sending a statement and leaves the database as it was. *)
Theorem store_needs_a_connection {zone : TimeZone} (env : string -> option string)
    (try_connect : nat -> db_connection.Try)
    (refuses : Sql -> bool) (ms : list MeetingRecord) (clear_existing : bool)
    (db : Db) :
  (db_connection.parameters_given env = false
   \/ (forall j, (j < 20)%nat -> try_connect j <> db_connection.Works) ->
   store_meetings_data_with_connection env try_connect refuses ms clear_existing db
   = Some (mk_StoreResult false db (mk_Counters 0 0 0))) /\
  (db_connection.parameters_given env = true ->
   forall k, (k < 20)%nat -> try_connect k = db_connection.Works ->
     (forall j, (j < k)%nat -> try_connect j <> db_connection.Works) ->
     db_connection.get_db_connection env try_connect 20
     = Some (db_connection.Yielded (Some k) k) /\
     (k * db_connection.default_retry_delay <= 190)%nat /\
     store_meetings_data_with_connection env try_connect refuses ms clear_existing db
     = Some (store_meetings_data refuses ms clear_existing db)).
Proof.
  unfold store_meetings_data_with_connection, db_connection.default_max_retries,
    db_connection.default_retry_delay, db_connection.get_db_connection.
  split.
  - intros [Henv | Hnone].
    + rewrite Henv. reflexivity.
    + destruct (db_connection.parameters_given env); cbn [negb]; [|reflexivity].
      destruct (connect_loop_spec try_connect 20 20 0 0 None
                  ltac:(lia) ltac:(lia)) as (_ & H).
      rewrite H; [reflexivity|].
      intros j Hj. apply Hnone. lia.
  - intros Henv k Hk Hworks Hfirst. rewrite Henv. cbn [negb].
    destruct (connect_loop_spec try_connect 20 20 0 0 None
                ltac:(lia) ltac:(lia)) as (H & _).
    rewrite (H k); [|lia | exact Hworks | intros j Hj; apply Hfirst; lia].
    replace (0 + (k - 0))%nat with k by lia.
    split; [reflexivity|]. split; [lia | reflexivity].
Qed.

(** X5.  The loop of [store_meetings_data] is the record-by-record
    reading of its statements.  On a connection and with no statement
    refused, the call returns [True], the table is what the records
    make of the old table (of the empty table in historical mode), one
    record after the other, each by its UPDATE or by its INSERT, and
    the counters are those of the same reading.  In historical mode a
    DELETE that is refused ends the call there: it returns [False], no
    other statement is sent and the table is as it was. *)
Theorem store_runs_records_in_order {zone : TimeZone}
    (env : string -> option string) (try_connect : nat -> db_connection.Try)
    (refuses : Sql -> bool) (ms : list MeetingRecord) (clear_existing : bool)
    (db : Db) :
  connected env try_connect = true ->
  exists r,
    store_meetings_data_with_connection env try_connect refuses ms clear_existing db
    = Some r /\
    ((forall s, refuses s = false) ->
     returned r = true /\
     (meetings (db_after r), counters r)
     = accepted_run clear_existing ms
         (if clear_existing then [] else meetings db, zero_counters) /\
     meetings (db_after r)
     = fold_left (store_step clear_existing) ms
         (if clear_existing then [] else meetings db)) /\
    (clear_existing = true -> refuses DeleteMeetings = true ->
     r = mk_StoreResult false
           (mk_Db (meetings db) (statements db ++ [DeleteMeetings]))
           zero_counters).
Proof.
  intro Hc. rewrite store_with_connection_eq, Hc.
  eexists. split; [reflexivity|]. split.
  - intro Hacc.
    assert (Hrun : returned (store_meetings_data refuses ms clear_existing db) = true /\
              (meetings (db_after (store_meetings_data refuses ms clear_existing db)),
               counters (store_meetings_data refuses ms clear_existing db))
              = accepted_run clear_existing ms
                  (if clear_existing then [] else meetings db, zero_counters)).
    { destruct clear_existing.
      - rewrite store_historical_eq by apply Hacc.
        cbn [returned db_after counters commit meetings].
        destruct (process_meetings_accepted refuses Hacc true ms (cleared_cursor db)
                    zero_counters eq_refl) as (F & Hrun).
        rewrite F. split; [reflexivity | exact Hrun].
      - rewrite store_incremental_eq.
        cbn [returned db_after counters commit meetings].
        destruct (process_meetings_accepted refuses Hacc false ms (open_cursor db)
                    zero_counters eq_refl) as (F & Hrun).
        rewrite F. split; [reflexivity | exact Hrun]. }
    destruct Hrun as (Hret & Hrun).
    split; [exact Hret|]. split; [exact Hrun|].
    apply (f_equal fst) in Hrun. cbn [fst] in Hrun.
    rewrite Hrun. apply accepted_run_rows.
  - intros -> Hd. apply store_historical_refused. exact Hd.
Qed.

Lemma store_runs_records_in_order_witness :
  connected more_samples.postgres_env more_samples.third_time_lucky = true /\
  exists r,
    store_meetings_data_with_connection more_samples.postgres_env
      more_samples.third_time_lucky samples.accepts_all
      [samples.sync; samples.standup; samples.sync_rescheduled] false samples.old_db
    = Some r /\
    ((forall s, samples.accepts_all s = false) ->
     returned r = true /\
     (meetings (db_after r), counters r)
     = accepted_run false [samples.sync; samples.standup; samples.sync_rescheduled]
         (meetings samples.old_db, zero_counters) /\
     meetings (db_after r)
     = fold_left (store_step false)
         [samples.sync; samples.standup; samples.sync_rescheduled]
         (meetings samples.old_db)) /\
    (false = true -> samples.accepts_all DeleteMeetings = true ->
     r = mk_StoreResult false
           (mk_Db (meetings samples.old_db)
                  (statements samples.old_db ++ [DeleteMeetings]))
           zero_counters).
Proof.
  assert (H : connected more_samples.postgres_env more_samples.third_time_lucky = true)
    by (vm_compute; reflexivity).
  split; [exact H|].
  exact (store_runs_records_in_order more_samples.postgres_env
           more_samples.third_time_lucky samples.accepts_all
           [samples.sync; samples.standup; samples.sync_rescheduled]
           false samples.old_db H).
Defined.

(* ================================================================= *)
(** ** Further properties: the batch loop and the two fetches *)

Section LoopTrace.

Variable service : Service.

Lemma batch_loop_trace (end_date : Z) : forall fuel st st',
  batch_loop service fuel end_date st = Some st' ->
  exists new,
    attempts st' = attempts st ++ new /\
    all_meetings st' = all_meetings st ++ flat_map (batch_of service) new /\
    map attempt_batch new = seq (S (current_batch st)) (List.length new) /\
    current_batch st' = (current_batch st + List.length new)%nat /\
    Forall (fun a => fetched_ok a
                     = is_some (service_fetch service (attempt_batch a)
                                  (window_start a) (window_end a))) new.
Proof.
  induction fuel as [|fuel IH]; intros st st' Hrun;
    destruct (Z_lt_ge_dec (current_start st) end_date) as [Hlt | Hge].
  - rewrite batch_loop_out_of_fuel in Hrun by exact Hlt. discriminate.
  - rewrite batch_loop_done in Hrun by lia. injection Hrun as <-.
    exists []. cbn [flat_map map List.length seq].
    rewrite !app_nil_r, Nat.add_0_r. auto.
  - rewrite batch_loop_turn in Hrun by exact Hlt.
    destruct (service_fetch service (S (current_batch st)) (current_start st)
                (Z.min (current_start st + timedelta_days 31) end_date))
      as [batch|] eqn:Hf;
      destruct (IH _ _ Hrun) as (new & Hatt & Hall & Hnum & Hcur & Hok);
      [ exists (mk_Attempt (S (current_batch st)) (current_start st)
                 (Z.min (current_start st + timedelta_days 31) end_date) true :: new)
      | exists (mk_Attempt (S (current_batch st)) (current_start st)
                 (Z.min (current_start st + timedelta_days 31) end_date) false :: new) ];
      cbn [turn_ok turn_failed attempts all_meetings current_batch] in *;
      cbn [flat_map map List.length seq];
      unfold batch_of at 1;
      cbn [attempt_batch window_start window_end];
      rewrite Hf; cbn [Py.get_default];
      (split; [rewrite Hatt, <- app_assoc; reflexivity|]);
      (split; [rewrite Hall, <- ?app_assoc; reflexivity|]);
      (split; [rewrite Hnum; reflexivity|]);
      (split; [rewrite Hcur; lia|]);
      (constructor; [cbn [fetched_ok attempt_batch window_start window_end];
                     rewrite Hf; reflexivity | exact Hok]).
  - rewrite batch_loop_done in Hrun by lia. injection Hrun as <-.
    exists []. cbn [flat_map map List.length seq].
    rewrite !app_nil_r, Nat.add_0_r. auto.
Qed.

End LoopTrace.

(** X11.  When the batch loop ends, [all_meetings] is the concatenation,
    in the order of the calls, of what [fetch_calendar_data] returned
    for each window that was fetched: no batch is lost, repeated or
    reordered by the loop.  The calls are numbered 1, 2, 3, ... and
    [current_batch] is their number. *)
Theorem all_meetings_is_concatenation (service : Service) (fuel : nat)
    (start_date end_date : Z) (st : LoopState) :
  batch_loop service fuel end_date (loop_start start_date) = Some st ->
  all_meetings st = flat_map (batch_of service) (attempts st) /\
  map attempt_batch (attempts st) = seq 1 (List.length (attempts st)) /\
  current_batch st = List.length (attempts st) /\
  Forall (fun a => fetched_ok a
                   = is_some (service_fetch service (attempt_batch a)
                                (window_start a) (window_end a))) (attempts st).
Proof.
  intro Hrun.
  destruct (batch_loop_trace service end_date _ _ _ Hrun)
    as (new & Hatt & Hall & Hnum & Hcur & Hok).
  cbn [loop_start attempts all_meetings current_batch app Nat.add] in *.
  subst new. auto.
Qed.

Lemma all_meetings_is_concatenation_witness :
  batch_loop samples.third_call_fails 5 (samples.day 100) (loop_start 0)
  = Some (mk_LoopState (samples.day 100) 5 []
            [mk_Attempt 1 0 (samples.day 31) true;
             mk_Attempt 2 (samples.day 31) (samples.day 62) true;
             mk_Attempt 3 (samples.day 62) (samples.day 93) false;
             mk_Attempt 4 (samples.day 62) (samples.day 93) true;
             mk_Attempt 5 (samples.day 93) (samples.day 100) true]) /\
  let st := mk_LoopState (samples.day 100) 5 []
            [mk_Attempt 1 0 (samples.day 31) true;
             mk_Attempt 2 (samples.day 31) (samples.day 62) true;
             mk_Attempt 3 (samples.day 62) (samples.day 93) false;
             mk_Attempt 4 (samples.day 62) (samples.day 93) true;
             mk_Attempt 5 (samples.day 93) (samples.day 100) true] in
  all_meetings st = flat_map (batch_of samples.third_call_fails) (attempts st) /\
  map attempt_batch (attempts st) = seq 1 (List.length (attempts st)) /\
  current_batch st = List.length (attempts st) /\
  Forall (fun a => fetched_ok a
                   = is_some (service_fetch samples.third_call_fails (attempt_batch a)
                                (window_start a) (window_end a))) (attempts st).
Proof.
  assert (H : batch_loop samples.third_call_fails 5 (samples.day 100) (loop_start 0)
              = Some (mk_LoopState (samples.day 100) 5 []
                  [mk_Attempt 1 0 (samples.day 31) true;
                   mk_Attempt 2 (samples.day 31) (samples.day 62) true;
                   mk_Attempt 3 (samples.day 62) (samples.day 93) false;
                   mk_Attempt 4 (samples.day 62) (samples.day 93) true;
                   mk_Attempt 5 (samples.day 93) (samples.day 100) true]))
    by (vm_compute; reflexivity).
  split; [exact H|].
  exact (all_meetings_is_concatenation samples.third_call_fails 5 0
           (samples.day 100) _ H).
Defined.

Section WindowCount.

Lemma contiguous_count (b : Z) (ws : list (Z * Z)) : forall a,
  contiguous a b ws ->
  Forall (fun w => snd w = Z.min (fst w + timedelta_days 31) b) ws ->
  a < b ->
  (Z.of_nat (List.length ws) - 1) * timedelta_days 31 < b - a
  <= Z.of_nat (List.length ws) * timedelta_days 31.
Proof.
  pose proof window_days_pos as HW.
  induction ws as [|w ws IH]; intros a Hc Hall Hlt; cbn [contiguous] in Hc.
  - lia.
  - destruct Hc as (Ha & Hw & Hrest).
    inversion Hall as [|w0 l0 Hend Hall']; subst.
    cbn [List.length]. rewrite Nat2Z.inj_succ.
    destruct ws as [|w' ws'].
    + cbn [contiguous] in Hrest. cbn [List.length]. lia.
    + assert (Hlt' : snd w < b).
      { cbn [contiguous] in Hrest. destruct Hrest as (H1 & H2 & H3).
        apply contiguous_le in H3. lia. }
      specialize (IH (snd w) Hrest Hall' Hlt'). lia.
Qed.

End WindowCount.

(** X12.  The progress line never counts past its total when no fetch
    raises.  For [years_back >= 1] and a start date that a [datetime]
    can hold, the loop ends after [n] batches, where [n] is the number
    of 31-day windows needed for [years_back * 365] days, and [n] is at
    most [total_batches = years_back * 12].  When the start date would
    lie before the year 1, the subtraction raises and the call returns
    [False] before the first batch. *)
Theorem batches_within_total {zone : TimeZone} (credentials_ok : bool)
    (events_of : nat -> Z -> Z -> list MeetingRecord) (now years_back : Z) :
  1 <= years_back ->
  (forall start_date,
     minus_days now (years_back * 365) = Some start_date ->
     start_date = now - timedelta_days (years_back * 365) /\
     exists st,
       batch_loop (mk_Service credentials_ok (fun n a b => Some (events_of n a b)))
         (turns_needed start_date now) now (loop_start start_date) = Some st /\
       (Z.of_nat (current_batch st) - 1) * 31 < years_back * 365
         <= Z.of_nat (current_batch st) * 31 /\
       Z.of_nat (current_batch st) <= total_batches years_back) /\
  (minus_days now (years_back * 365) = None ->
   forall env try_connect refuses fuel db,
     fetch_historical_data
       (mk_Service credentials_ok (fun n a b => Some (events_of n a b)))
       env try_connect refuses now fuel years_back db
     = Some (false, db)).
Proof.
  intro Hy. split.
  - intros start_date Hs. apply minus_days_eq in Hs. split; [exact Hs|].
    set (service := mk_Service credentials_ok (fun n a b => Some (events_of n a b))).
    assert (Hlt : start_date < now).
    { rewrite Hs. unfold timedelta_days, us_per_day, us_per_second. lia. }
    destruct (batch_loop_terminates service now) with
      (fuel := turns_needed start_date now) (st := loop_start start_date)
      as (st & new & Hrun & Hatt & Hcont & Hall).
    + intros n a b. discriminate.
    + cbn [loop_start current_start]. lia.
    + cbn [loop_start current_start]. apply turns_needed_enough.
    + exists st. split; [exact Hrun|].
      destruct (batch_loop_trace service now _ _ _ Hrun)
        as (new' & Hatt' & _ & _ & Hcur & _).
      cbn [loop_start attempts current_batch app Nat.add] in *.
      subst new'. subst new.
      assert (Hwin : Forall (fun w => snd w = Z.min (fst w + timedelta_days 31) now)
                       (map window_of (attempts st))).
      { apply Forall_map. eapply Forall_impl; [|exact Hall].
        intros a (H & _). exact H. }
      pose proof (contiguous_count now _ _ Hcont Hwin Hlt) as Hcount.
      rewrite length_map, <- Hcur in Hcount.
      unfold total_batches.
      cbn [loop_start current_start] in Hcount.
      rewrite Hs in Hcount.
      unfold timedelta_days, us_per_day, us_per_second in Hcount.
      split; lia.
  - intros Hs env try_connect refuses fuel db.
    unfold fetch_historical_data. rewrite Hs.
    destruct (negb _); reflexivity.
Qed.

Lemma batches_within_total_witness :
  1 <= 3 /\
  minus_days (samples.day 20000) (3 * 365)
  = Some (samples.day 20000 - timedelta_days (3 * 365)) /\
  (forall start_date,
     minus_days (samples.day 20000) (3 * 365) = Some start_date ->
     start_date = samples.day 20000 - timedelta_days (3 * 365) /\
     exists st,
       batch_loop (mk_Service true (fun n a b => Some []))
         (turns_needed start_date (samples.day 20000)) (samples.day 20000)
         (loop_start start_date) = Some st /\
       (Z.of_nat (current_batch st) - 1) * 31 < 3 * 365
         <= Z.of_nat (current_batch st) * 31 /\
       Z.of_nat (current_batch st) <= total_batches 3) /\
  (minus_days (samples.day 20000) (3 * 365) = None ->
   forall env try_connect refuses fuel db,
     fetch_historical_data (mk_Service true (fun n a b => Some []))
       env try_connect refuses (samples.day 20000) fuel 3 db
     = Some (false, db)).
Proof.
  assert (H : 1 <= 3) by lia.
  split; [exact H|]. split; [vm_compute; reflexivity|].
  exact (batches_within_total true (fun _ _ _ => []) (samples.day 20000) 3 H).
Defined.

(** X13.  [fetch_historical_data] with [years_back <= 0] fetches nothing
    and stores nothing: the range is empty, the loop does not run, and
    the call returns [False] with the database as it was, whatever the
    service would have answered. *)
Theorem historical_without_years {zone : TimeZone} (service : Service)
    (env : string -> option string) (try_connect : nat -> db_connection.Try)
    (refuses : Sql -> bool)
    (now years_back : Z) (fuel : nat) (db : Db) :
  years_back <= 0 ->
  fetch_historical_data service env try_connect refuses now fuel years_back db
  = Some (false, db).
Proof.
  intro Hy. unfold fetch_historical_data.
  destruct (authenticate service); cbn [negb]; [|reflexivity].
  destruct (minus_days now (years_back * 365)) as [start_date|] eqn:Hs;
    [|reflexivity].
  apply minus_days_eq in Hs.
  rewrite batch_loop_done.
  - reflexivity.
  - cbn [loop_start current_start]. rewrite Hs.
    unfold timedelta_days, us_per_day, us_per_second. lia.
Qed.

Lemma historical_without_years_witness :
  0 <= 0 /\
  fetch_historical_data more_samples.busy_service more_samples.postgres_env
    more_samples.third_time_lucky samples.accepts_all (samples.day 20000)
    0 0 samples.old_db = Some (false, samples.old_db).
Proof.
  assert (H : 0 <= 0) by lia.
  split; [exact H|].
  exact (historical_without_years more_samples.busy_service
           more_samples.postgres_env more_samples.third_time_lucky
           samples.accepts_all (samples.day 20000) 0 0 samples.old_db H).
Defined.

(** A run all of whose fetches return, and return nothing, ends with
    [False] and the database as it was. *)
Lemma historical_nothing_found {zone : TimeZone} (service : Service)
    (env : string -> option string) (try_connect : nat -> db_connection.Try)
    (refuses : Sql -> bool)
    (now years_back : Z) (db : Db) :
  (forall n a b, service_fetch service n a b = Some []) ->
  fetch_historical_data service env try_connect refuses now
    (turns_needed (now - timedelta_days (years_back * 365)) now) years_back db
  = Some (false, db).
Proof.
  intro Hquiet. unfold fetch_historical_data.
  destruct (authenticate service); cbn [negb]; [|reflexivity].
  destruct (minus_days now (years_back * 365)) as [start_date|] eqn:Hs;
    [|reflexivity].
  apply minus_days_eq in Hs. rewrite <- Hs.
  destruct (Z_lt_ge_dec now start_date) as [Hpast | Hfut].
  - rewrite batch_loop_done by (cbn [loop_start current_start]; lia). reflexivity.
  - destruct (batch_loop_terminates service now) with
      (fuel := turns_needed start_date now) (st := loop_start start_date)
      as (st & new & Hrun & _).
    + intros n a b. rewrite Hquiet. discriminate.
    + cbn [loop_start current_start]. lia.
    + cbn [loop_start current_start]. apply turns_needed_enough.
    + rewrite Hrun.
      rewrite (batch_loop_collects_nothing service now) with
        (fuel := turns_needed start_date now) (st := loop_start start_date) (st' := st).
      * reflexivity.
      * intros n a b recs H. rewrite Hquiet in H. congruence.
      * exact Hrun.
      * reflexivity.
Qed.

(** X14.  An outage of the Calendar API is not reported as an error by
    the incremental fetch.  [get_events] turns every exception of the
    API call into an empty list, so with the API failing on every call
    [fetch_incremental_data] returns [True] (nothing new) whenever its
    start date is one that a [datetime] can hold, and
    [fetch_historical_data] ends, within [turns_needed] turns, with
    [False] (nothing retrieved); neither asks for a connection nor
    sends a statement to the database, which is left as it was. *)
Theorem api_outage_looks_like_no_events {zone : TimeZone}
    (fromisoformat : string -> option datetime)
    (api_list : Z -> Z -> Z -> option (list RawEvent))
    (env : string -> option string) (try_connect : nat -> db_connection.Try)
    (refuses : Sql -> bool) (now back : Z) (db : Db) :
  (forall a b n, api_list a b n = None) ->
  fetch_incremental_data (GoogleCalendarService true fromisoformat api_list)
    env try_connect refuses now back db
  = Some (is_some (minus_days now back), db) /\
  fetch_historical_data (GoogleCalendarService true fromisoformat api_list)
    env try_connect refuses now
    (turns_needed (now - timedelta_days (back * 365)) now) back db
  = Some (false, db).
Proof.
  intro Hdown.
  assert (Hquiet : forall n a b,
            service_fetch (GoogleCalendarService true fromisoformat api_list) n a b
            = Some []).
  { intros n a b. cbn [GoogleCalendarService service_fetch].
    unfold fetch_calendar_data, get_events. rewrite Hdown. reflexivity. }
  split.
  - unfold fetch_incremental_data.
    cbn [GoogleCalendarService authenticate negb].
    destruct (minus_days now back) as [start_date|]; [|reflexivity].
    rewrite Hquiet. reflexivity.
  - apply historical_nothing_found. exact Hquiet.
Qed.

Lemma api_outage_looks_like_no_events_witness :
  (forall a b n, more_samples.api_down a b n = None) /\
  minus_days (samples.day 20000) 1 <> None /\
  fetch_incremental_data
    (GoogleCalendarService true samples.fromisoformat more_samples.api_down)
    more_samples.postgres_env more_samples.never_up
    samples.accepts_all (samples.day 20000) 1 samples.old_db
  = Some (is_some (minus_days (samples.day 20000) 1), samples.old_db) /\
  fetch_historical_data
    (GoogleCalendarService true samples.fromisoformat more_samples.api_down)
    more_samples.postgres_env more_samples.never_up
    samples.accepts_all (samples.day 20000)
    (turns_needed (samples.day 20000 - timedelta_days (1 * 365)) (samples.day 20000))
    1 samples.old_db
  = Some (false, samples.old_db).
Proof.
  assert (H : forall a b n, more_samples.api_down a b n = None) by reflexivity.
  split; [exact H|]. split; [discriminate|].
  exact (api_outage_looks_like_no_events samples.fromisoformat more_samples.api_down
           more_samples.postgres_env more_samples.never_up
           samples.accepts_all (samples.day 20000) 1 samples.old_db H).
Defined.

(** X15.  What [fetch_incremental_data] returns says little about the
    table.  It returns [True] exactly when the service is authenticated,
    the start date is one that a [datetime] can hold, the fetch returns
    and, when it returned records, [get_db_connection] gave a
    connection: statements that the engine refused do not make it
    [False].  The database is as it was when one of these fails or the
    fetch found nothing, and otherwise it is the one
    [store_meetings_data] leaves in incremental mode. *)
Theorem incremental_fetch_result {zone : TimeZone} (service : Service)
    (env : string -> option string) (try_connect : nat -> db_connection.Try)
    (refuses : Sql -> bool)
    (now days_back : Z) (db : Db) :
  exists result db',
    fetch_incremental_data service env try_connect refuses now days_back db
    = Some (result, db') /\
    (result = true <->
     authenticate service = true /\
     exists start_date meetings_data,
       minus_days now days_back = Some start_date /\
       service_fetch service 1 start_date now = Some meetings_data /\
       (meetings_data = [] \/ connected env try_connect = true)) /\
    (forall start_date meetings_data,
       authenticate service = true ->
       minus_days now days_back = Some start_date ->
       service_fetch service 1 start_date now = Some meetings_data ->
       meetings_data <> [] -> connected env try_connect = true ->
       db' = db_after (store_meetings_data refuses meetings_data false db)) /\
    (authenticate service = false
     \/ minus_days now days_back = None
     \/ (exists start_date,
           minus_days now days_back = Some start_date /\
           Py.get_default (service_fetch service 1 start_date now) [] = [])
     \/ connected env try_connect = false ->
     db' = db).
Proof.
  unfold fetch_incremental_data.
  destruct (authenticate service); cbn [negb].
  2:{ exists false, db. split; [reflexivity|]. split; [|split].
      - split; [discriminate | intros (H & _); discriminate].
      - intros sd md H. discriminate.
      - reflexivity. }
  destruct (minus_days now days_back) as [start_date|].
  2:{ exists false, db. split; [reflexivity|]. split; [|split].
      - split; [discriminate | intros (_ & sd & md & H & _); discriminate].
      - intros sd md _ H. discriminate.
      - reflexivity. }
  destruct (service_fetch service 1 start_date now) as [[|m ms]|] eqn:Hf.
  - exists true, db. split; [reflexivity|]. split; [|split].
    + split; [|reflexivity]. intros _. split; [reflexivity|].
      exists start_date, []. auto.
    + intros sd md _ H1 H2 Hne. injection H1 as <-. congruence.
    + reflexivity.
  - rewrite store_with_connection_eq. cbn [option_map].
    destruct (connected env try_connect) eqn:Hc.
    + rewrite store_incremental_eq. cbn [returned db_after].
      eexists true, _. split; [reflexivity|]. split; [|split].
      * split; [|reflexivity]. intros _. split; [reflexivity|].
        exists start_date, (m :: ms). auto.
      * intros sd md _ H1 H2 _ _. injection H1 as <-.
        rewrite Hf in H2. injection H2 as <-.
        rewrite store_incremental_eq. reflexivity.
      * intros [H | [H | [(sd & H1 & H2) | H]]]; try discriminate.
        injection H1 as <-. rewrite Hf in H2. discriminate.
    + cbn [returned db_after].
      exists false, db. split; [reflexivity|]. split; [|split].
      * split; [discriminate|].
        intros (_ & sd & md & H1 & H2 & [H3 | H3]); [|discriminate].
        injection H1 as <-. rewrite Hf in H2. congruence.
      * intros sd md _ _ _ _ H. discriminate.
      * reflexivity.
  - exists false, db. split; [reflexivity|]. split; [|split].
    + split; [discriminate|].
      intros (_ & sd & md & H1 & H2 & _). injection H1 as <-.
      rewrite Hf in H2. discriminate.
    + intros sd md _ H1 H2. injection H1 as <-. rewrite Hf in H2. discriminate.
    + reflexivity.
Qed.

(* ================================================================= *)
(** ** Further properties: the bounds of a request and authentication *)

Section RequestAndAuth.

Import oauth2_service.

Lemma ends_with_Z_appended (t : string) : ends_with_Z (t ++ "Z") = true.
Proof.
  induction t as [|c t IH]; [reflexivity|].
  destruct t as [|c' t']; [reflexivity|].
  exact IH.
Qed.

Lemma add_utc_suffix_cases (t : string) :
  (ends_with_Z t = false /\ contains_char "+"%char t = false /\
   count_char ":"%char t = 2%nat /\ add_utc_suffix t = (t ++ "Z")%string)
  \/ ((ends_with_Z t = true \/ contains_char "+"%char t = true
       \/ count_char ":"%char t <> 2%nat) /\ add_utc_suffix t = t).
Proof.
  unfold add_utc_suffix.
  destruct (ends_with_Z t); cbn [negb andb]; [right; auto|].
  destruct (contains_char "+"%char t); cbn [negb andb]; [right; auto|].
  destruct (Nat.eqb (count_char ":"%char t) 2) eqn:Hc.
  - apply Nat.eqb_eq in Hc. left. auto.
  - apply Nat.eqb_neq in Hc. right. auto.
Qed.

(** X16.  The ['Z'] that [get_events] appends to [time_min] and
    [time_max] is appended at most once: doing it again changes
    nothing.  The string is left as it is when it holds a ['+'] (an
    offset such as [+00:00]) or when its number of [':'] is not two (a
    date alone, a time without seconds, a time with a negative offset
    [-05:00]); otherwise it is the string followed by ['Z']. *)
Theorem utc_suffix_added_once (t : string) :
  add_utc_suffix (add_utc_suffix t) = add_utc_suffix t /\
  (add_utc_suffix t = t \/ add_utc_suffix t = (t ++ "Z")%string) /\
  (contains_char "+"%char t = true -> add_utc_suffix t = t) /\
  (count_char ":"%char t <> 2%nat -> add_utc_suffix t = t) /\
  (ends_with_Z t = false -> contains_char "+"%char t = false ->
   count_char ":"%char t = 2%nat -> add_utc_suffix t = (t ++ "Z")%string).
Proof.
  destruct (add_utc_suffix_cases t) as [(Hz & Hp & Hc & Heq) | (Hwhy & Heq)];
    rewrite Heq.
  - split; [|split; [|split; [|split]]].
    + unfold add_utc_suffix. rewrite ends_with_Z_appended. reflexivity.
    + right; reflexivity.
    + intro H. congruence.
    + intro H. contradiction.
    + reflexivity.
  - split; [|split; [|split; [|split]]].
    + exact Heq.
    + left; reflexivity.
    + reflexivity.
    + reflexivity.
    + intros Hz Hp Hc. destruct Hwhy as [H | [H | H]]; congruence.
Qed.

(** X17.  [authenticate] sets [_authenticated] and builds the service
    only when it returns [True], and never unsets them: a service that
    was authenticated stays so when a later call fails.  It returns
    [True] also for credentials of the token file that are not valid
    and that it does not refresh (not expired, or without refresh
    token), as soon as [build] returns; it returns [False], leaving the
    object as it was, when the token file cannot be read, and [False]
    for a new object without token file. *)
Theorem authenticate_outcomes (w : Outside) (self : ServiceState) :
  authenticated (fst (authenticate w self))
  = authenticated self || snd (authenticate w self) /\
  service_built (fst (authenticate w self))
  = service_built self || snd (authenticate w self) /\
  (forall c,
     token_file w = Token c -> valid c = false ->
     expired c && Py.truthy_str (refresh_token c) = false ->
     build_returns w = true ->
     authenticate w self = (mk_ServiceState (Some c) true true, true)) /\
  (token_file w = UnreadableToken -> authenticate w self = (self, false)) /\
  (token_file w = NoTokenFile -> credentials self = None ->
   snd (authenticate w self) = false).
Proof.
  assert (Hbuild : forall creds,
            authenticated (fst (build_service w self creds))
            = authenticated self || snd (build_service w self creds) /\
            service_built (fst (build_service w self creds))
            = service_built self || snd (build_service w self creds)).
  { intro creds. unfold build_service.
    destruct (build_returns w); cbn [fst snd authenticated service_built];
      rewrite ?orb_true_r, ?orb_false_r; auto. }
  split; [|split; [|split; [|split]]].
  - unfold authenticate.
    destruct (token_file w) as [| |c]; cbn [fst snd]; rewrite ?orb_false_r; auto;
      [destruct (credentials self) as [c|]|];
      cbn [fst snd authenticated]; rewrite ?orb_false_r; auto;
      destruct (valid c); try apply Hbuild;
      destruct (expired c && Py.truthy_str (refresh_token c)); try apply Hbuild;
      destruct (refresh w c); try apply Hbuild;
      cbn [fst snd authenticated]; rewrite ?orb_false_r; reflexivity.
  - unfold authenticate.
    destruct (token_file w) as [| |c]; cbn [fst snd]; rewrite ?orb_false_r; auto;
      [destruct (credentials self) as [c|]|];
      cbn [fst snd service_built]; rewrite ?orb_false_r; auto;
      destruct (valid c); try apply Hbuild;
      destruct (expired c && Py.truthy_str (refresh_token c)); try apply Hbuild;
      destruct (refresh w c); try apply Hbuild;
      cbn [fst snd service_built]; rewrite ?orb_false_r; reflexivity.
  - intros c Ht Hv Hr Hb. unfold authenticate, build_service.
    rewrite Ht, Hv, Hr, Hb. reflexivity.
  - intro Ht. unfold authenticate. rewrite Ht. reflexivity.
  - intros Ht Hc. unfold authenticate. rewrite Ht, Hc. reflexivity.
Qed.

End RequestAndAuth.

Lemma authenticate_outcomes_witness :
  oauth2_service.token_file more_samples.outside_with_stale
  = oauth2_service.Token more_samples.stale /\
  oauth2_service.authenticate more_samples.outside_with_stale oauth2_service.new_service
  = (oauth2_service.mk_ServiceState (Some more_samples.stale) true true, true).
Proof.
  split; [reflexivity|].
  apply (proj1 (proj2 (proj2 (authenticate_outcomes more_samples.outside_with_stale
                                oauth2_service.new_service))));
    reflexivity.
Defined.

(* ================================================================= *)
(** ** Further properties: which events are kept, and finding them again *)

(** X21.  [fetch_calendar_data] keeps an event exactly when its start
    and its end each have a timestamp ([dateTime], or [date] when there
    is no [dateTime]) that is not empty and that
    [datetime.fromisoformat] reads once every ['Z'] is replaced by
    ['+00:00'], and the two values are both naive or both aware.  An
    event whose start is a date and whose end is a time with an offset
    is dropped like one that cannot be read. *)
Theorem kept_events (f : string -> option datetime) (ev : ProcessedEvent) :
  normalise_event f ev <> None <->
  exists s e start_dt end_dt,
    time_of (ev_start ev) = Some s /\ s <> "" /\
    time_of (ev_end ev) = Some e /\ e <> "" /\
    f (Py.replace_Z s) = Some start_dt /\
    f (Py.replace_Z e) = Some end_dt /\
    tz_aware end_dt = tz_aware start_dt.
Proof.
  split.
  - destruct (normalise_event f ev) as [m|] eqn:E; [intros _ | congruence].
    destruct (normalise_event_inv _ _ _ E)
      as (s & e & sd & ed & delta & H1 & H2 & H3 & H4 & H5 & H6 & H7 & _).
    exists s, e, sd, ed. repeat split; auto.
    unfold datetime_sub in H7.
    destruct (Bool.eqb (tz_aware ed) (tz_aware sd)) eqn:Hb; [|discriminate].
    apply Bool.eqb_prop. exact Hb.
  - intros (s & e & sd & ed & H1 & H2 & H3 & H4 & H5 & H6 & H7).
    unfold normalise_event, parse_times, datetime_sub.
    rewrite H1, H3. cbn [Py.truthy_str Py.get_default].
    apply String.eqb_neq in H2, H4. rewrite H2, H4. cbn [negb orb].
    rewrite H5, H6, H7, Bool.eqb_reflx. discriminate.
Qed.

Section Lookup.

Context {zone : TimeZone}.

Lemma store_step_historical_keeps_id (eid : option string) (t : list Row)
    (m : MeetingRecord) :
  has_event_id eid t = true -> has_event_id eid (store_step true t m) = true.
Proof.
  intro H. rewrite store_step_historical.
  destruct (has_event_id (event_id m) t); [exact H|].
  rewrite has_event_id_app, H. reflexivity.
Qed.

Lemma store_step_historical_adds_id (t : list Row) (m : MeetingRecord) :
  event_id m <> None -> has_event_id (event_id m) (store_step true t m) = true.
Proof.
  intro H. rewrite store_step_historical.
  destruct (has_event_id (event_id m) t) eqn:E; [exact E|].
  rewrite has_event_id_app. cbn [has_event_id existsb].
  rewrite (event_id_matches_self m H). apply orb_true_r.
Qed.

Lemma fold_store_step_finds (clear_existing : bool) (ms : list MeetingRecord) :
  forall t m, In m ms -> event_id m <> None ->
              has_event_id (event_id m)
                (fold_left (store_step clear_existing) ms t) = true.
Proof.
  assert (Hkeep : forall eid l t, has_event_id eid t = true ->
            has_event_id eid (fold_left (store_step clear_existing) l t) = true).
  { intros eid l. induction l as [|x l IH]; intros t H; cbn [fold_left]; [exact H|].
    apply IH. destruct clear_existing;
      [apply store_step_historical_keeps_id | apply store_step_keeps_id]; exact H. }
  induction ms as [|x ms IH]; intros t m Hin Hid; [destruct Hin|].
  cbn [fold_left]. destruct Hin as [-> | Hin]; [|apply IH; assumption].
  apply Hkeep. destruct clear_existing;
    [apply store_step_historical_adds_id | apply store_step_adds_id]; exact Hid.
Qed.

Lemma unique_single_hit (eid : option string) (t : list Row) :
  unique_event_ids t -> has_event_id eid t = true ->
  List.length (filter (event_id_matches eid) t) = 1%nat.
Proof.
  induction t as [|r t IH]; cbn [unique_event_ids has_event_id existsb filter];
    [discriminate|].
  intros (Hr & Ht) Hhas.
  destruct (event_id_matches eid r) eqn:Hm.
  - cbn [List.length]. f_equal.
    replace (filter (event_id_matches eid) t) with (@nil Row); [reflexivity|].
    symmetry. apply filter_nil_existsb.
    apply not_true_is_false. intro Hex.
    apply existsb_exists in Hex. destruct Hex as (x & Hx & Hmx).
    assert (Hrx : event_id_matches (col_event_id r) x = true).
    { unfold event_id_matches in *.
      destruct eid as [a|], (col_event_id r) as [b|], (col_event_id x) as [c|];
        try discriminate.
      apply String.eqb_eq in Hm, Hmx. subst. apply String.eqb_refl. }
    assert (existsb (event_id_matches (col_event_id r)) t = true)
      by (apply existsb_exists; eauto).
    congruence.
  - apply IH; [exact Ht | exact Hhas].
Qed.

End Lookup.

(** X22.  What was stored is found again.  After a call in which no
    statement was refused, in either mode, the SELECT by [event_id] of
    any record of the batch that has one finds a row; and it finds
    exactly one when no two rows of the table shared an [event_id]
    before the call. *)
Theorem stored_record_is_found {zone : TimeZone}
    (refuses : Sql -> bool) (ms : list MeetingRecord)
    (clear_existing : bool) (db : Db) (m : MeetingRecord) :
  (forall s, refuses s = false) ->
  In m ms -> event_id m <> None ->
  fetched (snd (apply_sql (SelectIdByEventId (event_id m))
                  (meetings (db_after
                     (store_meetings_data refuses ms clear_existing db))))) <> [] /\
  (unique_event_ids (meetings db) ->
   rowcount (snd (apply_sql (SelectIdByEventId (event_id m))
                    (meetings (db_after
                       (store_meetings_data refuses ms clear_existing db))))) = 1%nat).
Proof.
  intros Hacc Hin Hid.
  assert (Hhas : has_event_id (event_id m)
                   (meetings (db_after
                      (store_meetings_data refuses ms clear_existing db))) = true).
  { destruct clear_existing.
    - rewrite store_historical_eq by apply Hacc. cbn [db_after commit meetings].
      destruct (process_meetings_accepted refuses Hacc true ms (cleared_cursor db)
                  zero_counters eq_refl) as (F & Hrun).
      rewrite F. apply (f_equal fst) in Hrun. cbn [fst] in Hrun.
      rewrite Hrun, accepted_run_rows. apply fold_store_step_finds; assumption.
    - rewrite store_incremental_eq. cbn [db_after commit meetings].
      destruct (process_meetings_accepted refuses Hacc false ms (open_cursor db)
                  zero_counters eq_refl) as (F & Hrun).
      rewrite F. apply (f_equal fst) in Hrun. cbn [fst] in Hrun.
      rewrite Hrun, accepted_run_rows. apply fold_store_step_finds; assumption. }
  split.
  - intro Hnil. apply select_fetched in Hnil. congruence.
  - intro Hu. cbn [apply_sql snd rowcount].
    apply unique_single_hit; [|exact Hhas].
    apply store_keeps_unique. exact Hu.
Qed.

Lemma stored_record_is_found_witness :
  (forall s, samples.accepts_all s = false) /\
  In samples.standup [samples.sync; samples.standup; samples.sync_rescheduled] /\
  event_id samples.standup <> None /\
  fetched (snd (apply_sql (SelectIdByEventId (event_id samples.standup))
                  (meetings (db_after
                     (store_meetings_data samples.accepts_all
                        [samples.sync; samples.standup; samples.sync_rescheduled]
                        false samples.old_db))))) <> [] /\
  (unique_event_ids (meetings samples.old_db) ->
   rowcount (snd (apply_sql (SelectIdByEventId (event_id samples.standup))
                    (meetings (db_after
                       (store_meetings_data samples.accepts_all
                          [samples.sync; samples.standup; samples.sync_rescheduled]
                          false samples.old_db))))) = 1%nat).
Proof.
  assert (H1 : forall s, samples.accepts_all s = false) by reflexivity.
  assert (H2 : In samples.standup
                 [samples.sync; samples.standup; samples.sync_rescheduled])
    by (right; left; reflexivity).
  assert (H3 : event_id samples.standup <> None) by discriminate.
  split; [exact H1|]. split; [exact H2|]. split; [exact H3|].
  exact (stored_record_is_found samples.accepts_all
           [samples.sync; samples.standup; samples.sync_rescheduled]
           false samples.old_db samples.standup H1 H2 H3).
Defined.

(* ================================================================= *)
(** ** Further properties: a historical fetch from end to end *)

Lemma historical_accepted_rows {zone : TimeZone}
    (refuses : Sql -> bool) (ms : list MeetingRecord)
    (db : Db) :
  (forall s, refuses s = false) ->
  meetings (db_after (store_meetings_data refuses ms true db))
  = fold_left (store_step true) ms [].
Proof.
  intro Hacc. rewrite store_historical_eq by apply Hacc.
  cbn [db_after commit meetings].
  destruct (process_meetings_accepted refuses Hacc true ms (cleared_cursor db)
              zero_counters eq_refl) as (F & Hrun).
  rewrite F. apply (f_equal fst) in Hrun. cbn [fst] in Hrun.
  rewrite Hrun, accepted_run_rows. reflexivity.
Qed.

Lemma fold_historical_unique {zone : TimeZone} (ms : list MeetingRecord) : forall t,
  unique_event_ids t -> unique_event_ids (fold_left (store_step true) ms t).
Proof.
  induction ms as [|m ms IH]; intros t H; cbn [fold_left]; [exact H|].
  apply IH. unfold store_step. cbn [negb andb]. apply unique_insert. exact H.
Qed.

(** X23.  A historical fetch stores each event once.  When the engine
    refuses no statement and [fetch_historical_data] returns [True], the
    loop has ended with records, and the table then holds only rows made
    of fetched records, no two of them with the same [event_id], and a
    row for every fetched record that has an [event_id]: an event that
    two windows returned is stored once, and nothing of the old table
    is left. *)
Theorem historical_fetch_stores_each_event_once {zone : TimeZone}
    (service : Service)
    (env : string -> option string) (try_connect : nat -> db_connection.Try)
    (refuses : Sql -> bool) (now years_back : Z)
    (fuel : nat) (db db' : Db) :
  (forall s, refuses s = false) ->
  fetch_historical_data service env try_connect refuses now fuel years_back db
  = Some (true, db') ->
  exists st,
    batch_loop service fuel now
      (loop_start (now - timedelta_days (years_back * 365))) = Some st /\
    all_meetings st <> [] /\
    unique_event_ids (meetings db') /\
    (forall row, In row (meetings db') ->
       exists m, In m (all_meetings st) /\ row = row_of_meeting m) /\
    (forall m, In m (all_meetings st) -> event_id m <> None ->
       has_event_id (event_id m) (meetings db') = true).
Proof.
  intros Hacc Hrun. unfold fetch_historical_data in Hrun.
  destruct (authenticate service); cbn [negb] in Hrun; [|discriminate].
  destruct (minus_days now (years_back * 365)) as [start_date|] eqn:Hs;
    [|discriminate].
  apply minus_days_eq in Hs. rewrite <- Hs.
  destruct (batch_loop service fuel now _) as [st|]; [|discriminate].
  exists st. split; [reflexivity|].
  destruct (all_meetings st) as [|m0 ms0] eqn:Hall; [discriminate|].
  rewrite store_with_connection_eq in Hrun. cbn [option_map] in Hrun.
  destruct (connected env try_connect); [|discriminate].
  injection Hrun as _ <-.
  rewrite historical_accepted_rows by exact Hacc.
  split; [discriminate|]. split; [|split].
  - apply fold_historical_unique. exact I.
  - intros row Hrow. apply historical_rows in Hrow.
    destruct Hrow as [[] | (pre & m & post & Heq & _ & _ & ->)].
    exists m. split; [|reflexivity].
    rewrite Heq. apply in_or_app. right. left. reflexivity.
  - intros m Hm Hid. apply fold_store_step_finds; assumption.
Qed.

Lemma historical_fetch_stores_each_event_once_witness :
  (forall s, samples.accepts_all s = false) /\
  fetch_historical_data more_samples.busy_service more_samples.postgres_env
    more_samples.third_time_lucky samples.accepts_all
    (samples.day 20000) 13 1 samples.old_db
  = Some (true,
          mk_Db [row_of_meeting samples.sync]
                (DeleteMeetings :: repeat (InsertMeeting samples.sync) 12)) /\
  exists st,
    batch_loop more_samples.busy_service 13 (samples.day 20000)
      (loop_start (samples.day 20000 - timedelta_days (1 * 365))) = Some st /\
    all_meetings st <> [] /\
    unique_event_ids [row_of_meeting samples.sync] /\
    (forall row, In row [row_of_meeting samples.sync] ->
       exists m, In m (all_meetings st) /\ row = row_of_meeting m) /\
    (forall m, In m (all_meetings st) -> event_id m <> None ->
       has_event_id (event_id m) [row_of_meeting samples.sync] = true).
Proof.
  assert (H1 : forall s, samples.accepts_all s = false) by reflexivity.
  assert (H2 : fetch_historical_data more_samples.busy_service
                 more_samples.postgres_env more_samples.third_time_lucky
                 samples.accepts_all (samples.day 20000) 13 1 samples.old_db
               = Some (true,
                       mk_Db [row_of_meeting samples.sync]
                             (DeleteMeetings :: repeat (InsertMeeting samples.sync) 12)))
    by (vm_compute; reflexivity).
  split; [exact H1|]. split; [exact H2|].
  exact (historical_fetch_stores_each_event_once more_samples.busy_service
           more_samples.postgres_env more_samples.third_time_lucky
           samples.accepts_all (samples.day 20000) 1 13 samples.old_db _ H1 H2).
Defined.
